(** * fetch_unified_dataset: normalisers and the priority upsert

    A shallow embedding of [src/dataset/fetch_unified_dataset.py]:
    the two source normalisers ([normalize_autodev_listing],
    [normalize_marketcheck_listing]) and [UnifiedWriter.upsert], then the
    fetchers that drive them ([BaseFetcher._request],
    [BaseFetcher.insert_many], the two [run] loops), [parse_args],
    [build_fetcher] and the fetch of [main].

    Python values are an inductive type [pyval]; a Python [dict] with string
    keys is a [gmap string pyval]; a call that may raise returns in the
    error monad [res].  The helpers the module imports from
    [dataset_builder.merge_sqlite_datasets] ([to_int], [to_float], [to_bool],
    [empty_record]) are not among the sources and are modelled from the
    specification; the two tables it imports ([UNIFIED_COLUMNS], [PRIORITY])
    and the serialiser [json.dumps] are parameters of the development. *)

From Stdlib Require Import ZArith Ascii.
From Corelib Require Import SpecFloat.
From stdpp Require Import gmap strings list fin_maps pretty.

Local Open Scope string_scope.
Local Open Scope Z_scope.

(** ** Python values *)

(** A Python [float] is an IEEE-754 binary64 number, here a [spec_float] of
    precision 53 and maximal exponent 1024. *)
Abbreviation pyfloat := spec_float (only parsing).

#[warnings="-register-all"]
Inductive pyval : Type :=
| PNone
| PBool (b : bool)
| PInt (n : Z)
| PFloat (x : pyfloat)
| PStr (s : string)
| PList (l : list pyval)
| PDict (d : gmap string pyval).

(** A [dict] with string keys: a JSON object, or a unified record. *)
Abbreviation dict := (gmap string pyval) (only parsing).

(** The exceptions the modelled code can meet. *)
Inductive exn : Type :=
| AttributeError
| TypeError
| ValueError
| KeyError
| IndexError
| OverflowError
| ProgrammingError.

(** The result of a call: a value, or a raised exception. *)
Inductive res (A : Type) : Type :=
| Ok (a : A)
| Raise (e : exn).
Arguments Ok {A} a.
Arguments Raise {A} e.

#[global] Instance res_ret : MRet res := fun A a => Ok a.
#[global] Instance res_bind : MBind res := fun A B f m =>
  match m with
  | Ok a => f a
  | Raise e => Raise e
  end.
#[global] Instance res_fmap : FMap res := fun A B f m =>
  match m with
  | Ok a => Ok (f a)
  | Raise e => Raise e
  end.

Definition raises {A : Type} (m : res A) : bool :=
  match m with
  | Ok _ => false
  | Raise _ => true
  end.

(** ** Floats *)

Definition prec : Z := 53.
Definition emax : Z := 1024.

(** [float(n)] of an integer, before the overflow test. *)
Definition float_of_Z (n : Z) : pyfloat := binary_normalize prec emax n 0 false.

(** The binary64 number closest to [num / den], with the sign [neg]: the
    value a decimal literal such as [-122.4] denotes ([-1224 / 10]). *)
Definition float_of_ratio (neg : bool) (num den : positive) : pyfloat :=
  let '(mz, ez, lz) := SFdiv_core_binary prec emax (Zpos num) 0 (Zpos den) 0 in
  binary_round_aux prec emax neg mz ez lz.

Definition float_is_zero (x : pyfloat) : bool :=
  match x with
  | S754_zero _ => true
  | _ => false
  end.

Definition float_is_nan (x : pyfloat) : bool :=
  match x with
  | S754_nan => true
  | _ => false
  end.

(** [int(x)] of a float: truncation toward zero; infinities and NaN raise. *)
Definition float_trunc (x : pyfloat) : res Z :=
  match x with
  | S754_zero _ => Ok 0
  | S754_infinity _ => Raise OverflowError
  | S754_nan => Raise ValueError
  | S754_finite s m e => Ok (cond_Zopp s (Z.shiftl (Zpos m) e))
  end.

(** ** Strings

    A [str] is a [string]; its characters are read as code points below 256.
    Text with other code points is outside the model. *)

(** [c.isspace()] for a code point below 256. *)
Definition is_space (c : ascii) : bool :=
  let n := N_of_ascii c in
  ((9 <=? n) && (n <=? 13) || (28 <=? n) && (n <=? 32)
   || (n =? 133) || (n =? 160))%N.

(** [c.lower()] for a code point below 256. *)
Definition lower_char (c : ascii) : ascii :=
  let n := N_of_ascii c in
  if ((65 <=? n) && (n <=? 90)
      || (192 <=? n) && (n <=? 222) && negb (n =? 215))%N
  then ascii_of_N (n + 32) else c.

Fixpoint lower (s : string) : string :=
  match s with
  | EmptyString => EmptyString
  | String c s' => String (lower_char c) (lower s')
  end.

Fixpoint lstrip (s : string) : string :=
  match s with
  | EmptyString => EmptyString
  | String c s' => if is_space c then lstrip s' else s
  end.

(** [rstrip] keeps a character when it is no space or when something
    remains after it. *)
Fixpoint rstrip (s : string) : string :=
  match s with
  | EmptyString => EmptyString
  | String c s' =>
      match rstrip s' with
      | EmptyString => if is_space c then EmptyString else String c EmptyString
      | t => String c t
      end
  end.

(** [s.strip()] *)
Definition strip (s : string) : string := rstrip (lstrip s).

(** ** Built-in operations *)

(** [bool(v)]: the truth value the [if], [not] and [or] of the source test. *)
Definition truthy (v : pyval) : bool :=
  match v with
  | PNone => false
  | PBool b => b
  | PInt n => negb (n =? 0)
  | PFloat x => negb (float_is_zero x)
  | PStr s => match s with EmptyString => false | _ => true end
  | PList l => match l with [] => false | _ => true end
  | PDict d => negb (bool_decide (size d = 0%nat))
  end.

(** [d.get(k)] on a dict: the value, or [None] for a missing key. *)
Definition dict_get (d : dict) (k : string) : pyval := default PNone (d !! k).

(** [o.get(k)] on any value: only a dict has the attribute. *)
Definition get (o : pyval) (k : string) : res pyval :=
  match o with
  | PDict d => Ok (dict_get d k)
  | _ => Raise AttributeError
  end.

(** The first [.get] on an object: it raises unless the object is a dict,
    and the later ones on the same object then cannot. *)
Definition as_dict (o : pyval) : res dict :=
  match o with
  | PDict d => Ok d
  | _ => Raise AttributeError
  end.

(** [a or b], [b] without effects. *)
Definition py_or (a b : pyval) : pyval := if truthy a then a else b.

(** [a or b], [b] evaluated only when [a] is falsy. *)
Definition py_or_lazy (a : pyval) (b : res pyval) : res pyval :=
  if truthy a then Ok a else b.

(** [len(v)] *)
Definition py_len (v : pyval) : res Z :=
  match v with
  | PStr s => Ok (Z.of_nat (String.length s))
  | PList l => Ok (Z.of_nat (length l))
  | PDict d => Ok (Z.of_nat (size d))
  | _ => Raise TypeError
  end.

(** [v[i]] for a literal index [i >= 0].  The keys of a [dict] here are
    strings, so an integer subscript is a missing key. *)
Definition py_item (v : pyval) (i : nat) : res pyval :=
  match v with
  | PList l => match l !! i with Some x => Ok x | None => Raise IndexError end
  | PStr s =>
      match String.get i s with
      | Some c => Ok (PStr (String c EmptyString))
      | None => Raise IndexError
      end
  | PDict _ => Raise KeyError
  | _ => Raise TypeError
  end.

(** [d.update(items)]: the items are assigned in order. *)
Definition dict_update (items : list (string * pyval)) (d : dict) : dict :=
  foldl (fun acc kv => <[kv.1 := kv.2]> acc) d items.

(** The value [d.update(items)] leaves under the key [k], where [acc] is
    what [d] held there: the last item with that key wins. *)
Fixpoint alist_get (k : string) (items : list (string * pyval)) (acc : option pyval)
  : option pyval :=
  match items with
  | [] => acc
  | (k', v) :: rest => alist_get k rest (if String.eqb k' k then Some v else acc)
  end.

(** [d.setdefault(k, v)]: assigns only when the key [k] is missing, whatever
    the value stored under a present key. *)
Definition dict_setdefault (k : string) (v : pyval) (d : dict) : dict :=
  match d !! k with
  | Some _ => d
  | None => <[k := v]> d
  end.

(** ** Numeric text

    The decimal grammar of [int(s)] and [float(s)]: surrounding white space,
    an optional sign, runs of digits in which single underscores may stand
    between two digits, and for floats a fraction, an exponent, and the
    names [inf], [infinity] and [nan]. *)

(** The white space [int(s)] and [float(s)] skip around a number.  Both
    first turn every space from code point 127 on into a blank (below 256
    these are NEL, 133, and the no-break space, 160) and then skip the white
    space of C: the codes 9 to 13 and the blank.  The separators 28 to 31,
    which [str.strip] removes, are left in place and make the text invalid. *)
Definition is_numeric_space (c : ascii) : bool :=
  let n := N_of_ascii c in
  ((9 <=? n) && (n <=? 13) || (n =? 32) || (n =? 133) || (n =? 160))%N.

Fixpoint numeric_lstrip (s : string) : string :=
  match s with
  | EmptyString => EmptyString
  | String c s' => if is_numeric_space c then numeric_lstrip s' else s
  end.

Fixpoint numeric_rstrip (s : string) : string :=
  match s with
  | EmptyString => EmptyString
  | String c s' =>
      match numeric_rstrip s' with
      | EmptyString => if is_numeric_space c then EmptyString else String c EmptyString
      | t => String c t
      end
  end.

Definition numeric_strip (s : string) : string := numeric_rstrip (numeric_lstrip s).

(** [sys.get_int_max_str_digits()], at its default: [int(s)] refuses a
    decimal text of more digits. *)
Definition int_max_str_digits : Z := 4300.

Definition digit_of (c : ascii) : option Z :=
  let n := N_of_ascii c in
  if ((48 <=? n) && (n <=? 57))%N then Some (Z.of_N (n - 48)) else None.

Definition starts_with_digit (s : string) : bool :=
  match s with
  | String c _ => bool_decide (is_Some (digit_of c))
  | EmptyString => false
  end.

(** The longest run of digits at the head of [s], and what follows it;
    [after_digit] tells whether the previous character was a digit. *)
Fixpoint read_digits (after_digit : bool) (s : string) : list Z * string :=
  match s with
  | EmptyString => ([], s)
  | String c s' =>
      match digit_of c with
      | Some d => let '(ds, r) := read_digits true s' in (d :: ds, r)
      | None =>
          if after_digit && bool_decide (c = "_"%char) && starts_with_digit s'
          then read_digits false s'
          else ([], s)
      end
  end.

Definition digits_value (ds : list Z) : Z := foldl (fun a d => 10 * a + d) 0 ds.

(** An optional sign: whether it is a minus, and the rest. *)
Definition read_sign (s : string) : bool * string :=
  match s with
  | String "-" s' => (true, s')
  | String "+" s' => (false, s')
  | _ => (false, s)
  end.

(** [int(s)] of a string; [None] stands for its [ValueError].  The digits
    are counted, leading zeros too, and not the underscores. *)
Definition parse_int (s : string) : option Z :=
  let '(neg, body) := read_sign (numeric_strip s) in
  match read_digits false body with
  | (d :: ds, EmptyString) =>
      if Z.of_nat (length (d :: ds)) <=? int_max_str_digits
      then Some (cond_Zopp neg (digits_value (d :: ds)))
      else None
  | _ => None
  end.

(** The float [m * 10^e] denotes, for a natural number [m]. *)
Definition float_of_decimal (neg : bool) (m e : Z) : pyfloat :=
  if m =? 0 then S754_zero neg
  else if 0 <=? e then binary_normalize prec emax (cond_Zopp neg (m * 10 ^ e)) 0 neg
  else float_of_ratio neg (Z.to_pos m) (Z.to_pos (10 ^ (- e))).

(** The exponent part, [e] or [E], a sign and digits, up to the end. *)
Definition read_exponent (s : string) : option Z :=
  match s with
  | EmptyString => Some 0
  | String c s' =>
      if bool_decide (lower_char c = "e"%char) then
        let '(neg, body) := read_sign s' in
        match read_digits false body with
        | (d :: ds, EmptyString) => Some (cond_Zopp neg (digits_value (d :: ds)))
        | _ => None
        end
      else None
  end.

(** [float(s)] of a string; [None] stands for its [ValueError]. *)
Definition parse_float (s : string) : option pyfloat :=
  let '(neg, body) := read_sign (numeric_strip s) in
  let name := lower body in
  if bool_decide (name = "inf") || bool_decide (name = "infinity")
  then Some (S754_infinity neg)
  else if bool_decide (name = "nan") then Some S754_nan
  else
    let '(ds1, r1) := read_digits false body in
    let '(ds2, r2) :=
      match r1 with
      | String "." r => read_digits false r
      | _ => ([], r1)
      end in
    match (ds1 ++ ds2)%list with
    | [] => None
    | ds =>
        e ← read_exponent r2;
        Some (float_of_decimal neg (digits_value ds) (e - Z.of_nat (length ds2)))
    end.

(** [int(v)] *)
Definition py_int (v : pyval) : res Z :=
  match v with
  | PBool b => Ok (if b then 1 else 0)
  | PInt n => Ok n
  | PFloat x => float_trunc x
  | PStr s => match parse_int s with Some n => Ok n | None => Raise ValueError end
  | PNone | PList _ | PDict _ => Raise TypeError
  end.

(** [float(v)]; an integer beyond the range of binary64 overflows. *)
Definition py_float (v : pyval) : res pyfloat :=
  match v with
  | PBool b => Ok (float_of_Z (if b then 1 else 0))
  | PInt n =>
      match float_of_Z n with
      | S754_infinity _ => Raise OverflowError
      | x => Ok x
      end
  | PFloat x => Ok x
  | PStr s => match parse_float s with Some x => Ok x | None => Raise ValueError end
  | PNone | PList _ | PDict _ => Raise TypeError
  end.

(** ** The coercions of [dataset_builder.merge_sqlite_datasets] *)

(** Modelled from the spec: [to_int] of [merge_sqlite_datasets], which is
    not among the sources.  "Attempt numeric parse; on failure or null
    input, return an unset value rather than failing." *)
Definition to_int (v : pyval) : option Z :=
  match v with
  | PNone => None
  | _ => match py_int v with Ok n => Some n | Raise _ => None end
  end.

(** Modelled from the spec: [to_float] of [merge_sqlite_datasets], which is
    not among the sources; the same contract as [to_int]. *)
Definition to_float (v : pyval) : option pyfloat :=
  match v with
  | PNone => None
  | _ => match py_float v with Ok x => Some x | Raise _ => None end
  end.

(** The textual forms [to_bool] recognises. *)
Definition bool_of_text (s : string) : option bool :=
  let t := lower (strip s) in
  if bool_decide (t = "true") || bool_decide (t = "1") || bool_decide (t = "yes")
  then Some true
  else if bool_decide (t = "false") || bool_decide (t = "0") || bool_decide (t = "no")
  then Some false
  else None.

(** Modelled from the spec: [to_bool] of [merge_sqlite_datasets], which is
    not among the sources.  It "normalizes truthy/falsy textual and numeric
    representations (e.g. true/false/1/0/yes/no style) to a strict boolean
    or unset value". *)
Definition to_bool (v : pyval) : option bool :=
  match v with
  | PBool b => Some b
  | PInt n => if n =? 1 then Some true else if n =? 0 then Some false else None
  | PFloat x =>
      if float_is_zero x then Some false
      else if SFeqb x (float_of_Z 1) then Some true else None
  | PStr s => bool_of_text s
  | PNone | PList _ | PDict _ => None
  end.

(** The coerced value as it is stored in a record: unset is [None]. *)
Definition of_int (o : option Z) : pyval := from_option PInt PNone o.
Definition of_float (o : option pyfloat) : pyval := from_option PFloat PNone o.
Definition of_bool (o : option bool) : pyval := from_option PBool PNone o.

(** ** The normalisers *)

Section Normalizers.

(** [UNIFIED_COLUMNS] of [merge_sqlite_datasets]: the fixed, ordered list
    of column names of the unified table. *)
Variable UNIFIED_COLUMNS : list string.

(** [json.dumps(v, ensure_ascii=b)], the serialiser of the standard
    library; its text plays no part in the properties below. *)
Variable json_dumps : bool -> pyval -> string.

(** Modelled from the spec: [empty_record] of [merge_sqlite_datasets],
    which is not among the sources.  It "returns a record with all unified
    columns present and set to an unset value". *)
Definition empty_record : dict :=
  dict_update ((fun c => (c, PNone)) <$> UNIFIED_COLUMNS) ∅.

(** [json.dumps(v) if v else None] *)
Definition dumps_if (ensure_ascii : bool) (v : pyval) : pyval :=
  if truthy v then PStr (json_dumps ensure_ascii v) else PNone.

(** The backfill of [build_std_seating]: [seats] is the [to_int] result
    stored under [seats], an integer or [None]; [str] of an integer is
    its decimal text. *)
Definition setdefault_seating (record : dict) : dict :=
  match dict_get record "seats" with
  | PInt n => dict_setdefault "build_std_seating" (PStr (pretty n)) record
  | _ => record
  end.

(** Lines 165-177: the [build_*] fields defaulted from the generic ones. *)
Definition autodev_backfill (record : dict) : dict :=
  let record := dict_setdefault "build_year" (dict_get record "year") record in
  let record := dict_setdefault "build_make" (dict_get record "make") record in
  let record := dict_setdefault "build_model" (dict_get record "model") record in
  let record := dict_setdefault "build_trim" (dict_get record "trim") record in
  let record := dict_setdefault "build_body_type" (dict_get record "body_style") record in
  let record := dict_setdefault "build_fuel_type" (dict_get record "fuel_type") record in
  let record := dict_setdefault "build_transmission" (dict_get record "transmission") record in
  let record := dict_setdefault "build_drivetrain" (dict_get record "drivetrain") record in
  let record := dict_setdefault "build_engine" (dict_get record "engine") record in
  let record := dict_setdefault "build_doors" (dict_get record "doors") record in
  setdefault_seating record.

Definition normalize_autodev_listing (listing : dict) (fetched_at : string)
  : res (option dict) :=
  let vehicle := py_or (dict_get listing "vehicle") (PDict ∅) in
  let retail := py_or (dict_get listing "retailListing") (PDict ∅) in
  retail_d ← as_dict retail;
  let dealer_details := py_or (dict_get retail_d "dealerDetails") (PDict ∅) in
  let location := py_or (dict_get listing "location") (PList []) in
  let photos := py_or (dict_get retail_d "photos") (PList []) in
  vehicle_d ← as_dict vehicle;
  let vin := dict_get vehicle_d "vin" in
  if negb (truthy vin) then mret None else
  (* the entries of the dict literal that can raise, in their order *)
  dealer_name ← py_or_lazy (dict_get retail_d "dealer") (get dealer_details "name");
  dealer_city ← py_or_lazy (dict_get retail_d "city") (get dealer_details "city");
  dealer_state ← py_or_lazy (dict_get retail_d "state") (get dealer_details "state");
  dealer_zip ← py_or_lazy (dict_get retail_d "zip") (get dealer_details "zip");
  dealer_phone ← py_or_lazy (dict_get retail_d "phone") (get dealer_details "phone");
  latitude ← (n ← py_len location;
              if 1 <? n then py_item location 1 else get dealer_details "latitude");
  longitude ← (if truthy location then py_item location 0
               else get dealer_details "longitude");
  primary_image ← py_or_lazy (dict_get retail_d "primaryImage")
                    (if truthy photos then py_item photos 0 else mret PNone);
  photo_count ← py_or_lazy (of_int (to_int (dict_get retail_d "photoCount")))
                  (if truthy photos then PInt <$> py_len photos else mret PNone);
  let used := dict_get retail_d "used" in
  let record := dict_update
    [ ("vin", vin);
      ("listing_id", py_or (dict_get listing "id") (dict_get listing "listingId"));
      ("heading", py_or (dict_get retail_d "title") (dict_get vehicle_d "model"));
      ("source", PStr "autodev");
      ("price", of_int (to_int (dict_get retail_d "price")));
      ("mileage", of_int (to_int (dict_get retail_d "miles")));
      ("msrp", of_int (to_int (dict_get retail_d "msrp")));
      ("listing_created_at", dict_get listing "createdAt");
      ("online", of_bool (to_bool (dict_get listing "online")));
      ("data_fetched_at", PStr fetched_at);
      ("year", of_int (to_int (dict_get vehicle_d "year")));
      ("make", dict_get vehicle_d "make");
      ("model", dict_get vehicle_d "model");
      ("trim", dict_get vehicle_d "trim");
      ("body_style", dict_get vehicle_d "bodyStyle");
      ("drivetrain", dict_get vehicle_d "drivetrain");
      ("engine", dict_get vehicle_d "engine");
      ("fuel_type", dict_get vehicle_d "fuel");
      ("transmission", dict_get vehicle_d "transmission");
      ("doors", of_int (to_int (dict_get vehicle_d "doors")));
      ("seats", of_int (to_int (dict_get vehicle_d "seats")));
      ("exterior_color", dict_get vehicle_d "exteriorColor");
      ("interior_color", dict_get vehicle_d "interiorColor");
      ("inventory_type",
         match used with
         | PBool true => PStr "used"
         | PBool false => PStr "new"
         | _ => PNone
         end);
      ("is_used", of_bool (to_bool used));
      ("is_cpo", of_bool (to_bool (dict_get retail_d "cpo")));
      ("is_certified", of_bool (to_bool (dict_get retail_d "cpo")));
      ("stock_number", dict_get retail_d "stockNumber");
      ("dealer_name", dealer_name);
      ("dealer_city", dealer_city);
      ("dealer_state", dealer_state);
      ("dealer_zip", dealer_zip);
      ("dealer_phone", dealer_phone);
      ("dealer_latitude", of_float (to_float latitude));
      ("dealer_longitude", of_float (to_float longitude));
      ("primary_image_url", primary_image);
      ("photo_count", photo_count);
      ("vdp_url", dict_get retail_d "vdp");
      ("carfax_url", dict_get retail_d "carfaxUrl");
      ("dealer_json", dumps_if true dealer_details);
      ("build_json", dumps_if true vehicle);
      ("data_source", PStr "autodev");
      ("carfax_one_owner", of_bool (to_bool (dict_get retail_d "carfaxOneOwner")));
      ("carfax_clean_title", of_bool (to_bool (dict_get retail_d "carfaxCleanTitle")));
      ("raw_json", PStr (json_dumps false (PDict listing))) ]
    empty_record in
  let record :=
    if truthy photos
    then <["media_json" := PStr (json_dumps false (PDict {["photos" := photos]}))]> record
    else record in
  mret (Some (autodev_backfill record)).

(** Lines 195-202: the used flag read off the [inventory_type] token. *)
Definition marketcheck_is_used (inventory_type : pyval) : pyval :=
  match inventory_type with
  | PStr s =>
      let normalized := lower (strip s) in
      if bool_decide (normalized = "used") then PInt 1
      else if bool_decide (normalized = "new") then PInt 0
      else PNone
  | _ => PNone
  end.

(** Lines 295-304: the generic fields defaulted from the [build_*] ones. *)
Definition marketcheck_backfill (record : dict) : dict :=
  let record := dict_setdefault "year" (dict_get record "build_year") record in
  let record := dict_setdefault "make" (dict_get record "build_make") record in
  let record := dict_setdefault "model" (dict_get record "build_model") record in
  let record := dict_setdefault "trim" (dict_get record "build_trim") record in
  let record := dict_setdefault "body_style" (dict_get record "build_body_type") record in
  let record := dict_setdefault "drivetrain" (dict_get record "build_drivetrain") record in
  let record := dict_setdefault "engine" (dict_get record "build_engine") record in
  let record := dict_setdefault "fuel_type" (dict_get record "build_fuel_type") record in
  let record := dict_setdefault "transmission" (dict_get record "build_transmission") record in
  dict_setdefault "doors" (dict_get record "build_doors") record.

Definition normalize_marketcheck_listing (listing : dict) (fetched_at : string)
  : res (option dict) :=
  let vin := dict_get listing "vin" in
  if negb (truthy vin) then mret None else
  let build := py_or (dict_get listing "build") (PDict ∅) in
  let dealer := py_or (dict_get listing "dealer") (PDict ∅) in
  let mc_dealership := py_or (dict_get listing "mc_dealership") (PDict ∅) in
  let financing := py_or (dict_get listing "financing_options") (PDict ∅) in
  let leasing := py_or (dict_get listing "leasing_options") (PDict ∅) in
  let media := py_or (dict_get listing "media") (PDict ∅) in
  media_d ← as_dict media;
  let photo_links := py_or (dict_get media_d "photo_links") (PList []) in
  let inventory_type := dict_get listing "inventory_type" in
  let is_used := marketcheck_is_used inventory_type in
  (* the entries of the first dict literal that can raise, in their order *)
  dealer_d ← as_dict dealer;
  primary_image ← (if truthy photo_links then py_item photo_links 0 else mret PNone);
  photo_count ← (if truthy photo_links then PInt <$> py_len photo_links
                 else mret (of_int (to_int (dict_get listing "photo_count"))));
  let record := dict_update
    [ ("vin", vin);
      ("listing_id", dict_get listing "id");
      ("heading", dict_get listing "heading");
      ("source", PStr "marketcheck");
      ("price", of_int (to_int (dict_get listing "price")));
      ("mileage", of_int (to_int (dict_get listing "miles")));
      ("msrp", of_int (to_int (dict_get listing "msrp")));
      ("ref_price", of_int (to_int (dict_get listing "ref_price")));
      ("price_change_percent", of_float (to_float (dict_get listing "price_change_percent")));
      ("ref_price_dt", of_int (to_int (dict_get listing "ref_price_dt")));
      ("ref_miles", of_int (to_int (dict_get listing "ref_miles")));
      ("ref_miles_dt", of_int (to_int (dict_get listing "ref_miles_dt")));
      ("first_seen_at", of_int (to_int (dict_get listing "first_seen_at")));
      ("first_seen_at_date", dict_get listing "first_seen_at_date");
      ("first_seen_at_source", of_int (to_int (dict_get listing "first_seen_at_source")));
      ("first_seen_at_source_date", dict_get listing "first_seen_at_source_date");
      ("first_seen_at_mc", of_int (to_int (dict_get listing "first_seen_at_mc")));
      ("first_seen_at_mc_date", dict_get listing "first_seen_at_mc_date");
      ("last_seen_at", of_int (to_int (dict_get listing "last_seen_at")));
      ("last_seen_at_date", dict_get listing "last_seen_at_date");
      ("scraped_at", of_int (to_int (dict_get listing "scraped_at")));
      ("scraped_at_date", dict_get listing "scraped_at_date");
      ("data_fetched_at", PStr fetched_at);
      ("exterior_color", dict_get listing "exterior_color");
      ("interior_color", dict_get listing "interior_color");
      ("base_ext_color", dict_get listing "base_ext_color");
      ("base_int_color", dict_get listing "base_int_color");
      ("dom", of_int (to_int (dict_get listing "dom")));
      ("dom_180", of_int (to_int (dict_get listing "dom_180")));
      ("dom_active", of_int (to_int (dict_get listing "dom_active")));
      ("dos_active", of_int (to_int (dict_get listing "dos_active")));
      ("seller_type", dict_get listing "seller_type");
      ("inventory_type", inventory_type);
      ("availability_status", dict_get listing "availability_status");
      ("is_certified", of_bool (to_bool (dict_get listing "is_certified")));
      ("is_cpo", of_bool (to_bool (dict_get listing "is_certified")));
      ("is_used", is_used);
      ("in_transit", of_bool (to_bool (dict_get listing "in_transit")));
      ("model_code", dict_get listing "model_code");
      ("stock_number", dict_get listing "stock_no");
      ("dealer_name", dict_get dealer_d "name");
      ("dealer_city", dict_get dealer_d "city");
      ("dealer_state", dict_get dealer_d "state");
      ("dealer_zip", dict_get dealer_d "zip");
      ("dealer_phone", dict_get dealer_d "phone");
      ("dealer_latitude", of_float (to_float (dict_get dealer_d "latitude")));
      ("dealer_longitude", of_float (to_float (dict_get dealer_d "longitude")));
      ("dealer_country", dict_get dealer_d "country");
      ("dealer_type", dict_get dealer_d "dealer_type");
      ("dealer_msa_code", dict_get dealer_d "msa_code");
      ("dist", of_float (to_float (dict_get listing "dist")));
      ("vdp_url", dict_get listing "vdp_url");
      ("carfax_one_owner", of_bool (to_bool (dict_get listing "carfax_1_owner")));
      ("carfax_clean_title", of_bool (to_bool (dict_get listing "carfax_clean_title")));
      ("primary_image_url", primary_image);
      ("photo_count", photo_count);
      ("financing_options_json", dumps_if false financing);
      ("leasing_options_json", dumps_if false leasing);
      ("media_json", dumps_if false media);
      ("dealer_json", dumps_if false dealer);
      ("mc_dealership_json", dumps_if false mc_dealership);
      ("build_json", dumps_if false build);
      ("data_source", py_or (dict_get listing "data_source") (PStr "marketcheck"));
      ("raw_json", PStr (json_dumps false (PDict listing))) ]
    empty_record in
  build_d ← as_dict build;
  let record := dict_update
    [ ("build_year", of_int (to_int (dict_get build_d "year")));
      ("build_make", dict_get build_d "make");
      ("build_model", dict_get build_d "model");
      ("build_trim", dict_get build_d "trim");
      ("build_version", dict_get build_d "version");
      ("build_body_type", dict_get build_d "body_type");
      ("build_vehicle_type", dict_get build_d "vehicle_type");
      ("build_transmission", dict_get build_d "transmission");
      ("build_drivetrain", dict_get build_d "drivetrain");
      ("build_fuel_type", dict_get build_d "fuel_type");
      ("build_engine", dict_get build_d "engine");
      ("build_doors", of_int (to_int (dict_get build_d "doors")));
      ("build_cylinders", of_int (to_int (dict_get build_d "cylinders")));
      ("build_std_seating", dict_get build_d "std_seating");
      ("build_highway_mpg", of_int (to_int (dict_get build_d "highway_mpg")));
      ("build_city_mpg", of_int (to_int (dict_get build_d "city_mpg"))) ]
    record in
  mret (Some (marketcheck_backfill record)).

End Normalizers.

(** ** The store

    The table [unified_vehicle_listings] of the SQLite database.  The schema
    file [unified_schema.sql] is not among the sources. *)

(** A value as SQLite stores it. *)
Inductive sqlval : Type :=
| SNull
| SInteger (n : Z)
| SReal (x : pyfloat)
| SText (s : string).

#[global] Instance spec_float_eq_dec : EqDecision spec_float.
Proof. solve_decision. Defined.

#[global] Instance sqlval_eq_dec : EqDecision sqlval.
Proof. solve_decision. Defined.

Definition float_to_sum (x : pyfloat) : bool + bool + unit + bool * positive * Z :=
  match x with
  | S754_zero s => inl (inl (inl s))
  | S754_infinity s => inl (inl (inr s))
  | S754_nan => inl (inr ())
  | S754_finite s m e => inr (s, m, e)
  end.

Definition float_of_sum (x : bool + bool + unit + bool * positive * Z) : pyfloat :=
  match x with
  | inl (inl (inl s)) => S754_zero s
  | inl (inl (inr s)) => S754_infinity s
  | inl (inr _) => S754_nan
  | inr (s, m, e) => S754_finite s m e
  end.

#[global] Instance spec_float_countable : Countable spec_float.
Proof.
  apply (inj_countable' float_to_sum float_of_sum).
  intros []; reflexivity.
Defined.

Definition sqlval_to_sum (v : sqlval) : unit + Z + spec_float + string :=
  match v with
  | SNull => inl (inl (inl ()))
  | SInteger n => inl (inl (inr n))
  | SReal x => inl (inr x)
  | SText s => inr s
  end.

Definition sqlval_of_sum (v : unit + Z + spec_float + string) : sqlval :=
  match v with
  | inl (inl (inl _)) => SNull
  | inl (inl (inr n)) => SInteger n
  | inl (inr x) => SReal x
  | inr s => SText s
  end.

#[global] Instance sqlval_countable : Countable sqlval.
Proof.
  apply (inj_countable' sqlval_to_sum sqlval_of_sum).
  intros []; reflexivity.
Defined.

(** A stored row: the value of each column. *)
Abbreviation row := (gmap string sqlval) (only parsing).

(** Modelled from the spec: the table holds "one row per VIN (VIN is the
    natural key / uniqueness constraint)"; it is keyed by the stored [vin]. *)
Abbreviation table := (gmap sqlval (gmap string sqlval)) (only parsing).

(** What [sqlite3] stores for a statement parameter.  A [bool] is an [int];
    an integer must fit 64 bits; a NaN is stored as NULL; a list or a dict
    is no supported parameter type.  Text is stored in UTF-8, into which
    every text of code points below 256 encodes. *)
Definition sql_of (v : pyval) : sqlval :=
  match v with
  | PBool b => SInteger (if b then 1 else 0)
  | PInt n => SInteger n
  | PFloat x => if float_is_nan x then SNull else SReal x
  | PStr s => SText s
  | PNone | PList _ | PDict _ => SNull
  end.

Definition bind_param (v : pyval) : res sqlval :=
  match v with
  | PInt n =>
      if (- 2 ^ 63 <=? n) && (n <? 2 ^ 63) then Ok (sql_of v)
      else Raise OverflowError
  | PList _ | PDict _ => Raise ProgrammingError
  | _ => Ok (sql_of v)
  end.

Definition storable (v : pyval) : bool := negb (raises (bind_param v)).

Section Writer.

Variable UNIFIED_COLUMNS : list string.

(** [PRIORITY] of [merge_sqlite_datasets]: source name to precedence. *)
Variable PRIORITY : gmap string Z.

(** [PRIORITY.get(source, 0)] for a value read back from the table. *)
Definition stored_priority (source : sqlval) : Z :=
  match source with
  | SText s => default 0 (PRIORITY !! s)
  | _ => 0
  end.

(** [PRIORITY.get(source, 0)] for a value of the record: the keys of the
    table are source names, and a list or a dict cannot be hashed. *)
Definition priority_get (source : pyval) : res Z :=
  match source with
  | PStr s => Ok (default 0 (PRIORITY !! s))
  | PList _ | PDict _ => Raise TypeError
  | _ => Ok 0
  end.

(** [SELECT source FROM unified_vehicle_listings WHERE vin = ?], then
    [fetchone()]: the stored source of the row with that VIN.  NULL
    equals nothing. *)
Definition select_source (vin : sqlval) (db : table) : option sqlval :=
  match vin with
  | SNull => None
  | _ => r ← db !! vin; Some (default SNull (r !! "source"))
  end.

(** The row the INSERT statement builds: one placeholder per unified
    column, in the order of [UNIFIED_COLUMNS]. *)
Definition row_of_values (values : list sqlval) : gmap string sqlval :=
  list_to_map (zip UNIFIED_COLUMNS values).

(** [INSERT OR REPLACE]: the row takes the place of the row with its VIN. *)
Definition insert_or_replace (r : gmap string sqlval) (db : table) : table :=
  <[default SNull (r !! "vin") := r]> db.

(** [UnifiedWriter.upsert], on the table as state: the returned flag and
    the table afterwards. *)
Definition upsert (record : dict) (db : table) : res (bool * table) :=
  let vin := dict_get record "vin" in
  if negb (truthy vin) then mret (false, db) else
  let source := dict_get record "source" in
  if negb (truthy source) then mret (false, db) else
  key ← bind_param vin;
  let existing := select_source key db in
  keep ← match existing with
         | Some existing_source =>
             p ← priority_get source;
             mret (stored_priority existing_source >? p)
         | None => mret false
         end;
  if keep : bool then mret (false, db) else
  values ← mapM (fun column => bind_param (dict_get record column)) UNIFIED_COLUMNS;
  mret (true, insert_or_replace (row_of_values values) db).

(** The row of a record whose values can all be stored. *)
Definition row_of (record : dict) : gmap string sqlval :=
  row_of_values ((fun column => sql_of (dict_get record column)) <$> UNIFIED_COLUMNS).

(** Every column value of the record is one SQLite can store. *)
Definition storable_record (record : dict) : Prop :=
  forall column, column ∈ UNIFIED_COLUMNS -> storable (dict_get record column) = true.

End Writer.

(** ** Sample tables

    The imported tables are parameters; the examples instantiate them. *)

(** A column list: the columns the two normalisers write. *)
Definition sample_columns : list string :=
  [ "vin"; "listing_id"; "heading"; "source"; "price"; "mileage"; "msrp";
    "listing_created_at"; "online"; "data_fetched_at"; "year"; "make";
    "model"; "trim"; "body_style"; "drivetrain"; "engine"; "fuel_type";
    "transmission"; "doors"; "seats"; "exterior_color"; "interior_color";
    "inventory_type"; "is_used"; "is_cpo"; "is_certified"; "stock_number";
    "dealer_name"; "dealer_city"; "dealer_state"; "dealer_zip";
    "dealer_phone"; "dealer_latitude"; "dealer_longitude";
    "primary_image_url"; "photo_count"; "vdp_url"; "carfax_url";
    "dealer_json"; "build_json"; "data_source"; "carfax_one_owner";
    "carfax_clean_title"; "raw_json"; "media_json"; "build_year";
    "build_make"; "build_model"; "build_trim"; "build_body_type";
    "build_fuel_type"; "build_transmission"; "build_drivetrain";
    "build_engine"; "build_doors"; "build_std_seating"; "ref_price";
    "price_change_percent"; "ref_price_dt"; "ref_miles"; "ref_miles_dt";
    "first_seen_at"; "first_seen_at_date"; "first_seen_at_source";
    "first_seen_at_source_date"; "first_seen_at_mc";
    "first_seen_at_mc_date"; "last_seen_at"; "last_seen_at_date";
    "scraped_at"; "scraped_at_date"; "base_ext_color"; "base_int_color";
    "dom"; "dom_180"; "dom_active"; "dos_active"; "seller_type";
    "availability_status"; "in_transit"; "model_code"; "dealer_country";
    "dealer_type"; "dealer_msa_code"; "dist"; "financing_options_json";
    "leasing_options_json"; "mc_dealership_json"; "build_version";
    "build_vehicle_type"; "build_cylinders"; "build_highway_mpg";
    "build_city_mpg" ].

(** A priority table with the precedences of the specification's scenario:
    Marketcheck 10, Auto.dev 5. *)
Definition sample_priority : gmap string Z :=
  {[ "marketcheck" := 10; "autodev" := 5 ]}.

(** A serialiser for the examples: the kind of the value only. *)
Definition sample_dumps (ensure_ascii : bool) (v : pyval) : string :=
  match v with
  | PNone => "null"
  | PBool true => "true"
  | PBool false => "false"
  | PInt n => pretty n
  | PFloat _ => "<float>"
  | PStr s => s
  | PList _ => "[...]"
  | PDict _ => "{...}"
  end.

(** The timestamp and the listings of the examples. *)
Definition sample_fetched_at : string := "2024-01-01T00:00:00".

Definition sample_vin : pyval := PStr "1FAKE000000000001".

Definition sample_year_listing : dict :=
  {[ "vehicle" := PDict {[ "vin" := sample_vin; "year" := PInt 2020 ]} ]}.

(** The floats the literals [-122.4] and [37.8] denote. *)
Definition sample_longitude : pyfloat := float_of_ratio true 1224 10.
Definition sample_latitude : pyfloat := float_of_ratio false 378 10.

Definition sample_location_listing : dict :=
  {[ "vehicle" := PDict {[ "vin" := sample_vin ]};
     "location" := PList [PFloat sample_longitude; PFloat sample_latitude] ]}.

Definition sample_used_listing : dict :=
  {[ "vehicle" := PDict {[ "vin" := sample_vin ]};
     "retailListing" := PDict {[ "used" := PBool true ]} ]}.

Definition sample_marketcheck_listing : dict :=
  {[ "vin" := sample_vin; "inventory_type" := PStr " Used " ]}.

(** The records and the table of the specification's scenario: a
    Marketcheck row for the sample VIN, then records for the same VIN. *)
Definition sample_marketcheck_record : dict :=
  {[ "vin" := sample_vin; "source" := PStr "marketcheck"; "price" := PInt 15000 ]}.

Definition sample_autodev_record : dict :=
  {[ "vin" := sample_vin; "source" := PStr "autodev"; "price" := PInt 14000 ]}.

Definition sample_table : gmap sqlval (gmap string sqlval) :=
  {[ SText "1FAKE000000000001" := row_of sample_columns sample_marketcheck_record ]}.

(** A row written by a source the priority table does not know. *)
Definition sample_legacy_record : dict :=
  {[ "vin" := sample_vin; "source" := PStr "legacy"; "price" := PInt 9000 ]}.

Definition sample_legacy_table : gmap sqlval (gmap string sqlval) :=
  {[ SText "1FAKE000000000001" := row_of sample_columns sample_legacy_record ]}.

(** Whether a normaliser produced a record, and the record it produced. *)
Definition produced (m : res (option dict)) : bool :=
  match m with
  | Ok (Some _) => true
  | _ => false
  end.

Definition record_of (m : res (option dict)) : dict :=
  match m with
  | Ok (Some r) => r
  | _ => ∅
  end.

(** Every column of [r] outside [exempt] is unset. *)
Definition unset_outside (exempt : list string) (r : dict) : Prop :=
  forall k v, r !! k = Some v -> k ∉ exempt -> v = PNone.

(** The columns a VIN-only listing still fills: the identity and the
    listing metadata. *)
Definition identity_columns : list string :=
  ["vin"; "source"; "data_source"; "data_fetched_at"; "raw_json"].


(** ** Observations on a call of [upsert] *)

(** Whether the call returned [True]. *)
Definition accepted (m : res (bool * gmap sqlval (gmap string sqlval))) : bool :=
  match m with
  | Ok (b, _) => b
  | Raise _ => false
  end.

(** The table after the call.  A call that raises has written nothing: the
    parameters of a statement are bound before it runs. *)
Definition table_after (db : gmap sqlval (gmap string sqlval))
    (m : res (bool * gmap sqlval (gmap string sqlval))) : gmap sqlval (gmap string sqlval) :=
  match m with
  | Ok (_, db') => db'
  | Raise _ => db
  end.

(** The table after [upsert(record)], on the table [db]. *)
Definition table_after_upsert (UNIFIED_COLUMNS : list string) (PRIORITY : gmap string Z)
    (record : gmap string pyval) (db : gmap sqlval (gmap string sqlval))
  : gmap sqlval (gmap string sqlval) :=
  table_after db (upsert UNIFIED_COLUMNS PRIORITY record db).

(** ** The shape of a listing *)

(** A value the normalisers read as a JSON object: an object, or a falsy
    value, in whose place [or {}] puts the empty object. *)
Definition object_or_falsy (v : pyval) : bool :=
  match v with
  | PDict _ => true
  | _ => negb (truthy v)
  end.

(** A value the normalisers read as a JSON array: an array, or a falsy
    value, in whose place [or []] puts the empty array. *)
Definition array_or_falsy (v : pyval) : bool :=
  match v with
  | PList _ => true
  | _ => negb (truthy v)
  end.

(** An Auto.dev listing of the expected shape: [vehicle], [retailListing]
    and its [dealerDetails] are objects, [location] and the [photos] of the
    retail listing are arrays, each where it is present and not falsy. *)
Definition autodev_well_formed (listing : gmap string pyval) : bool :=
  object_or_falsy (dict_get listing "vehicle")
  && array_or_falsy (dict_get listing "location")
  && match dict_get listing "retailListing" with
     | PDict retail =>
         object_or_falsy (dict_get retail "dealerDetails")
         && array_or_falsy (dict_get retail "photos")
     | retail => negb (truthy retail)
     end.

(** A Marketcheck listing of the expected shape: [build], [dealer] and
    [media] are objects and the [photo_links] of the media an array, each
    where it is present and not falsy. *)
Definition marketcheck_well_formed (listing : gmap string pyval) : bool :=
  object_or_falsy (dict_get listing "build")
  && object_or_falsy (dict_get listing "dealer")
  && match dict_get listing "media" with
     | PDict media => array_or_falsy (dict_get media "photo_links")
     | media => negb (truthy media)
     end.

(** The VIN an Auto.dev listing carries, in its [vehicle] object. *)
Definition autodev_vin (listing : gmap string pyval) : pyval :=
  match dict_get listing "vehicle" with
  | PDict vehicle => dict_get vehicle "vin"
  | _ => PNone
  end.

(** The columns lines 165-177 default for an Auto.dev record. *)
Definition autodev_backfilled : list string :=
  [ "build_year"; "build_make"; "build_model"; "build_trim"; "build_body_type";
    "build_fuel_type"; "build_transmission"; "build_drivetrain"; "build_engine";
    "build_doors"; "build_std_seating" ].

(** The columns lines 295-304 default for a Marketcheck record. *)
Definition marketcheck_backfilled : list string :=
  [ "year"; "make"; "model"; "trim"; "body_style"; "drivetrain"; "engine";
    "fuel_type"; "transmission"; "doors" ].

(** ** The record before the backfill *)

Section Records.

Variable UNIFIED_COLUMNS : list string.
Variable json_dumps : bool -> pyval -> string.

(** [normalize_autodev_listing] up to line 163: the record as it stands
    when the [setdefault] calls of lines 165-177 begin. *)
Definition autodev_record (listing : dict) (fetched_at : string)
  : res (option dict) :=
  let vehicle := py_or (dict_get listing "vehicle") (PDict ∅) in
  let retail := py_or (dict_get listing "retailListing") (PDict ∅) in
  retail_d ← as_dict retail;
  let dealer_details := py_or (dict_get retail_d "dealerDetails") (PDict ∅) in
  let location := py_or (dict_get listing "location") (PList []) in
  let photos := py_or (dict_get retail_d "photos") (PList []) in
  vehicle_d ← as_dict vehicle;
  let vin := dict_get vehicle_d "vin" in
  if negb (truthy vin) then mret None else
  (* the entries of the dict literal that can raise, in their order *)
  dealer_name ← py_or_lazy (dict_get retail_d "dealer") (get dealer_details "name");
  dealer_city ← py_or_lazy (dict_get retail_d "city") (get dealer_details "city");
  dealer_state ← py_or_lazy (dict_get retail_d "state") (get dealer_details "state");
  dealer_zip ← py_or_lazy (dict_get retail_d "zip") (get dealer_details "zip");
  dealer_phone ← py_or_lazy (dict_get retail_d "phone") (get dealer_details "phone");
  latitude ← (n ← py_len location;
              if 1 <? n then py_item location 1 else get dealer_details "latitude");
  longitude ← (if truthy location then py_item location 0
               else get dealer_details "longitude");
  primary_image ← py_or_lazy (dict_get retail_d "primaryImage")
                    (if truthy photos then py_item photos 0 else mret PNone);
  photo_count ← py_or_lazy (of_int (to_int (dict_get retail_d "photoCount")))
                  (if truthy photos then PInt <$> py_len photos else mret PNone);
  let used := dict_get retail_d "used" in
  let record := dict_update
    [ ("vin", vin);
      ("listing_id", py_or (dict_get listing "id") (dict_get listing "listingId"));
      ("heading", py_or (dict_get retail_d "title") (dict_get vehicle_d "model"));
      ("source", PStr "autodev");
      ("price", of_int (to_int (dict_get retail_d "price")));
      ("mileage", of_int (to_int (dict_get retail_d "miles")));
      ("msrp", of_int (to_int (dict_get retail_d "msrp")));
      ("listing_created_at", dict_get listing "createdAt");
      ("online", of_bool (to_bool (dict_get listing "online")));
      ("data_fetched_at", PStr fetched_at);
      ("year", of_int (to_int (dict_get vehicle_d "year")));
      ("make", dict_get vehicle_d "make");
      ("model", dict_get vehicle_d "model");
      ("trim", dict_get vehicle_d "trim");
      ("body_style", dict_get vehicle_d "bodyStyle");
      ("drivetrain", dict_get vehicle_d "drivetrain");
      ("engine", dict_get vehicle_d "engine");
      ("fuel_type", dict_get vehicle_d "fuel");
      ("transmission", dict_get vehicle_d "transmission");
      ("doors", of_int (to_int (dict_get vehicle_d "doors")));
      ("seats", of_int (to_int (dict_get vehicle_d "seats")));
      ("exterior_color", dict_get vehicle_d "exteriorColor");
      ("interior_color", dict_get vehicle_d "interiorColor");
      ("inventory_type",
         match used with
         | PBool true => PStr "used"
         | PBool false => PStr "new"
         | _ => PNone
         end);
      ("is_used", of_bool (to_bool used));
      ("is_cpo", of_bool (to_bool (dict_get retail_d "cpo")));
      ("is_certified", of_bool (to_bool (dict_get retail_d "cpo")));
      ("stock_number", dict_get retail_d "stockNumber");
      ("dealer_name", dealer_name);
      ("dealer_city", dealer_city);
      ("dealer_state", dealer_state);
      ("dealer_zip", dealer_zip);
      ("dealer_phone", dealer_phone);
      ("dealer_latitude", of_float (to_float latitude));
      ("dealer_longitude", of_float (to_float longitude));
      ("primary_image_url", primary_image);
      ("photo_count", photo_count);
      ("vdp_url", dict_get retail_d "vdp");
      ("carfax_url", dict_get retail_d "carfaxUrl");
      ("dealer_json", dumps_if json_dumps true dealer_details);
      ("build_json", dumps_if json_dumps true vehicle);
      ("data_source", PStr "autodev");
      ("carfax_one_owner", of_bool (to_bool (dict_get retail_d "carfaxOneOwner")));
      ("carfax_clean_title", of_bool (to_bool (dict_get retail_d "carfaxCleanTitle")));
      ("raw_json", PStr (json_dumps false (PDict listing))) ]
    (empty_record UNIFIED_COLUMNS) in
  let record :=
    if truthy photos
    then <["media_json" := PStr (json_dumps false (PDict {["photos" := photos]}))]> record
    else record in
  mret (Some record).

(** [normalize_marketcheck_listing] up to line 293: the record as it stands
    when the [setdefault] calls of lines 295-304 begin. *)
Definition marketcheck_record (listing : dict) (fetched_at : string)
  : res (option dict) :=
  let vin := dict_get listing "vin" in
  if negb (truthy vin) then mret None else
  let build := py_or (dict_get listing "build") (PDict ∅) in
  let dealer := py_or (dict_get listing "dealer") (PDict ∅) in
  let mc_dealership := py_or (dict_get listing "mc_dealership") (PDict ∅) in
  let financing := py_or (dict_get listing "financing_options") (PDict ∅) in
  let leasing := py_or (dict_get listing "leasing_options") (PDict ∅) in
  let media := py_or (dict_get listing "media") (PDict ∅) in
  media_d ← as_dict media;
  let photo_links := py_or (dict_get media_d "photo_links") (PList []) in
  let inventory_type := dict_get listing "inventory_type" in
  let is_used := marketcheck_is_used inventory_type in
  (* the entries of the first dict literal that can raise, in their order *)
  dealer_d ← as_dict dealer;
  primary_image ← (if truthy photo_links then py_item photo_links 0 else mret PNone);
  photo_count ← (if truthy photo_links then PInt <$> py_len photo_links
                 else mret (of_int (to_int (dict_get listing "photo_count"))));
  let record := dict_update
    [ ("vin", vin);
      ("listing_id", dict_get listing "id");
      ("heading", dict_get listing "heading");
      ("source", PStr "marketcheck");
      ("price", of_int (to_int (dict_get listing "price")));
      ("mileage", of_int (to_int (dict_get listing "miles")));
      ("msrp", of_int (to_int (dict_get listing "msrp")));
      ("ref_price", of_int (to_int (dict_get listing "ref_price")));
      ("price_change_percent", of_float (to_float (dict_get listing "price_change_percent")));
      ("ref_price_dt", of_int (to_int (dict_get listing "ref_price_dt")));
      ("ref_miles", of_int (to_int (dict_get listing "ref_miles")));
      ("ref_miles_dt", of_int (to_int (dict_get listing "ref_miles_dt")));
      ("first_seen_at", of_int (to_int (dict_get listing "first_seen_at")));
      ("first_seen_at_date", dict_get listing "first_seen_at_date");
      ("first_seen_at_source", of_int (to_int (dict_get listing "first_seen_at_source")));
      ("first_seen_at_source_date", dict_get listing "first_seen_at_source_date");
      ("first_seen_at_mc", of_int (to_int (dict_get listing "first_seen_at_mc")));
      ("first_seen_at_mc_date", dict_get listing "first_seen_at_mc_date");
      ("last_seen_at", of_int (to_int (dict_get listing "last_seen_at")));
      ("last_seen_at_date", dict_get listing "last_seen_at_date");
      ("scraped_at", of_int (to_int (dict_get listing "scraped_at")));
      ("scraped_at_date", dict_get listing "scraped_at_date");
      ("data_fetched_at", PStr fetched_at);
      ("exterior_color", dict_get listing "exterior_color");
      ("interior_color", dict_get listing "interior_color");
      ("base_ext_color", dict_get listing "base_ext_color");
      ("base_int_color", dict_get listing "base_int_color");
      ("dom", of_int (to_int (dict_get listing "dom")));
      ("dom_180", of_int (to_int (dict_get listing "dom_180")));
      ("dom_active", of_int (to_int (dict_get listing "dom_active")));
      ("dos_active", of_int (to_int (dict_get listing "dos_active")));
      ("seller_type", dict_get listing "seller_type");
      ("inventory_type", inventory_type);
      ("availability_status", dict_get listing "availability_status");
      ("is_certified", of_bool (to_bool (dict_get listing "is_certified")));
      ("is_cpo", of_bool (to_bool (dict_get listing "is_certified")));
      ("is_used", is_used);
      ("in_transit", of_bool (to_bool (dict_get listing "in_transit")));
      ("model_code", dict_get listing "model_code");
      ("stock_number", dict_get listing "stock_no");
      ("dealer_name", dict_get dealer_d "name");
      ("dealer_city", dict_get dealer_d "city");
      ("dealer_state", dict_get dealer_d "state");
      ("dealer_zip", dict_get dealer_d "zip");
      ("dealer_phone", dict_get dealer_d "phone");
      ("dealer_latitude", of_float (to_float (dict_get dealer_d "latitude")));
      ("dealer_longitude", of_float (to_float (dict_get dealer_d "longitude")));
      ("dealer_country", dict_get dealer_d "country");
      ("dealer_type", dict_get dealer_d "dealer_type");
      ("dealer_msa_code", dict_get dealer_d "msa_code");
      ("dist", of_float (to_float (dict_get listing "dist")));
      ("vdp_url", dict_get listing "vdp_url");
      ("carfax_one_owner", of_bool (to_bool (dict_get listing "carfax_1_owner")));
      ("carfax_clean_title", of_bool (to_bool (dict_get listing "carfax_clean_title")));
      ("primary_image_url", primary_image);
      ("photo_count", photo_count);
      ("financing_options_json", dumps_if json_dumps false financing);
      ("leasing_options_json", dumps_if json_dumps false leasing);
      ("media_json", dumps_if json_dumps false media);
      ("dealer_json", dumps_if json_dumps false dealer);
      ("mc_dealership_json", dumps_if json_dumps false mc_dealership);
      ("build_json", dumps_if json_dumps false build);
      ("data_source", py_or (dict_get listing "data_source") (PStr "marketcheck"));
      ("raw_json", PStr (json_dumps false (PDict listing))) ]
    (empty_record UNIFIED_COLUMNS) in
  build_d ← as_dict build;
  let record := dict_update
    [ ("build_year", of_int (to_int (dict_get build_d "year")));
      ("build_make", dict_get build_d "make");
      ("build_model", dict_get build_d "model");
      ("build_trim", dict_get build_d "trim");
      ("build_version", dict_get build_d "version");
      ("build_body_type", dict_get build_d "body_type");
      ("build_vehicle_type", dict_get build_d "vehicle_type");
      ("build_transmission", dict_get build_d "transmission");
      ("build_drivetrain", dict_get build_d "drivetrain");
      ("build_fuel_type", dict_get build_d "fuel_type");
      ("build_engine", dict_get build_d "engine");
      ("build_doors", of_int (to_int (dict_get build_d "doors")));
      ("build_cylinders", of_int (to_int (dict_get build_d "cylinders")));
      ("build_std_seating", dict_get build_d "std_seating");
      ("build_highway_mpg", of_int (to_int (dict_get build_d "highway_mpg")));
      ("build_city_mpg", of_int (to_int (dict_get build_d "city_mpg"))) ]
    record in
  mret (Some record).

End Records.

(** ** The fetchers

    [BaseFetcher] and its two subclasses talk to the network, read the
    clock and sleep.  These effects are threaded through a [world]: the
    table as the connection sees it and as it was last committed, and the
    clock readings, requests and sleeps made so far.  What the network
    answers, what the clock shows and what [time.sleep] does are parameters.
    The calls of [LOGGER] change nothing the code can observe and are left
    out. *)

(** The exceptions a fetch can end with: those of the built-ins, and those
    of [requests]. *)
Inductive failure : Type :=
| Builtin (e : exn)
| RequestException
| HTTPError
| JSONDecodeError.

(** How a call ends. *)
Inductive result (A : Type) : Type :=
| Returns (a : A)
| Raises (e : failure).
Arguments Returns {A} a.
Arguments Raises {A} e.

(** The arguments of [session.request]. *)
Record request : Type := Request {
  method : string;
  url : string;
  headers : gmap string string;
  params : gmap string pyval
}.

(** What [session.request] does: it raises a [requests.RequestException]
    ([http_error]: the exception is an [HTTPError]), or it returns a
    response, of which the code reads the status code and the value of
    [response.json()] ([None]: the body is no JSON, and [json()] raises). *)
Inductive reply : Type :=
| NoResponse (http_error : bool)
| Response (status_code : Z) (json : option pyval).

Record world : Type := World {
  table_of : gmap sqlval (gmap string sqlval);
  committed : gmap sqlval (gmap string sqlval);
  clock_reads : nat;
  sent : list request;
  sleeps : list pyfloat
}.

Definition set_table (db : gmap sqlval (gmap string sqlval)) (w : world) : world :=
  World db (committed w) (clock_reads w) (sent w) (sleeps w).

(** [UnifiedWriter.commit]: what the connection sees becomes durable. *)
Definition commit (w : world) : world :=
  World (table_of w) (table_of w) (clock_reads w) (sent w) (sleeps w).

(** [UnifiedWriter.close]: a commit, then the connection is closed. *)
Definition close (w : world) : world := commit w.

Definition tick (w : world) : world :=
  World (table_of w) (committed w) (S (clock_reads w)) (sent w) (sleeps w).

(** The latest request and the latest sleep come first. *)
Definition send (rq : request) (w : world) : world :=
  World (table_of w) (committed w) (clock_reads w) (rq :: sent w) (sleeps w).

Definition slept (x : pyfloat) (w : world) : world :=
  World (table_of w) (committed w) (clock_reads w) (sent w) (x :: sleeps w).

(** The attributes of a fetcher, as [BaseFetcher.__init__] and the
    subclasses set them. *)
Record fetcher : Type := Fetcher {
  base_params : gmap string pyval;
  page_size : Z;
  max_records : option Z;
  delay : pyfloat;
  timeout : pyfloat;
  retries : Z;
  api_key : string;
  fetcher_headers : gmap string string
}.

Definition AUTODEV_URL : string := "https://api.auto.dev/listings".
Definition MARKETCHECK_URL : string := "https://api.marketcheck.com/v2/search/car/active".

(** [min(a, b)] of two floats: [b] when it is the smaller, [a] otherwise. *)
Definition py_min (a b : pyfloat) : pyfloat := if SFltb b a then b else a.

(** [x * n] of a float and an integer: the integer is converted first. *)
Definition float_mul_int (x : pyfloat) (n : Z) : res pyfloat :=
  y ← py_float (PInt n); mret (SFmul prec emax x y).

(** [response.raise_for_status()] raises for the 4xx and 5xx codes. *)
Definition is_error_status (status_code : Z) : bool :=
  (400 <=? status_code) && (status_code <? 600).

(** [self.max_records is not None and n >= self.max_records] *)
Definition reached (max_records : option Z) (n : Z) : bool :=
  match max_records with
  | Some m => n >=? m
  | None => false
  end.

(** A normaliser as [insert_many] calls it.  The listing is whatever the
    payload holds; the first thing either normaliser does is a [.get] on
    it. *)
Definition call_normalizer
    (normalizer : gmap string pyval -> string -> res (option (gmap string pyval)))
    (listing : pyval) (fetched_at : string) : res (option (gmap string pyval)) :=
  d ← as_dict listing; normalizer d fetched_at.

Section Fetchers.

Variable UNIFIED_COLUMNS : list string.
Variable PRIORITY : gmap string Z.
Variable json_dumps : bool -> pyval -> string.

(** [datetime.utcnow().isoformat()]: the text the clock gives at its
    [n]-th reading. *)
Variable utcnow : nat -> string.

(** The network: what [session.request] does with the [n]-th request. *)
Variable server : nat -> request -> reply.

(** [time.sleep] *)
Variable sleep : pyfloat -> res unit.

(** The loop of [BaseFetcher._request]; [fuel] bounds its iterations. *)
Fixpoint request_loop (fuel : nat) (f : fetcher) (rq : request) (attempt : Z) (w : world)
  : option (result (Z * option pyval)) * world :=
  match fuel with
  | O => (None, w)
  | S fuel =>
      let reply := server (length (sent w)) rq in
      let w := send rq w in
      match reply with
      | NoResponse http_error =>
          let attempt := attempt + 1 in
          if attempt >? retries f
          then (Some (Raises (if http_error then HTTPError else RequestException)), w)
          else
            match float_mul_int (delay f) (attempt + 1) with
            | Raise e => (Some (Raises (Builtin e)), w)
            | Ok x =>
                let wait := py_min (float_of_Z 60) x in
                match sleep wait with
                | Raise e => (Some (Raises (Builtin e)), slept wait w)
                | Ok _ => request_loop fuel f rq attempt (slept wait w)
                end
            end
      | Response status_code json =>
          if (status_code =? 429) && (attempt <? retries f) then
            let attempt := attempt + 1 in
            match x ← float_mul_int (delay f) (attempt + 1); float_mul_int x 2 with
            | Raise e => (Some (Raises (Builtin e)), w)
            | Ok x =>
                let wait := py_min (float_of_Z 120) x in
                match sleep wait with
                | Raise e => (Some (Raises (Builtin e)), slept wait w)
                | Ok _ => request_loop fuel f rq attempt (slept wait w)
                end
            end
          else if is_error_status status_code then (Some (Raises HTTPError), w)
          else (Some (Returns (status_code, json)), w)
      end
  end.

(** [BaseFetcher._request]: every turn of the loop but the last uses up one
    of the retries, so the loop turns [retries + 1] times at most. *)
Definition _request (f : fetcher) (rq : request) (w : world)
  : option (result (Z * option pyval)) * world :=
  request_loop (S (Z.to_nat (retries f))) f rq 0 w.

(** The [for] loop of [BaseFetcher.insert_many]. *)
Fixpoint insert_many_loop
    (normalizer : pyval -> string -> res (option (gmap string pyval)))
    (listings : list pyval) (inserted : Z) (w : world) : res Z * world :=
  match listings with
  | [] => (Ok inserted, w)
  | listing :: listings =>
      let fetched_at := utcnow (clock_reads w) in
      let w := tick w in
      match normalizer listing fetched_at with
      | Raise e => (Raise e, w)
      | Ok None => insert_many_loop normalizer listings inserted w
      | Ok (Some record) =>
          if negb (truthy (PDict record))
          then insert_many_loop normalizer listings inserted w
          else
            match upsert UNIFIED_COLUMNS PRIORITY record (table_of w) with
            | Raise e => (Raise e, w)
            | Ok (true, db) =>
                insert_many_loop normalizer listings (inserted + 1) (set_table db w)
            | Ok (false, db) =>
                insert_many_loop normalizer listings inserted (set_table db w)
            end
      end
  end.

(** [BaseFetcher.insert_many]: the commit follows the loop, and is not
    reached when the loop raises. *)
Definition insert_many
    (normalizer : pyval -> string -> res (option (gmap string pyval)))
    (listings : list pyval) (w : world) : res Z * world :=
  match insert_many_loop normalizer listings 0 w with
  | (Ok inserted, w) => (Ok inserted, commit w)
  | (Raise e, w) => (Raise e, w)
  end.

(** The loop of [AutoDevFetcher.run]; [fuel] bounds the pages it asks for. *)
Fixpoint autodev_run_loop (fuel : nat) (f : fetcher) (total_inserted page : Z) (w : world)
  : option (result Z) * world :=
  match fuel with
  | O => (None, w)
  | S fuel =>
      let params :=
        dict_update [("limit", PInt (page_size f)); ("page", PInt page)] (base_params f) in
      match _request f (Request "GET" AUTODEV_URL (fetcher_headers f) params) w with
      | (None, w) => (None, w)
      | (Some (Raises HTTPError), w) => (Some (Returns total_inserted), w)
      | (Some (Raises e), w) => (Some (Raises e), w)
      | (Some (Returns (_, None)), w) => (Some (Raises JSONDecodeError), w)
      | (Some (Returns (_, Some payload)), w) =>
          match get payload "data" with
          | Raise e => (Some (Raises (Builtin e)), w)
          | Ok data =>
              match py_or data (PList []) with
              | PList (listing :: rest) =>
                  let listings := listing :: rest in
                  match
                    insert_many
                      (call_normalizer (normalize_autodev_listing UNIFIED_COLUMNS json_dumps))
                      listings w
                  with
                  | (Raise e, w) => (Some (Raises (Builtin e)), w)
                  | (Ok inserted, w) =>
                      let total_inserted := total_inserted + inserted in
                      if reached (max_records f) total_inserted
                      then (Some (Returns total_inserted), w)
                      else if Z.of_nat (length listings) <? page_size f
                      then (Some (Returns total_inserted), w)
                      else
                        let page := page + 1 in
                        if match max_records f with
                           | Some m => page * page_size f >=? m + page_size f
                           | None => false
                           end
                        then (Some (Returns total_inserted), w)
                        else
                          match sleep (delay f) with
                          | Raise e => (Some (Raises (Builtin e)), slept (delay f) w)
                          | Ok _ =>
                              autodev_run_loop fuel f total_inserted page
                                (slept (delay f) w)
                          end
                  end
              | _ => (Some (Returns total_inserted), w)
              end
          end
      end
  end.

(** [AutoDevFetcher.run] *)
Definition autodev_run (fuel : nat) (f : fetcher) (w : world) : option (result Z) * world :=
  autodev_run_loop fuel f 0 1 w.

(** The loop of [MarketcheckFetcher.run]. *)
Fixpoint marketcheck_run_loop (fuel : nat) (f : fetcher) (total_inserted start : Z)
    (w : world) : option (result Z) * world :=
  match fuel with
  | O => (None, w)
  | S fuel =>
      let params := dict_setdefault "rows" (PStr (pretty (page_size f))) (base_params f) in
      let params :=
        dict_update [("api_key", PStr (api_key f)); ("start", PStr (pretty start))] params in
      match _request f (Request "GET" MARKETCHECK_URL (fetcher_headers f) params) w with
      | (None, w) => (None, w)
      | (Some (Raises HTTPError), w) => (Some (Returns total_inserted), w)
      | (Some (Raises e), w) => (Some (Raises e), w)
      | (Some (Returns (_, None)), w) => (Some (Raises JSONDecodeError), w)
      | (Some (Returns (_, Some payload)), w) =>
          match get payload "listings" with
          | Raise e => (Some (Raises (Builtin e)), w)
          | Ok data =>
              match py_or data (PList []) with
              | PList (listing :: rest) =>
                  let listings := listing :: rest in
                  match
                    insert_many
                      (call_normalizer (normalize_marketcheck_listing UNIFIED_COLUMNS json_dumps))
                      listings w
                  with
                  | (Raise e, w) => (Some (Raises (Builtin e)), w)
                  | (Ok inserted, w) =>
                      let total_inserted := total_inserted + inserted in
                      if reached (max_records f) total_inserted
                      then (Some (Returns total_inserted), w)
                      else
                        match py_int (default (PInt (page_size f)) (params !! "rows")) with
                        | Raise e => (Some (Raises (Builtin e)), w)
                        | Ok rows =>
                            if Z.of_nat (length listings) <? rows
                            then (Some (Returns total_inserted), w)
                            else
                              let start := start + Z.of_nat (length listings) in
                              if reached (max_records f) start
                              then (Some (Returns total_inserted), w)
                              else
                                match sleep (delay f) with
                                | Raise e =>
                                    (Some (Raises (Builtin e)), slept (delay f) w)
                                | Ok _ =>
                                    marketcheck_run_loop fuel f total_inserted start
                                      (slept (delay f) w)
                                end
                        end
                  end
              | _ => (Some (Returns total_inserted), w)
              end
          end
      end
  end.

(** [MarketcheckFetcher.run] *)
Definition marketcheck_run (fuel : nat) (f : fetcher) (w : world)
  : option (result Z) * world :=
  marketcheck_run_loop fuel f 0 0 w.

End Fetchers.

(** ** The command line *)

(** The namespace [argparse] returns for the options [parse_args]
    declares. *)
Record Namespace : Type := MkNamespace {
  api : string;
  output_db : string;
  args_base_params : option string;
  args_page_size : Z;
  args_max_records : option Z;
  args_delay : pyfloat;
  args_timeout : pyfloat;
  args_retries : Z;
  overwrite : bool;
  log_level : string
}.

Definition set_page_size (n : Z) (args : Namespace) : Namespace :=
  MkNamespace (api args) (output_db args) (args_base_params args) n
    (args_max_records args) (args_delay args) (args_timeout args) (args_retries args)
    (overwrite args) (log_level args).

(** [parse_args], from the namespace [parser.parse_args()] returns: the
    page size is cut down to what the chosen API allows. *)
Definition parse_args (parsed : Namespace) : Namespace :=
  let args := parsed in
  let args :=
    if String.eqb (api args) "marketcheck" && (args_page_size args >? 50)
    then set_page_size 50 args else args in
  let args :=
    if String.eqb (api args) "autodev" && (args_page_size args >? 500)
    then set_page_size 500 args else args in
  args.

(** The two subclasses of [BaseFetcher]. *)
Inductive fetcher_class : Type :=
| AutoDevFetcher
| MarketcheckFetcher.

(** The constructor of a subclass: [os.getenv] is a lookup in the
    environment [env]; a missing or empty key raises [ValueError]. *)
Definition new_fetcher (class : fetcher_class) (env : gmap string string)
    (base_params : gmap string pyval) (page_size : Z) (max_records : option Z)
    (delay timeout : pyfloat) (retries : Z) : res fetcher :=
  let variable :=
    match class with
    | AutoDevFetcher => "AUTODEV_API_KEY"
    | MarketcheckFetcher => "MARKETCHECK_API_KEY"
    end in
  match env !! variable with
  | None | Some "" => Raise ValueError
  | Some api_key =>
      let headers : gmap string string :=
        match class with
        | AutoDevFetcher =>
            {[ "Authorization" := "Bearer " +:+ api_key; "Accept" := "application/json" ]}
        | MarketcheckFetcher => {[ "Accept" := "application/json" ]}
        end in
      Ok (Fetcher base_params page_size max_records delay timeout retries api_key headers)
  end.

(** [build_fetcher] *)
Definition build_fetcher (args : Namespace) (env : gmap string string)
    (base_params : gmap string pyval) : res (fetcher_class * fetcher) :=
  let class :=
    if String.eqb (api args) "autodev" then AutoDevFetcher else MarketcheckFetcher in
  f ← new_fetcher class env base_params (args_page_size args) (args_max_records args)
        (args_delay args) (args_timeout args) (args_retries args);
  mret (class, f).

Section Main.

Variable UNIFIED_COLUMNS : list string.
Variable PRIORITY : gmap string Z.
Variable json_dumps : bool -> pyval -> string.
Variable utcnow : nat -> string.
Variable server : nat -> request -> reply.
Variable sleep : pyfloat -> res unit.
Variable env : gmap string string.

(** [fetcher.run()], by the class of the fetcher. *)
Definition run (fuel : nat) (cf : fetcher_class * fetcher) (w : world)
  : option (result Z) * world :=
  match cf.1 with
  | AutoDevFetcher =>
      autodev_run UNIFIED_COLUMNS PRIORITY json_dumps utcnow server sleep fuel cf.2 w
  | MarketcheckFetcher =>
      marketcheck_run UNIFIED_COLUMNS PRIORITY json_dumps utcnow server sleep fuel cf.2 w
  end.

(** Lines 567-572 of [main]: the fetch, and the [finally] that closes the
    writer however the fetch ends. *)
Definition main_fetch (fuel : nat) (args : Namespace) (base_params : gmap string pyval)
    (w : world) : option (result Z) * world :=
  let '(r, w) :=
    match build_fetcher args env base_params with
    | Raise e => (Some (Raises (Builtin e)), w)
    | Ok cf => run fuel cf w
    end in
  (r, close w).

End Main.

(** ** Sample worlds *)

(** A world with an empty table, before any clock reading or request. *)
Definition sample_world : world := World ∅ ∅ 0 [] [].

(** A clock that stands still. *)
Definition sample_utcnow (n : nat) : string := sample_fetched_at.

(** The record of the Marketcheck listing of the examples. *)
Definition sample_marketcheck_normalized : gmap string pyval :=
  record_of (normalize_marketcheck_listing sample_columns sample_dumps
               sample_marketcheck_listing sample_fetched_at).

(** A Marketcheck server with one page of one listing, the Marketcheck
    listing of the examples, and nothing after it. *)
Definition sample_server (n : nat) (rq : request) : reply :=
  match n with
  | O => Response 200 (Some (PDict {[ "listings" := PList [PDict sample_marketcheck_listing] ]}))
  | S _ => Response 200 (Some (PDict ∅))
  end.

(** A sleep that returns. *)
Definition sample_sleep (x : pyfloat) : res unit := Ok ().

(** A fetcher with the defaults of the command line, capped at 120
    records. *)
Definition sample_fetcher : fetcher :=
  Fetcher ∅ 50 (Some 120) (float_of_Z 1) (float_of_Z 60) 5 "key"
    {[ "Accept" := "application/json" ]}.

(** The namespace of [fetch_unified_dataset.py marketcheck --max-records 120
    --page-size 80]. *)
Definition sample_args : Namespace :=
  MkNamespace "marketcheck" "data/unified_vehicles.db" None 80 (Some 120)
    (float_of_Z 1) (float_of_Z 60) 5 false "INFO".

Definition sample_env : gmap string string := {[ "MARKETCHECK_API_KEY" := "key" ]}.

(** ** Frames

    What a call leaves of the world it started in. *)

(** After [_request]: the tables and the clock untouched, [n] more
    requests, all of them [rq]. *)
Definition requested (rq : request) (n : nat) (w w' : world) : Prop :=
  table_of w' = table_of w
  /\ committed w' = committed w
  /\ clock_reads w' = clock_reads w
  /\ sent w' = (replicate n rq ++ sent w)%list.

(** After the loop of [insert_many]: the committed table, the requests and
    the sleeps untouched, no row lost. *)
Definition batch_frame (w w' : world) : Prop :=
  committed w' = committed w
  /\ sent w' = sent w
  /\ sleeps w' = sleeps w
  /\ (clock_reads w <= clock_reads w')%nat
  /\ (forall k, is_Some (table_of w !! k) -> is_Some (table_of w' !! k)).

(** A row of a source that outranks the source [name]. *)
Definition outranks (PRIORITY : gmap string Z) (name : string)
    (row : gmap string sqlval) : Prop :=
  exists s, row !! "source" = Some (SText s)
            /\ default 0 (PRIORITY !! name) < default 0 (PRIORITY !! s).

(** After one page of a run: no row lost, and [retries + 1] more requests
    at most. *)
Definition page_frame (f : fetcher) (w w' : world) : Prop :=
  (forall k, is_Some (table_of w !! k) -> is_Some (table_of w' !! k))
  /\ (length (sent w) <= length (sent w')
      <= length (sent w) + S (Z.to_nat (retries f)))%nat.

(** After a page that did not raise: [d] more rows at most, and nothing
    uncommitted if nothing was. *)
Definition page_rows (w w' : world) (d : Z) : Prop :=
  0 <= d
  /\ Z.of_nat (size (table_of w')) <= Z.of_nat (size (table_of w)) + d
  /\ (committed w = table_of w -> committed w' = table_of w').

(** After [pages] pages: no row lost, and [pages * (retries + 1)] more
    requests at most. *)
Definition run_frame (f : fetcher) (pages : nat) (w w' : world) : Prop :=
  (forall k, is_Some (table_of w !! k) -> is_Some (table_of w' !! k))
  /\ (length (sent w) <= length (sent w')
      <= length (sent w) + pages * S (Z.to_nat (retries f)))%nat.

(** The pages [AutoDevFetcher.run] can still ask for, from the page
    [page], under a cap of [m] records. *)
Definition autodev_pages_left (f : fetcher) (m page : Z) : nat :=
  S (Z.to_nat ((m + page_size f - 1) / page_size f - page)).

(** The pages [MarketcheckFetcher.run] can still ask for, from the offset
    [start], under a cap of [m] records. *)
Definition marketcheck_pages_left (m start : Z) : nat := S (Z.to_nat (m - start - 1)).

(** After a run that ended: no row lost, and when it returned, a count
    that bounds the rows added and nothing left uncommitted. *)
Definition run_accounts (total_inserted : Z) (w w' : world) (r : result Z) : Prop :=
  (forall k, is_Some (table_of w !! k) -> is_Some (table_of w' !! k))
  /\ forall n, r = Returns n -> exists d, n = total_inserted + d /\ page_rows w w' d.
(** ** Properties *)

(** *** Dictionaries *)

Lemma lookup_dict_update (k : string) (items : list (string * pyval)) (d : gmap string pyval) :
  dict_update items d !! k = alist_get k items (d !! k).
Proof.
  revert d. induction items as [|[k' v] items IH]; intros d; [reflexivity|].
  cbn [alist_get]. unfold dict_update in *. cbn [foldl fst snd].
  rewrite IH. f_equal. rewrite lookup_insert.
  destruct (String.eqb_spec k' k); case_decide; congruence.
Qed.

Lemma alist_get_snoc (k : string) (items : list (string * pyval)) kv acc :
  alist_get k (items ++ [kv]) acc
  = if String.eqb kv.1 k then Some kv.2 else alist_get k items acc.
Proof.
  revert acc. induction items as [|[k1 v1] items IH]; intros acc.
  - destruct kv; reflexivity.
  - cbn [app alist_get]. apply IH.
Qed.

Lemma map_Forall_dict_update (P : string -> pyval -> Prop) items (d : gmap string pyval) :
  Forall (fun kv => P kv.1 kv.2) items ->
  map_Forall P d -> map_Forall P (dict_update items d).
Proof.
  intros Hitems. revert d.
  induction Hitems as [|[k v] items Hkv _ IH]; intros d Hd; [exact Hd|].
  unfold dict_update in *. cbn [foldl fst snd]. apply IH.
  by apply map_Forall_insert_2.
Qed.

(** Every unified column is present in the empty record, and unset. *)
Lemma lookup_empty_record (cols : list string) (k : string) :
  empty_record cols !! k = if decide (k ∈ cols) then Some PNone else None.
Proof.
  unfold empty_record. rewrite lookup_dict_update.
  induction cols as [|c cols IH] using rev_ind.
  - rewrite decide_False; [reflexivity|]. apply not_elem_of_nil.
  - rewrite fmap_app. cbn [fmap list_fmap]. rewrite alist_get_snoc.
    cbn [fst snd]. rewrite IH.
    destruct (String.eqb_spec c k) as [->|Hne].
    + rewrite decide_True; [reflexivity|]. apply elem_of_app. right. apply list_elem_of_singleton. reflexivity.
    + destruct (decide (k ∈ cols)) as [Hin|Hin].
      * rewrite decide_True; [reflexivity|]. apply elem_of_app. by left.
      * rewrite decide_False; [reflexivity|]. intros [?|Hk%list_elem_of_singleton]%elem_of_app; congruence.
Qed.

Lemma empty_record_unset (cols : list string) :
  map_Forall (fun _ v => v = PNone) (empty_record cols).
Proof.
  intros k v. rewrite lookup_empty_record. case_decide; congruence.
Qed.

(** [setdefault] never touches a key that is present. *)
Lemma lookup_setdefault_keep k v (d : gmap string pyval) k' x :
  d !! k' = Some x -> dict_setdefault k v d !! k' = Some x.
Proof.
  intros H. unfold dict_setdefault. destruct (d !! k) eqn:E; [exact H|].
  rewrite lookup_insert_ne; [exact H|]. intros ->. congruence.
Qed.

Lemma map_Forall_setdefault (P : string -> pyval -> Prop) k v (d : gmap string pyval) :
  P k v -> map_Forall P d -> map_Forall P (dict_setdefault k v d).
Proof.
  intros Hkv Hd. unfold dict_setdefault. destruct (d !! k); [exact Hd|].
  by apply map_Forall_insert_2.
Qed.

Lemma dict_get_singleton_eq k (v : pyval) : dict_get {[ k := v ]} k = v.
Proof. unfold dict_get. by rewrite lookup_singleton_eq. Qed.

Lemma dict_get_singleton_ne k k' (v : pyval) : k <> k' -> dict_get {[ k := v ]} k' = PNone.
Proof. intros H. unfold dict_get. by rewrite lookup_singleton_ne. Qed.

Lemma dict_get_empty k : dict_get ∅ k = PNone.
Proof. unfold dict_get. by rewrite lookup_empty. Qed.

Lemma truthy_singleton k (v : pyval) : truthy (PDict {[ k := v ]}) = true.
Proof. cbn [truthy]. by rewrite map_size_singleton. Qed.

Lemma truthy_empty_dict : truthy (PDict ∅) = false.
Proof. cbn [truthy]. by rewrite map_size_empty. Qed.

Lemma res_ok_some_inj {A} (a b : A) : Ok (Some a) = Ok (Some b) -> a = b.
Proof. congruence. Qed.

(** *** The backfill passes *)

Lemma setdefault_seating_keep (d : gmap string pyval) k x :
  d !! k = Some x -> setdefault_seating d !! k = Some x.
Proof.
  intros H. unfold setdefault_seating. destruct (dict_get d "seats"); try exact H.
  by apply lookup_setdefault_keep.
Qed.

Lemma autodev_backfill_keep (d : gmap string pyval) k x :
  d !! k = Some x -> autodev_backfill d !! k = Some x.
Proof.
  intros H. unfold autodev_backfill. cbv zeta.
  apply setdefault_seating_keep. repeat apply lookup_setdefault_keep. exact H.
Qed.

Lemma marketcheck_backfill_keep (d : gmap string pyval) k x :
  d !! k = Some x -> marketcheck_backfill d !! k = Some x.
Proof.
  intros H. unfold marketcheck_backfill. cbv zeta.
  repeat apply lookup_setdefault_keep. exact H.
Qed.

(** A run of binds that ended in a record: every step returned. *)
Ltac res_inv H :=
  unfold mbind, res_bind, mret, res_ret in H;
  repeat match type of H with
    | match ?m with Ok _ => _ | Raise _ => _ end = _ =>
        let E := fresh "E" in destruct m eqn:E; [|discriminate H]
    | (if ?b then _ else _) = Ok (Some _) =>
        let E := fresh "E" in destruct b eqn:E; [discriminate H|]
    end;
  apply res_ok_some_inj in H.

(** The value an update list leaves under a literal key. *)
Ltac lookup_fields :=
  rewrite lookup_dict_update;
  cbv [alist_get String.eqb Ascii.eqb Bool.eqb].

(** The record before the backfill, with or without [media_json]. *)
Ltac skip_media :=
  lazymatch goal with
  | |- (if ?b then _ else _) !! _ = _ =>
      destruct b; [rewrite lookup_insert_ne by discriminate|]
  end.

(** *** Listings without a VIN *)

Section MissingVin.

Variable UNIFIED_COLUMNS : list string.
Variable json_dumps : bool -> pyval -> string.

Lemma autodev_skips_falsy_vin (listing : gmap string pyval) t vehicle_d retail_d :
  py_or (dict_get listing "vehicle") (PDict ∅) = PDict vehicle_d ->
  py_or (dict_get listing "retailListing") (PDict ∅) = PDict retail_d ->
  truthy (dict_get vehicle_d "vin") = false ->
  normalize_autodev_listing UNIFIED_COLUMNS json_dumps listing t = Ok None.
Proof.
  intros Hv Hr Hvin. unfold normalize_autodev_listing. cbv zeta.
  rewrite Hr, Hv. cbn [as_dict mbind res_bind]. rewrite Hvin. reflexivity.
Qed.

Lemma marketcheck_skips_falsy_vin (listing : gmap string pyval) t :
  truthy (dict_get listing "vin") = false ->
  normalize_marketcheck_listing UNIFIED_COLUMNS json_dumps listing t = Ok None.
Proof.
  intros Hvin. unfold normalize_marketcheck_listing. cbv zeta.
  rewrite Hvin. reflexivity.
Qed.

(** A sub-object that is present and is no JSON object makes the Auto.dev
    normaliser raise before it looks at the VIN. *)
Lemma autodev_raises_on_bad_retail (listing : gmap string pyval) t :
  as_dict (py_or (dict_get listing "retailListing") (PDict ∅)) = Raise AttributeError ->
  normalize_autodev_listing UNIFIED_COLUMNS json_dumps listing t = Raise AttributeError.
Proof.
  intros H. unfold normalize_autodev_listing. cbv zeta. rewrite H. reflexivity.
Qed.

End MissingVin.

(** C2, as amended: a raw listing whose VIN field is absent (or null)
    produces no record.  [normalize_marketcheck_listing] returns [None]
    whatever else the payload holds; [normalize_autodev_listing] returns
    [None] provided the [vehicle] and [retailListing] entries, where
    present and non-empty, are JSON objects. *)
Theorem normalizers_skip_missing_vin
    (UNIFIED_COLUMNS : list string) (json_dumps : bool -> pyval -> string)
    (autodev marketcheck : gmap string pyval) (fetched_at : string)
    (vehicle_d retail_d : gmap string pyval) :
  py_or (dict_get autodev "vehicle") (PDict ∅) = PDict vehicle_d ->
  py_or (dict_get autodev "retailListing") (PDict ∅) = PDict retail_d ->
  dict_get vehicle_d "vin" = PNone ->
  dict_get marketcheck "vin" = PNone ->
  normalize_autodev_listing UNIFIED_COLUMNS json_dumps autodev fetched_at = Ok None
  /\ normalize_marketcheck_listing UNIFIED_COLUMNS json_dumps marketcheck fetched_at = Ok None.
Proof.
  intros Hv Hr Hvin Hvin'. split.
  - apply (autodev_skips_falsy_vin _ _ _ _ vehicle_d retail_d Hv Hr). by rewrite Hvin.
  - apply marketcheck_skips_falsy_vin. by rewrite Hvin'.
Qed.

Lemma normalizers_skip_missing_vin_witness :
  normalize_autodev_listing sample_columns sample_dumps
    {[ "retailListing" := PDict {[ "price" := PInt 15000 ]} ]} "2024-01-01T00:00:00"
  = Ok None
  /\ normalize_marketcheck_listing sample_columns sample_dumps
       {[ "price" := PInt 15000 ]} "2024-01-01T00:00:00"
     = Ok None.
Proof.
  apply (normalizers_skip_missing_vin sample_columns sample_dumps _ _ _
           ∅ {[ "price" := PInt 15000 ]}); reflexivity.
Defined.

(** C2 as stated fails: with no VIN anywhere and [retailListing] a string,
    [normalize_autodev_listing] raises [AttributeError] at
    [retail.get("dealerDetails")] instead of returning [None]. *)
Lemma autodev_missing_vin_bad_retail_raises :
  normalize_autodev_listing sample_columns sample_dumps
    {[ "retailListing" := PStr "n/a" ]} "2024-01-01T00:00:00"
  = Raise AttributeError.
Proof. apply autodev_raises_on_bad_retail. reflexivity. Qed.

(** *** Records the Auto.dev normaliser produces *)

Lemma truthy_dict_with_key (d : gmap string pyval) k :
  dict_get d k <> PNone -> truthy (PDict d) = true.
Proof.
  intros H. cbn [truthy]. rewrite bool_decide_eq_false_2; [reflexivity|].
  intros ->%map_size_empty_iff. apply H. apply dict_get_empty.
Qed.

Lemma py_or_dict_with_key (d : gmap string pyval) k (v : pyval) :
  dict_get d k <> PNone -> py_or (PDict d) v = PDict d.
Proof. intros H. unfold py_or. by rewrite (truthy_dict_with_key d k). Qed.

(** C3, on the code: whenever [build_year] is a unified column, the record
    of an Auto.dev listing whose vehicle has [year = n] (2020, say) carries
    [year = n] but [build_year] unset.  [empty_record()] already holds the
    key [build_year], so [record.setdefault("build_year", ...)] assigns
    nothing. *)
Theorem autodev_build_year_stays_unset
    (UNIFIED_COLUMNS : list string) (json_dumps : bool -> pyval -> string)
    (listing : gmap string pyval) (fetched_at : string)
    (vehicle_d r : gmap string pyval) (n : Z) :
  "build_year" ∈ UNIFIED_COLUMNS ->
  dict_get listing "vehicle" = PDict vehicle_d ->
  dict_get vehicle_d "year" = PInt n ->
  normalize_autodev_listing UNIFIED_COLUMNS json_dumps listing fetched_at = Ok (Some r) ->
  r !! "year" = Some (PInt n) /\ r !! "build_year" = Some PNone.
Proof.
  intros Hcol Hveh Hyear H. unfold normalize_autodev_listing in H.
  rewrite Hveh, (py_or_dict_with_key vehicle_d "year") in H by (rewrite Hyear; discriminate).
  cbn [as_dict] in H. res_inv H. subst r.
  split; apply autodev_backfill_keep; skip_media; lookup_fields.
  1,2: by rewrite Hyear.
  all: rewrite lookup_empty_record; by rewrite decide_True.
Qed.


Lemma produced_record (m : res (option (gmap string pyval))) :
  produced m = true -> m = Ok (Some (record_of m)).
Proof. by destruct m as [[r|]|e]. Qed.

Lemma build_year_sample_column : "build_year" ∈ sample_columns.
Proof. unfold sample_columns. repeat constructor. Qed.

Lemma autodev_build_year_stays_unset_witness :
  let result :=
    normalize_autodev_listing sample_columns sample_dumps
      sample_year_listing sample_fetched_at in
  produced result = true
  /\ record_of result !! "year" = Some (PInt 2020)
  /\ record_of result !! "build_year" = Some PNone.
Proof.
  intros result.
  assert (Hp : produced result = true) by (vm_compute; reflexivity).
  split; [exact Hp|].
  apply (autodev_build_year_stays_unset sample_columns sample_dumps
           sample_year_listing sample_fetched_at
           {[ "vin" := sample_vin; "year" := PInt 2020 ]} _ 2020
           build_year_sample_column);
    [reflexivity | reflexivity | exact (produced_record _ Hp)].
Defined.

(** *** Coordinates *)

(** The coordinate-pair form in general: the first element of [location]
    is the longitude, the second the latitude, each through [to_float]. *)
Lemma autodev_location_list
    (UNIFIED_COLUMNS : list string) (json_dumps : bool -> pyval -> string)
    (listing : gmap string pyval) (fetched_at : string) (r : gmap string pyval)
    (x y : pyval) (rest : list pyval) :
  dict_get listing "location" = PList (x :: y :: rest) ->
  normalize_autodev_listing UNIFIED_COLUMNS json_dumps listing fetched_at = Ok (Some r) ->
  r !! "dealer_longitude" = Some (of_float (to_float x))
  /\ r !! "dealer_latitude" = Some (of_float (to_float y)).
Proof.
  intros Hloc H. unfold normalize_autodev_listing in H. rewrite Hloc in H.
  change (py_or (PList (x :: y :: rest)) (PList [])) with (PList (x :: y :: rest)) in H.
  change (truthy (PList (x :: y :: rest))) with true in H.
  change (py_item (PList (x :: y :: rest)) 0) with (Ok x) in H.
  change (py_item (PList (x :: y :: rest)) 1) with (Ok y) in H.
  change (py_len (PList (x :: y :: rest)))
    with (Ok (Z.of_nat (S (S (length rest))))) in H.
  assert (Hlen : (1 <? Z.of_nat (S (S (length rest)))) = true)
    by (apply Z.ltb_lt; lia).
  unfold mbind, res_bind in H. rewrite Hlen in H.
  res_inv H. subst r.
  split; apply autodev_backfill_keep; skip_media; lookup_fields; reflexivity.
Qed.

(** C5: for a Source A listing whose [location] is the pair
    [[lon, lat]] of floats ([[-122.4, 37.8]], say), the record has
    [dealer_longitude = lon] and [dealer_latitude = lat]: the pair is read
    longitude first. *)
Theorem autodev_location_pair_longitude_first
    (UNIFIED_COLUMNS : list string) (json_dumps : bool -> pyval -> string)
    (listing : gmap string pyval) (fetched_at : string) (r : gmap string pyval)
    (lon lat : spec_float) :
  dict_get listing "location" = PList [PFloat lon; PFloat lat] ->
  normalize_autodev_listing UNIFIED_COLUMNS json_dumps listing fetched_at = Ok (Some r) ->
  r !! "dealer_longitude" = Some (PFloat lon)
  /\ r !! "dealer_latitude" = Some (PFloat lat).
Proof.
  intros Hloc H.
  exact (autodev_location_list UNIFIED_COLUMNS json_dumps listing fetched_at r
           (PFloat lon) (PFloat lat) [] Hloc H).
Qed.

Lemma autodev_location_pair_longitude_first_witness :
  let result :=
    normalize_autodev_listing sample_columns sample_dumps
      sample_location_listing sample_fetched_at in
  produced result = true
  /\ record_of result !! "dealer_longitude" = Some (PFloat sample_longitude)
  /\ record_of result !! "dealer_latitude" = Some (PFloat sample_latitude).
Proof.
  intros result.
  assert (Hp : produced result = true) by (vm_compute; reflexivity).
  split; [exact Hp|].
  apply (autodev_location_pair_longitude_first sample_columns sample_dumps
           sample_location_listing sample_fetched_at);
    [reflexivity | exact (produced_record _ Hp)].
Defined.

(** *** The used flag *)

(** C8: both normalisers fill [inventory_type] and [is_used] from the
    source's own indicator.  Auto.dev: the boolean [used] flag of the retail
    listing gives [inventory_type] "used" for [True], "new" for [False],
    unset otherwise, and [is_used] is [to_bool] of the flag.  Marketcheck:
    [inventory_type] is kept as it is and [is_used] is 1 for the token
    "used", 0 for "new" (after [strip] and [lower]), unset for any other
    token or a value that is no string. *)
Theorem normalizers_map_used_flag
    (UNIFIED_COLUMNS : list string) (json_dumps : bool -> pyval -> string)
    (autodev marketcheck : gmap string pyval) (fetched_at : string)
    (retail_d ra rm : gmap string pyval) :
  py_or (dict_get autodev "retailListing") (PDict ∅) = PDict retail_d ->
  normalize_autodev_listing UNIFIED_COLUMNS json_dumps autodev fetched_at = Ok (Some ra) ->
  normalize_marketcheck_listing UNIFIED_COLUMNS json_dumps marketcheck fetched_at = Ok (Some rm) ->
  (ra !! "inventory_type"
   = Some (match dict_get retail_d "used" with
           | PBool true => PStr "used"
           | PBool false => PStr "new"
           | _ => PNone
           end)
   /\ ra !! "is_used" = Some (of_bool (to_bool (dict_get retail_d "used")))
   /\ (forall b, dict_get retail_d "used" = PBool b -> ra !! "is_used" = Some (PBool b)))
  /\ (rm !! "inventory_type" = Some (dict_get marketcheck "inventory_type")
      /\ rm !! "is_used"
         = Some (match dict_get marketcheck "inventory_type" with
                 | PStr s =>
                     if bool_decide (lower (strip s) = "used") then PInt 1
                     else if bool_decide (lower (strip s) = "new") then PInt 0
                     else PNone
                 | _ => PNone
                 end)).
Proof.
  intros Hretail Ha Hm. split.
  - unfold normalize_autodev_listing in Ha. rewrite Hretail in Ha.
    cbn [as_dict] in Ha. res_inv Ha. subst ra.
    split; [|split].
    + apply autodev_backfill_keep; skip_media; lookup_fields; reflexivity.
    + apply autodev_backfill_keep; skip_media; lookup_fields; reflexivity.
    + intros b Hb.
      apply autodev_backfill_keep; skip_media; lookup_fields; by rewrite Hb.
  - unfold normalize_marketcheck_listing in Hm. res_inv Hm. subst rm.
    split; apply marketcheck_backfill_keep; do 2 lookup_fields; reflexivity.
Qed.

Lemma normalizers_map_used_flag_witness :
  let ra :=
    normalize_autodev_listing sample_columns sample_dumps
      sample_used_listing sample_fetched_at in
  let rm :=
    normalize_marketcheck_listing sample_columns sample_dumps
      sample_marketcheck_listing sample_fetched_at in
  (produced ra = true /\ produced rm = true)
  /\ record_of ra !! "inventory_type" = Some (PStr "used")
  /\ record_of ra !! "is_used" = Some (PBool true)
  /\ record_of rm !! "inventory_type" = Some (PStr " Used ")
  /\ record_of rm !! "is_used" = Some (PInt 1).
Proof.
  intros ra rm.
  assert (Hpa : produced ra = true) by (vm_compute; reflexivity).
  assert (Hpm : produced rm = true) by (vm_compute; reflexivity).
  split; [by split|].
  pose proof (normalizers_map_used_flag sample_columns sample_dumps
                sample_used_listing sample_marketcheck_listing sample_fetched_at
                {[ "used" := PBool true ]} (record_of ra) (record_of rm)
                eq_refl (produced_record _ Hpa) (produced_record _ Hpm))
    as [(Hinv & Hused & _) [Hinv' Hused']].
  split; [exact Hinv|]. split; [exact Hused|]. split; [exact Hinv' | exact Hused'].
Defined.

(** *** Listings with a VIN and nothing else *)

Lemma unset_outside_dict_update exempt items (d : gmap string pyval) :
  Forall (fun kv => kv.1 ∈ exempt \/ kv.2 = PNone) items ->
  unset_outside exempt d -> unset_outside exempt (dict_update items d).
Proof.
  intros Hitems Hd.
  apply (map_Forall_dict_update (fun k v => k ∉ exempt -> v = PNone)); [|exact Hd].
  eapply Forall_impl; [exact Hitems|]. intros [k v] [Hin|Hv] Hout; [contradiction|exact Hv].
Qed.

Lemma empty_record_unset_outside exempt cols : unset_outside exempt (empty_record cols).
Proof. intros k v Hk _. exact (empty_record_unset cols k v Hk). Qed.

Lemma dict_get_unset exempt (d : gmap string pyval) k :
  unset_outside exempt d -> k ∉ exempt -> dict_get d k = PNone.
Proof.
  intros Hd Hk. unfold dict_get. destruct (d !! k) as [v|] eqn:E; [|reflexivity].
  exact (Hd k v E Hk).
Qed.

Lemma unset_outside_setdefault exempt k src (d : gmap string pyval) :
  src ∉ exempt -> unset_outside exempt d ->
  unset_outside exempt (dict_setdefault k (dict_get d src) d).
Proof.
  intros Hsrc Hd. rewrite (dict_get_unset exempt d src Hd Hsrc).
  apply (map_Forall_setdefault (fun k v => k ∉ exempt -> v = PNone)); [reflexivity|exact Hd].
Qed.

Lemma unset_outside_seating exempt (d : gmap string pyval) :
  "seats" ∉ exempt -> unset_outside exempt d -> unset_outside exempt (setdefault_seating d).
Proof.
  intros Hsrc Hd. unfold setdefault_seating.
  by rewrite (dict_get_unset exempt d "seats" Hd Hsrc).
Qed.

(** A literal key is none of the exempt columns. *)
Ltac not_exempt :=
  let H := fresh in
  intros H;
  repeat (apply elem_of_cons in H as [H|H]; [discriminate H|]);
  by apply elem_of_nil in H.

Lemma autodev_backfill_unset (d : gmap string pyval) :
  unset_outside ("build_json" :: identity_columns) d ->
  unset_outside ("build_json" :: identity_columns) (autodev_backfill d).
Proof.
  intros Hd. unfold autodev_backfill. cbv zeta.
  apply unset_outside_seating; [not_exempt|].
  repeat (apply unset_outside_setdefault; [not_exempt|]). exact Hd.
Qed.

Lemma marketcheck_backfill_unset (d : gmap string pyval) :
  unset_outside identity_columns d ->
  unset_outside identity_columns (marketcheck_backfill d).
Proof.
  intros Hd. unfold marketcheck_backfill. cbv zeta.
  repeat (apply unset_outside_setdefault; [not_exempt|]). exact Hd.
Qed.

Lemma alist_get_is_Some k items acc : is_Some acc -> is_Some (alist_get k items acc).
Proof.
  revert acc. induction items as [|[k' v] items IH]; intros acc Hacc; [exact Hacc|].
  cbn [alist_get]. apply IH. destruct (String.eqb k' k); [by eexists|exact Hacc].
Qed.

Lemma dict_update_present items (d : gmap string pyval) k :
  is_Some (d !! k) -> is_Some (dict_update items d !! k).
Proof. intros H. rewrite lookup_dict_update. by apply alist_get_is_Some. Qed.

Lemma empty_record_present cols c : c ∈ cols -> is_Some (empty_record cols !! c).
Proof. intros H. rewrite lookup_empty_record, decide_True by exact H. by eexists. Qed.

Lemma py_or_singleton k (v x : pyval) : py_or (PDict {[ k := v ]}) x = PDict {[ k := v ]}.
Proof. unfold py_or. by rewrite truthy_singleton. Qed.

Lemma dumps_if_singleton dumps b k (v : pyval) :
  dumps_if dumps b (PDict {[ k := v ]}) = PStr (dumps b (PDict {[ k := v ]})).
Proof. unfold dumps_if. by rewrite truthy_singleton. Qed.

Lemma dumps_if_empty dumps b : dumps_if dumps b (PDict ∅) = PNone.
Proof. unfold dumps_if. by rewrite truthy_empty_dict. Qed.

(** Evaluation of a normaliser on a listing given as a literal. *)
Ltac eval_listing :=
  cbv zeta;
  rewrite ?dict_get_singleton_eq;
  rewrite ?dict_get_singleton_ne by discriminate;
  rewrite ?py_or_singleton, ?dumps_if_singleton;
  cbn [py_or truthy as_dict mbind res_bind];
  rewrite ?dict_get_empty;
  rewrite ?dict_get_singleton_eq;
  rewrite ?dict_get_singleton_ne by discriminate;
  rewrite ?dumps_if_empty.

Lemma bind_ok {A B} (a : A) (f : A -> res B) : (Ok a ≫= f) = f a.
Proof. reflexivity. Qed.

Lemma mret_ok {A} (a : A) : mret a = Ok a.
Proof. reflexivity. Qed.

(** The binds are stepped by rewriting, one after the other. *)
Ltac eval_fields :=
  cbn [negb py_or truthy py_or_lazy get];
  rewrite ?dict_get_empty;
  cbn [to_int to_float to_bool of_int of_float of_bool from_option
       marketcheck_is_used];
  repeat first
    [ rewrite bind_ok; cbv beta
    | rewrite mret_ok
    | progress change (py_len (PList [])) with (Ok (A:=Z) 0)
    | progress (change (1 <? 0) with false; cbv iota)
    | progress cbn [py_or_lazy truthy to_int to_float of_int of_float from_option] ].

(** The update list leaves every column outside [exempt] unset. *)
Ltac items_unset :=
  repeat (apply List.Forall_cons;
          [cbn [fst snd]; first [right; reflexivity | left; repeat constructor]|]);
  apply List.Forall_nil.

Section VinOnly.

Variable UNIFIED_COLUMNS : list string.
Variable json_dumps : bool -> pyval -> string.
Variable vin : pyval.
Variable fetched_at : string.
Hypothesis vin_present : truthy vin = true.

Lemma autodev_vin_only :
  exists record,
    normalize_autodev_listing UNIFIED_COLUMNS json_dumps
      {[ "vehicle" := PDict {[ "vin" := vin ]} ]} fetched_at
    = Ok (Some (autodev_backfill record))
    /\ record !! "vin" = Some vin
    /\ record !! "source" = Some (PStr "autodev")
    /\ unset_outside ("build_json" :: identity_columns) record
    /\ (forall c, c ∈ UNIFIED_COLUMNS -> is_Some (record !! c)).
Proof.
  unfold normalize_autodev_listing. eval_listing. rewrite vin_present.
  eval_fields. eexists. split; [reflexivity|].
  split; [lookup_fields; reflexivity|].
  split; [lookup_fields; reflexivity|].
  split.
  - apply unset_outside_dict_update; [items_unset|apply empty_record_unset_outside].
  - intros c Hc. by apply dict_update_present, empty_record_present.
Qed.

Lemma marketcheck_vin_only :
  exists record,
    normalize_marketcheck_listing UNIFIED_COLUMNS json_dumps
      {[ "vin" := vin ]} fetched_at
    = Ok (Some (marketcheck_backfill record))
    /\ record !! "vin" = Some vin
    /\ record !! "source" = Some (PStr "marketcheck")
    /\ unset_outside identity_columns record
    /\ (forall c, c ∈ UNIFIED_COLUMNS -> is_Some (record !! c)).
Proof.
  unfold normalize_marketcheck_listing. eval_listing. rewrite vin_present.
  eval_fields. eexists. split; [reflexivity|].
  split; [do 2 lookup_fields; reflexivity|].
  split; [do 2 lookup_fields; reflexivity|].
  split.
  - apply unset_outside_dict_update; [items_unset|].
    apply unset_outside_dict_update; [items_unset|apply empty_record_unset_outside].
  - intros c Hc. by apply dict_update_present, dict_update_present, empty_record_present.
Qed.

End VinOnly.

(** C6, as amended: a raw listing that holds a (non-empty) VIN and nothing
    else is normalised without an exception, each normaliser returns a
    record with every unified column present, and every column is unset
    except [vin], [source], the listing metadata ([data_source],
    [data_fetched_at], [raw_json]) and, for [normalize_autodev_listing]
    only, [build_json]: the VIN lives in the [vehicle] sub-object, which
    that normaliser serialises into [build_json]. *)
Theorem vin_only_listing_records
    (UNIFIED_COLUMNS : list string) (json_dumps : bool -> pyval -> string)
    (vin : pyval) (fetched_at : string) :
  truthy vin = true ->
  let ra :=
    normalize_autodev_listing UNIFIED_COLUMNS json_dumps
      {[ "vehicle" := PDict {[ "vin" := vin ]} ]} fetched_at in
  let rm :=
    normalize_marketcheck_listing UNIFIED_COLUMNS json_dumps
      {[ "vin" := vin ]} fetched_at in
  (produced ra = true
   /\ record_of ra !! "vin" = Some vin
   /\ record_of ra !! "source" = Some (PStr "autodev")
   /\ unset_outside ("build_json" :: identity_columns) (record_of ra)
   /\ (forall c, c ∈ UNIFIED_COLUMNS -> is_Some (record_of ra !! c)))
  /\ (produced rm = true
      /\ record_of rm !! "vin" = Some vin
      /\ record_of rm !! "source" = Some (PStr "marketcheck")
      /\ unset_outside identity_columns (record_of rm)
      /\ (forall c, c ∈ UNIFIED_COLUMNS -> is_Some (record_of rm !! c))).
Proof.
  intros Hvin ra rm. split.
  - destruct (autodev_vin_only UNIFIED_COLUMNS json_dumps vin fetched_at Hvin)
      as (record & Heq & Hv & Hs & Hunset & Hcols).
    subst ra. rewrite Heq. cbn [produced record_of].
    split; [reflexivity|].
    split; [by apply autodev_backfill_keep|].
    split; [by apply autodev_backfill_keep|].
    split; [by apply autodev_backfill_unset|].
    intros c Hc. destruct (Hcols c Hc) as [v Hcv]. exists v.
    by apply autodev_backfill_keep.
  - destruct (marketcheck_vin_only UNIFIED_COLUMNS json_dumps vin fetched_at Hvin)
      as (record & Heq & Hv & Hs & Hunset & Hcols).
    subst rm. rewrite Heq. cbn [produced record_of].
    split; [reflexivity|].
    split; [by apply marketcheck_backfill_keep|].
    split; [by apply marketcheck_backfill_keep|].
    split; [by apply marketcheck_backfill_unset|].
    intros c Hc. destruct (Hcols c Hc) as [v Hcv]. exists v.
    by apply marketcheck_backfill_keep.
Qed.

Lemma vin_only_listing_records_witness :
  let ra :=
    normalize_autodev_listing sample_columns sample_dumps
      {[ "vehicle" := PDict {[ "vin" := sample_vin ]} ]} sample_fetched_at in
  let rm :=
    normalize_marketcheck_listing sample_columns sample_dumps
      {[ "vin" := sample_vin ]} sample_fetched_at in
  (produced ra = true
   /\ record_of ra !! "vin" = Some sample_vin
   /\ record_of ra !! "source" = Some (PStr "autodev")
   /\ unset_outside ("build_json" :: identity_columns) (record_of ra)
   /\ (forall c, c ∈ sample_columns -> is_Some (record_of ra !! c)))
  /\ (produced rm = true
      /\ record_of rm !! "vin" = Some sample_vin
      /\ record_of rm !! "source" = Some (PStr "marketcheck")
      /\ unset_outside identity_columns (record_of rm)
      /\ (forall c, c ∈ sample_columns -> is_Some (record_of rm !! c))).
Proof.
  exact (vin_only_listing_records sample_columns sample_dumps sample_vin
           sample_fetched_at eq_refl).
Defined.

(** C6 as stated fails for Auto.dev: the record of a listing that holds a
    VIN and nothing else has [build_json] set, a unified column that is
    neither [vin], [source] nor listing metadata. *)
Lemma autodev_vin_only_sets_build_json :
  let result :=
    normalize_autodev_listing sample_columns sample_dumps
      {[ "vehicle" := PDict {[ "vin" := sample_vin ]} ]} sample_fetched_at in
  produced result = true
  /\ "build_json" ∈ sample_columns
  /\ record_of result !! "build_json" = Some (PStr "{...}")
  /\ ~ unset_outside identity_columns (record_of result).
Proof.
  intros result.
  assert (Hjson : record_of result !! "build_json" = Some (PStr "{...}"))
    by (vm_compute; reflexivity).
  split; [vm_compute; reflexivity|].
  split; [unfold sample_columns; repeat constructor|].
  split; [exact Hjson|].
  intros Hunset.
  assert (Hnone : PStr "{...}" = PNone); [|discriminate Hnone].
  apply (Hunset "build_json" _ Hjson). not_exempt.
Qed.

(** *** The priority upsert *)

Section WriterFacts.

Variable UNIFIED_COLUMNS : list string.
Variable PRIORITY : gmap string Z.

Lemma truthy_text (s : string) : s <> "" -> truthy (PStr s) = true.
Proof. intros H. destruct s; [contradiction|reflexivity]. Qed.

(** A record without a usable [vin] or [source] is turned away before
    the table is touched. *)
Lemma upsert_rejects_falsy (record : gmap string pyval) (db : gmap sqlval (gmap string sqlval)) :
  truthy (dict_get record "vin") = false \/ truthy (dict_get record "source") = false ->
  upsert UNIFIED_COLUMNS PRIORITY record db = Ok (false, db).
Proof.
  intros H. unfold upsert.
  destruct (truthy (dict_get record "vin")) eqn:Hvin; [|reflexivity].
  destruct H as [H|H]; [discriminate H|]. by rewrite H.
Qed.

Lemma bind_param_storable (v : pyval) :
  storable v = true -> bind_param v = Ok (sql_of v).
Proof.
  unfold storable, bind_param. destruct v; try reflexivity; try discriminate.
  by destruct (_ && _).
Qed.

Lemma bind_values_storable (record : gmap string pyval) (cols : list string) :
  (forall c, c ∈ cols -> storable (dict_get record c) = true) ->
  mapM (fun column => bind_param (dict_get record column)) cols
  = Ok ((fun column => sql_of (dict_get record column)) <$> cols).
Proof.
  induction cols as [|c cols IH]; intros H; [reflexivity|].
  cbn [mapM fmap list_fmap]. rewrite bind_param_storable by (apply H; left).
  cbn [mbind res_bind]. rewrite IH by (intros c' Hc'; apply H; by right).
  reflexivity.
Qed.

(** The stored row holds, column by column, the value of the record. *)
Lemma lookup_row_of (record : gmap string pyval) (c : string) :
  c ∈ UNIFIED_COLUMNS ->
  row_of UNIFIED_COLUMNS record !! c = Some (sql_of (dict_get record c)).
Proof.
  unfold row_of, row_of_values.
  induction UNIFIED_COLUMNS as [|c0 cols IH]; intros Hc.
  - by apply elem_of_nil in Hc.
  - cbn [fmap list_fmap zip zip_with list_to_map foldr uncurry].
    destruct (decide (c0 = c)) as [->|Hne].
    + apply lookup_insert_eq.
    + rewrite lookup_insert_ne by exact Hne. apply IH.
      apply elem_of_cons in Hc as [Hc|Hc]; [congruence|exact Hc].
Qed.

Section TextIdentity.

Variable record : gmap string pyval.
Variable db : gmap sqlval (gmap string sqlval).
Variables v s : string.
Hypothesis vin_column : "vin" ∈ UNIFIED_COLUMNS.
Hypothesis record_vin : dict_get record "vin" = PStr v.
Hypothesis vin_not_empty : v <> "".
Hypothesis record_source : dict_get record "source" = PStr s.
Hypothesis source_not_empty : s <> "".

Lemma upsert_keeps_higher_priority (stored : sqlval) :
  select_source (SText v) db = Some stored ->
  default 0 (PRIORITY !! s) < stored_priority PRIORITY stored ->
  upsert UNIFIED_COLUMNS PRIORITY record db = Ok (false, db).
Proof.
  intros Hsel Hlt. unfold upsert.
  rewrite record_vin, record_source, !truthy_text by assumption.
  cbn [negb bind_param sql_of mbind res_bind priority_get mret res_ret].
  rewrite Hsel. cbn [mbind res_bind mret res_ret].
  rewrite (proj2 (Z.gtb_gt _ _)) by lia. reflexivity.
Qed.

Lemma upsert_replaces :
  select_source (SText v) db = None
  \/ (exists stored, select_source (SText v) db = Some stored
                     /\ stored_priority PRIORITY stored <= default 0 (PRIORITY !! s)) ->
  storable_record UNIFIED_COLUMNS record ->
  upsert UNIFIED_COLUMNS PRIORITY record db
  = Ok (true, <[SText v := row_of UNIFIED_COLUMNS record]> db).
Proof.
  intros Hsel Hstore. unfold upsert.
  rewrite record_vin, record_source, !truthy_text by assumption.
  cbn [negb bind_param sql_of mbind res_bind priority_get mret res_ret].
  destruct Hsel as [Hsel|(stored & Hsel & Hle)]; rewrite Hsel;
    cbn [mbind res_bind mret res_ret];
    [|rewrite Z.gtb_ltb, (proj2 (Z.ltb_ge _ _)) by exact Hle].
  all: rewrite (bind_values_storable record UNIFIED_COLUMNS Hstore).
  all: cbn [mbind res_bind mret res_ret]; unfold insert_or_replace.
  all: fold (row_of UNIFIED_COLUMNS record).
  all: rewrite (lookup_row_of record "vin" vin_column), record_vin; reflexivity.
Qed.

End TextIdentity.

End WriterFacts.

Lemma storable_record_of_values (cols : list string) (record : gmap string pyval) :
  map_Forall (fun _ v => storable v = true) record -> storable_record cols record.
Proof.
  intros H c _. unfold dict_get. destruct (record !! c) as [x|] eqn:E; [|reflexivity].
  exact (H c x E).
Qed.

Lemma vin_sample_column : "vin" ∈ sample_columns.
Proof. unfold sample_columns. repeat constructor. Qed.

(** The records of the examples hold text and small integers only. *)
Ltac sample_storable :=
  apply storable_record_of_values;
  repeat (apply map_Forall_insert_2; [reflexivity|]);
  apply map_Forall_empty.

(** C1, as amended: for every record whose [vin] and [source] are
    non-empty text (not merely non-null) and whose column values SQLite can
    store: when a row for that VIN exists and the stored source's priority
    is strictly greater than the incoming one's, [upsert] returns [False]
    and the table is unchanged; when there is no such row, or the
    priorities are equal, or the incoming one is higher, it returns [True]
    and the row for that VIN becomes the record's own row, built column by
    column from the record alone, nothing of the old row kept. *)
Theorem upsert_priority_rule
    (UNIFIED_COLUMNS : list string) (PRIORITY : gmap string Z)
    (record : gmap string pyval) (db : gmap sqlval (gmap string sqlval))
    (v s : string) :
  "vin" ∈ UNIFIED_COLUMNS ->
  dict_get record "vin" = PStr v -> v <> "" ->
  dict_get record "source" = PStr s -> s <> "" ->
  storable_record UNIFIED_COLUMNS record ->
  (forall stored,
      select_source (SText v) db = Some stored ->
      default 0 (PRIORITY !! s) < stored_priority PRIORITY stored ->
      upsert UNIFIED_COLUMNS PRIORITY record db = Ok (false, db))
  /\ (select_source (SText v) db = None
      \/ (exists stored, select_source (SText v) db = Some stored
                         /\ stored_priority PRIORITY stored <= default 0 (PRIORITY !! s)) ->
      upsert UNIFIED_COLUMNS PRIORITY record db
      = Ok (true, <[SText v := row_of UNIFIED_COLUMNS record]> db))
  /\ (forall c, c ∈ UNIFIED_COLUMNS ->
        row_of UNIFIED_COLUMNS record !! c = Some (sql_of (dict_get record c))).
Proof.
  intros Hcol Hvin Hv Hsource Hs Hstore. split; [|split].
  - intros stored Hsel Hlt.
    exact (upsert_keeps_higher_priority UNIFIED_COLUMNS PRIORITY record db v s
             Hvin Hv Hsource Hs stored Hsel Hlt).
  - intros Hsel.
    exact (upsert_replaces UNIFIED_COLUMNS PRIORITY record db v s
             Hcol Hvin Hv Hsource Hs Hsel Hstore).
  - intros c Hc. by apply lookup_row_of.
Qed.

(** The scenario of the specification: the Marketcheck row (priority 10)
    stays when an Auto.dev record (priority 5) arrives for the same VIN,
    and an Auto.dev record creates the row when the table is empty. *)
Lemma upsert_priority_rule_witness :
  upsert sample_columns sample_priority sample_autodev_record sample_table
  = Ok (false, sample_table)
  /\ upsert sample_columns sample_priority sample_autodev_record ∅
     = Ok (true, {[ SText "1FAKE000000000001"
                    := row_of sample_columns sample_autodev_record ]}).
Proof.
  assert (Hstore : storable_record sample_columns sample_autodev_record)
    by sample_storable.
  assert (Hv : "1FAKE000000000001" <> "") by discriminate.
  assert (Hs : "autodev" <> "") by discriminate.
  split.
  - pose proof (upsert_priority_rule sample_columns sample_priority
                  sample_autodev_record sample_table
                  "1FAKE000000000001" "autodev"
                  vin_sample_column eq_refl Hv eq_refl Hs Hstore) as [Hkeep _].
    apply (Hkeep (SText "marketcheck")); [vm_compute; reflexivity|].
    vm_compute. reflexivity.
  - pose proof (upsert_priority_rule sample_columns sample_priority
                  sample_autodev_record ∅
                  "1FAKE000000000001" "autodev"
                  vin_sample_column eq_refl Hv eq_refl Hs Hstore) as (_ & Hnew & _).
    apply Hnew. left. reflexivity.
Defined.

(** C1 as stated fails: a record whose [vin] is the empty string has a
    non-null [vin] and a non-null [source], and no row exists for it, yet
    [upsert] returns [False] and writes nothing. *)
Lemma upsert_rejects_empty_vin_on_empty_table :
  let record : gmap string pyval :=
    {[ "vin" := PStr ""; "source" := PStr "autodev" ]} in
  dict_get record "vin" <> PNone
  /\ dict_get record "source" <> PNone
  /\ select_source (SText "") (∅ : gmap sqlval (gmap string sqlval)) = None
  /\ upsert sample_columns sample_priority record ∅ = Ok (false, ∅).
Proof.
  intros record.
  split; [discriminate|]. split; [discriminate|]. split; [reflexivity|].
  apply upsert_rejects_falsy. left. reflexivity.
Qed.

(** C4: a record that lacks a [vin] or lacks a [source] (the key missing,
    or its value [None]) is rejected: [upsert] returns [False] and the
    table is the one it was given. *)
Theorem upsert_rejects_missing_identity
    (UNIFIED_COLUMNS : list string) (PRIORITY : gmap string Z)
    (record : gmap string pyval) (db : gmap sqlval (gmap string sqlval)) :
  dict_get record "vin" = PNone \/ dict_get record "source" = PNone ->
  upsert UNIFIED_COLUMNS PRIORITY record db = Ok (false, db).
Proof.
  intros H. apply upsert_rejects_falsy.
  destruct H as [->| ->]; [left|right]; reflexivity.
Qed.

Lemma upsert_rejects_missing_identity_witness :
  upsert sample_columns sample_priority
    {[ "source" := PStr "autodev"; "price" := PInt 14000 ]} sample_table
  = Ok (false, sample_table)
  /\ upsert sample_columns sample_priority
       {[ "vin" := sample_vin; "source" := PNone ]} sample_table
     = Ok (false, sample_table).
Proof.
  split; apply upsert_rejects_missing_identity; [left|right]; reflexivity.
Defined.

(** C9, as amended: a source name that [PRIORITY] does not list counts as
    priority 0.  An incoming record from such a source is rejected whenever
    the stored row's source has a priority above 0; a stored row from such
    a source is replaced by every incoming record whose [vin] and [source]
    are non-empty text, whose column values SQLite can store, and whose own
    source has no negative priority. *)
Theorem upsert_unknown_source_is_priority_zero
    (UNIFIED_COLUMNS : list string) (PRIORITY : gmap string Z)
    (record : gmap string pyval) (db : gmap sqlval (gmap string sqlval))
    (v s : string) (stored : sqlval) :
  "vin" ∈ UNIFIED_COLUMNS ->
  dict_get record "vin" = PStr v -> v <> "" ->
  dict_get record "source" = PStr s -> s <> "" ->
  select_source (SText v) db = Some stored ->
  (forall unknown, PRIORITY !! unknown = None ->
     priority_get PRIORITY (PStr unknown) = Ok 0
     /\ stored_priority PRIORITY (SText unknown) = 0)
  /\ (PRIORITY !! s = None ->
      0 < stored_priority PRIORITY stored ->
      upsert UNIFIED_COLUMNS PRIORITY record db = Ok (false, db))
  /\ ((forall s0, stored = SText s0 -> PRIORITY !! s0 = None) ->
      0 <= default 0 (PRIORITY !! s) ->
      storable_record UNIFIED_COLUMNS record ->
      upsert UNIFIED_COLUMNS PRIORITY record db
      = Ok (true, <[SText v := row_of UNIFIED_COLUMNS record]> db)).
Proof.
  intros Hcol Hvin Hv Hsource Hs Hsel. split; [|split].
  - intros unknown Hnone. unfold priority_get, stored_priority.
    by rewrite Hnone.
  - intros Hnone Hpos.
    apply (upsert_keeps_higher_priority UNIFIED_COLUMNS PRIORITY record db v s
             Hvin Hv Hsource Hs stored Hsel).
    by rewrite Hnone.
  - intros Hunknown Hnonneg Hstore.
    apply (upsert_replaces UNIFIED_COLUMNS PRIORITY record db v s
             Hcol Hvin Hv Hsource Hs); [|exact Hstore].
    right. exists stored. split; [exact Hsel|].
    assert (Hzero : stored_priority PRIORITY stored = 0).
    { destruct stored as [| | |s0]; try reflexivity.
      cbn [stored_priority]. by rewrite (Hunknown s0 eq_refl). }
    rewrite Hzero. exact Hnonneg.
Qed.

Lemma upsert_unknown_source_is_priority_zero_witness :
  upsert sample_columns sample_priority sample_legacy_record sample_table
  = Ok (false, sample_table)
  /\ upsert sample_columns sample_priority sample_autodev_record sample_legacy_table
     = Ok (true, <[SText "1FAKE000000000001"
                   := row_of sample_columns sample_autodev_record]> sample_legacy_table).
Proof.
  assert (Hv : "1FAKE000000000001" <> "") by discriminate.
  split.
  - assert (Hs : "legacy" <> "") by discriminate.
    assert (Hsel : select_source (SText "1FAKE000000000001") sample_table
                   = Some (SText "marketcheck")) by (vm_compute; reflexivity).
    pose proof (upsert_unknown_source_is_priority_zero sample_columns sample_priority
                  sample_legacy_record sample_table
                  "1FAKE000000000001" "legacy" (SText "marketcheck")
                  vin_sample_column eq_refl Hv eq_refl Hs Hsel) as (_ & Hreject & _).
    apply Hreject; [reflexivity|vm_compute; reflexivity].
  - assert (Hs : "autodev" <> "") by discriminate.
    assert (Hsel : select_source (SText "1FAKE000000000001") sample_legacy_table
                   = Some (SText "legacy")) by (vm_compute; reflexivity).
    pose proof (upsert_unknown_source_is_priority_zero sample_columns sample_priority
                  sample_autodev_record sample_legacy_table
                  "1FAKE000000000001" "autodev" (SText "legacy")
                  vin_sample_column eq_refl Hv eq_refl Hs Hsel) as (_ & _ & Hreplace).
    apply Hreplace.
    + intros s0 [= <-]. reflexivity.
    + vm_compute. discriminate.
    + sample_storable.
Defined.

(** C9 as stated fails: a stored row of an unknown source is not replaced
    by every record that has a [vin] and a [source].  Where the priority
    table gives a source a negative priority, here [autodev] with -1, a
    record of that source is turned away by the stored row, whose unknown
    source counts 0.  And with the sample priorities a record whose
    [listing_id] is a list does not replace the row either: the INSERT
    cannot bind the list, and [upsert] raises. *)
Lemma upsert_keeps_unknown_source_row :
  let negative : gmap string Z := {[ "autodev" := -1 ]} in
  let record_with_list : gmap string pyval :=
    {[ "vin" := sample_vin; "source" := PStr "autodev";
       "listing_id" := PList [PInt 1] ]} in
  select_source (SText "1FAKE000000000001") sample_legacy_table = Some (SText "legacy")
  /\ negative !! "legacy" = None
  /\ sample_priority !! "legacy" = None
  /\ upsert sample_columns negative sample_autodev_record sample_legacy_table
     = Ok (false, sample_legacy_table)
  /\ upsert sample_columns sample_priority record_with_list sample_legacy_table
     = Raise ProgrammingError.
Proof.
  intros negative record_with_list.
  assert (Hsel : select_source (SText "1FAKE000000000001") sample_legacy_table
                 = Some (SText "legacy")) by (vm_compute; reflexivity).
  split; [exact Hsel|]. split; [reflexivity|]. split; [reflexivity|]. split.
  - apply (upsert_keeps_higher_priority sample_columns negative sample_autodev_record
             sample_legacy_table "1FAKE000000000001" "autodev"
             eq_refl ltac:(discriminate) eq_refl ltac:(discriminate)
             (SText "legacy") Hsel).
    vm_compute. reflexivity.
  - vm_compute. reflexivity.
Qed.

(** *** The empty string as a missing identity *)

(** C10, as amended: the empty string counts as no VIN and no source.  A
    Marketcheck listing whose [vin] is the empty string produces no record;
    an Auto.dev listing whose vehicle's [vin] is the empty string produces
    no record provided its [vehicle] and [retailListing] entries are JSON
    objects; and [upsert] rejects a record whose [vin] or [source] is the
    empty string, leaving the table as it was. *)
Theorem empty_string_identity_is_missing
    (UNIFIED_COLUMNS : list string) (json_dumps : bool -> pyval -> string)
    (PRIORITY : gmap string Z)
    (autodev marketcheck : gmap string pyval) (fetched_at : string)
    (vehicle_d retail_d : gmap string pyval)
    (record : gmap string pyval) (db : gmap sqlval (gmap string sqlval)) :
  py_or (dict_get autodev "vehicle") (PDict ∅) = PDict vehicle_d ->
  py_or (dict_get autodev "retailListing") (PDict ∅) = PDict retail_d ->
  dict_get vehicle_d "vin" = PStr "" ->
  dict_get marketcheck "vin" = PStr "" ->
  dict_get record "vin" = PStr "" \/ dict_get record "source" = PStr "" ->
  normalize_autodev_listing UNIFIED_COLUMNS json_dumps autodev fetched_at = Ok None
  /\ normalize_marketcheck_listing UNIFIED_COLUMNS json_dumps marketcheck fetched_at = Ok None
  /\ upsert UNIFIED_COLUMNS PRIORITY record db = Ok (false, db).
Proof.
  intros Hv Hr Hvin Hvin' Hrecord. split; [|split].
  - apply (autodev_skips_falsy_vin _ _ _ _ vehicle_d retail_d Hv Hr). by rewrite Hvin.
  - apply marketcheck_skips_falsy_vin. by rewrite Hvin'.
  - apply upsert_rejects_falsy.
    destruct Hrecord as [->| ->]; [left|right]; reflexivity.
Qed.

Lemma empty_string_identity_is_missing_witness :
  normalize_autodev_listing sample_columns sample_dumps
    {[ "vehicle" := PDict {[ "vin" := PStr ""; "year" := PInt 2020 ]} ]}
    sample_fetched_at
  = Ok None
  /\ normalize_marketcheck_listing sample_columns sample_dumps
       {[ "vin" := PStr ""; "price" := PInt 15000 ]} sample_fetched_at
     = Ok None
  /\ upsert sample_columns sample_priority
       {[ "vin" := sample_vin; "source" := PStr "" ]} sample_table
     = Ok (false, sample_table).
Proof.
  apply (empty_string_identity_is_missing sample_columns sample_dumps sample_priority
           _ _ _ {[ "vin" := PStr ""; "year" := PInt 2020 ]} ∅);
    [reflexivity | reflexivity | reflexivity | reflexivity | right; reflexivity].
Defined.

(** C10 as stated fails for Auto.dev: with the VIN the empty string and
    [retailListing] a number, [normalize_autodev_listing] raises
    [AttributeError] instead of returning [None]. *)
Lemma autodev_empty_vin_bad_retail_raises :
  normalize_autodev_listing sample_columns sample_dumps
    {[ "vehicle" := PDict {[ "vin" := PStr "" ]}; "retailListing" := PInt 7 ]}
    sample_fetched_at
  = Raise AttributeError.
Proof. apply autodev_raises_on_bad_retail. reflexivity. Qed.

(** *** The coercions *)




(** *** The coercions on sample values *)

Example to_int_2020 : to_int (PInt 2020) = Some 2020.
Proof. reflexivity. Qed.
Example to_int_text : to_int (PStr " -1_250 ") = Some (-1250).
Proof. reflexivity. Qed.
Example to_int_bad_text : to_int (PStr "12.5") = None.
Proof. reflexivity. Qed.
Example to_int_float : to_int (PFloat (float_of_ratio true 25 2)) = Some (-12).
Proof. reflexivity. Qed.
Example to_float_text :
  to_float (PStr "-122.4") = Some (float_of_ratio true 1224 10).
Proof. reflexivity. Qed.
Example to_float_exp : to_float (PStr "1.5e3") = Some (float_of_Z 1500).
Proof. reflexivity. Qed.
Example to_bool_yes : to_bool (PStr " Yes ") = Some true.
Proof. reflexivity. Qed.
Example to_bool_other : to_bool (PStr "maybe") = None.
Proof. reflexivity. Qed.
Example to_bool_two : to_bool (PInt 2) = None.
Proof. reflexivity. Qed.

(** The separators 28 to 31 are white space for [str.strip], not for
    [int] and [float]; the no-break space is white space for all three. *)
Example to_int_separator : to_int (PStr (String (ascii_of_N 28) "7")) = None.
Proof. reflexivity. Qed.
Example to_float_separator : to_float (PStr (String (ascii_of_N 28) "7")) = None.
Proof. reflexivity. Qed.
Example to_int_no_break_space : to_int (PStr (String (ascii_of_N 160) "7")) = Some 7.
Proof. reflexivity. Qed.
Example to_bool_separator : to_bool (PStr (String (ascii_of_N 28) "yes")) = Some true.
Proof. reflexivity. Qed.

(** *** The size of a parsed integer *)

Lemma digit_of_range (c : ascii) (d : Z) : digit_of c = Some d -> 0 <= d <= 9.
Proof.
  unfold digit_of. destruct (_ && _)%N eqn:E; [|discriminate].
  intros [= <-]. apply andb_true_iff in E as [E1 E2].
  apply N.leb_le in E1, E2. lia.
Qed.

Lemma read_digits_range (s : string) : forall after_digit ds r,
  read_digits after_digit s = (ds, r) -> Forall (fun d => 0 <= d <= 9) ds.
Proof.
  induction s as [|c s IH]; intros after_digit ds r H; cbn [read_digits] in H.
  - injection H as <- <-. constructor.
  - destruct (digit_of c) as [d|] eqn:Ed.
    + destruct (read_digits true s) as [ds' r'] eqn:Er. injection H as <- <-.
      constructor; [by apply (digit_of_range c)|by apply (IH true ds' r')].
    + destruct (_ && _); [by apply (IH false ds r)|].
      injection H as <- <-. constructor.
Qed.

Lemma digits_value_range (ds : list Z) :
  Forall (fun d => 0 <= d <= 9) ds ->
  0 <= digits_value ds < 10 ^ Z.of_nat (length ds).
Proof.
  unfold digits_value. intros H.
  assert (Hacc : forall a k, 0 <= a < 10 ^ Z.of_nat k ->
            0 <= foldl (fun a d => 10 * a + d) a ds < 10 ^ Z.of_nat (k + length ds)).
  { induction H as [|d ds Hd Hds IH]; intros a k Ha.
    - cbn [foldl length]. by rewrite Nat.add_0_r.
    - cbn [foldl length]. replace (k + S (length ds))%nat with (S k + length ds)%nat by lia.
      apply IH. rewrite Nat2Z.inj_succ, Z.pow_succ_r by lia. lia. }
  apply (Hacc 0 0%nat). cbn. lia.
Qed.

(** A text [int(s)] accepts has at most [int_max_str_digits] digits, so the
    integer it denotes is below that power of ten. *)
Lemma parse_int_range (s : string) (n : Z) :
  parse_int s = Some n -> Z.abs n < 10 ^ int_max_str_digits.
Proof.
  unfold parse_int. destruct (read_sign _) as [neg body].
  destruct (read_digits false body) as [[|d ds] [|c r]] eqn:Er; try discriminate.
  destruct (_ <=? _) eqn:Elen; [|discriminate]. intros [= <-].
  apply Z.leb_le in Elen.
  pose proof (digits_value_range (d :: ds) (read_digits_range _ _ _ _ Er)) as Hv.
  assert (Hpow : 10 ^ Z.of_nat (length (d :: ds)) <= 10 ^ int_max_str_digits)
    by (apply Z.pow_le_mono_r; lia).
  destruct neg; cbn [cond_Zopp]; lia.
Qed.

(** *** What one upsert does to the table *)

Section UpsertFacts.

Variable UNIFIED_COLUMNS : list string.
Variable PRIORITY : gmap string Z.

Lemma bind_param_inv (v : pyval) (k : sqlval) :
  bind_param v = Ok k -> k = sql_of v /\ storable v = true.
Proof.
  intros H. unfold storable. destruct (bind_param v) as [k'|e] eqn:E; [|discriminate H].
  split; [|reflexivity]. injection H as <-.
  destruct v; cbn [bind_param] in E; try discriminate E; try congruence.
  destruct (_ && _); congruence.
Qed.

Lemma bind_values_inv (record : gmap string pyval) (cols : list string) values :
  mapM (fun column => bind_param (dict_get record column)) cols = Ok values ->
  values = (fun column => sql_of (dict_get record column)) <$> cols
  /\ (forall c, c ∈ cols -> storable (dict_get record c) = true).
Proof.
  revert values. induction cols as [|c cols IH]; intros values H.
  - injection H as <-. split; [reflexivity|]. intros c Hc. by apply elem_of_nil in Hc.
  - cbn [mapM] in H.
    destruct (bind_param (dict_get record c)) as [k|e] eqn:Ek; [|discriminate H].
    cbn [mbind res_bind] in H.
    destruct (mapM _ cols) as [ks|e] eqn:Eks; [|discriminate H].
    injection H as <-.
    destruct (bind_param_inv _ _ Ek) as [-> Hs].
    destruct (IH _ eq_refl) as [-> Hall].
    split; [reflexivity|].
    intros c' [->|Hc']%elem_of_cons; [exact Hs|by apply Hall].
Qed.

(** The two ways a call of [upsert] returns: nothing written, or the row of
    the record put in the place of a row it may outrank. *)
Lemma upsert_inv (record : gmap string pyval) (db db' : gmap sqlval (gmap string sqlval)) b :
  "vin" ∈ UNIFIED_COLUMNS ->
  upsert UNIFIED_COLUMNS PRIORITY record db = Ok (b, db') ->
  (b = false /\ db' = db)
  \/ (b = true
      /\ db' = <[sql_of (dict_get record "vin") := row_of UNIFIED_COLUMNS record]> db
      /\ storable_record UNIFIED_COLUMNS record
      /\ truthy (dict_get record "vin") = true
      /\ truthy (dict_get record "source") = true
      /\ (select_source (sql_of (dict_get record "vin")) db = None
          \/ exists stored p,
               select_source (sql_of (dict_get record "vin")) db = Some stored
               /\ priority_get PRIORITY (dict_get record "source") = Ok p
               /\ stored_priority PRIORITY stored <= p)).
Proof.
  intros Hcol H. unfold upsert in H.
  destruct (truthy (dict_get record "vin")) eqn:Hvin; cbn [negb] in H;
    [|injection H as <- <-; by left].
  destruct (truthy (dict_get record "source")) eqn:Hsrc; cbn [negb] in H;
    [|injection H as <- <-; by left].
  destruct (bind_param (dict_get record "vin")) as [key|e] eqn:Ek; [|discriminate H].
  destruct (bind_param_inv _ _ Ek) as [-> _].
  cbn [mbind res_bind] in H.
  assert (Hrow : forall values,
             mapM (fun column => bind_param (dict_get record column)) UNIFIED_COLUMNS
             = Ok values ->
             insert_or_replace (row_of_values UNIFIED_COLUMNS values) db
             = <[sql_of (dict_get record "vin") := row_of UNIFIED_COLUMNS record]> db
             /\ storable_record UNIFIED_COLUMNS record).
  { intros values [-> Hall]%bind_values_inv. split; [|exact Hall].
    unfold insert_or_replace. fold (row_of UNIFIED_COLUMNS record).
    by rewrite (lookup_row_of UNIFIED_COLUMNS record "vin" Hcol). }
  destruct (select_source _ db) as [stored|] eqn:Hsel.
  - destruct (priority_get PRIORITY (dict_get record "source")) as [p|e] eqn:Hp;
      [|discriminate H].
    cbn [mbind res_bind mret res_ret] in H.
    destruct (stored_priority PRIORITY stored >? p) eqn:Hgt;
      [injection H as <- <-; by left|].
    destruct (mapM _ UNIFIED_COLUMNS) as [values|e] eqn:Em; [|discriminate H].
    cbn [mbind res_bind mret res_ret] in H. injection H as <- <-.
    destruct (Hrow values eq_refl) as [-> Hstore]. right.
    repeat (split; [done|]). right. exists stored, p.
    repeat (split; [done|]). rewrite Z.gtb_ltb in Hgt. by apply Z.ltb_ge.
  - cbn [mbind res_bind mret res_ret] in H.
    destruct (mapM _ UNIFIED_COLUMNS) as [values|e] eqn:Em; [|discriminate H].
    cbn [mbind res_bind mret res_ret] in H. injection H as <- <-.
    destruct (Hrow values eq_refl) as [-> Hstore]. right.
    repeat (split; [done|]). by left.
Qed.

(** A stored source is worth what the same source is worth in a record. *)
Lemma stored_priority_sql_of (source : pyval) p :
  priority_get PRIORITY source = Ok p -> stored_priority PRIORITY (sql_of source) = p.
Proof.
  destruct source as [| | |x| | |]; cbn [priority_get sql_of stored_priority];
    try congruence.
  destruct (float_is_nan x); cbn [stored_priority]; congruence.
Qed.

Lemma select_source_insert_eq (key : sqlval) (r : gmap string sqlval)
    (db : gmap sqlval (gmap string sqlval)) :
  key <> SNull ->
  select_source key (<[key := r]> db) = Some (default SNull (r !! "source")).
Proof.
  intros Hkey. unfold select_source. destruct key; [done| | |];
    by rewrite lookup_insert_eq.
Qed.

Lemma select_source_insert_ne (key k : sqlval) (r : gmap string sqlval)
    (db : gmap sqlval (gmap string sqlval)) :
  key <> k -> select_source k (<[key := r]> db) = select_source k db.
Proof.
  intros Hne. unfold select_source. destruct k; [done| | |];
    by rewrite lookup_insert_ne.
Qed.

End UpsertFacts.

(** X1: a call of [upsert] that returns for a record with a text VIN
    changes at most the row of that VIN.  When it returns [False] the table
    is the one it was given; when it returns [True] the row stored under
    the VIN is the row of the record; every other row is as it was, and no
    row disappears. *)
Theorem upsert_changes_only_its_row
    (UNIFIED_COLUMNS : list string) (PRIORITY : gmap string Z)
    (record : gmap string pyval) (db db' : gmap sqlval (gmap string sqlval))
    (v : string) (b : bool) :
  "vin" ∈ UNIFIED_COLUMNS ->
  dict_get record "vin" = PStr v ->
  upsert UNIFIED_COLUMNS PRIORITY record db = Ok (b, db') ->
  (b = false -> db' = db)
  /\ (b = true -> db' !! SText v = Some (row_of UNIFIED_COLUMNS record))
  /\ (forall k, k <> SText v -> db' !! k = db !! k)
  /\ (forall k, is_Some (db !! k) -> is_Some (db' !! k)).
Proof.
  intros Hcol Hvin H.
  destruct (upsert_inv UNIFIED_COLUMNS PRIORITY record db db' b Hcol H)
    as [[-> ->]|(-> & -> & _)].
  - repeat split; try done.
  - rewrite Hvin. cbn [sql_of]. split; [done|].
    split; [intros _; apply lookup_insert_eq|].
    split; [intros k Hk; by rewrite lookup_insert_ne|].
    intros k Hk. destruct (decide (SText v = k)) as [<-|Hne].
    + rewrite lookup_insert_eq. by eexists.
    + by rewrite lookup_insert_ne.
Qed.

Lemma autodev_sample_storable : storable_record sample_columns sample_autodev_record.
Proof. sample_storable. Qed.

Lemma legacy_row_selected :
  select_source (SText "1FAKE000000000001") sample_legacy_table = Some (SText "legacy").
Proof. vm_compute. reflexivity. Qed.

(** The Auto.dev record of the examples takes the place of the legacy row. *)
Lemma autodev_replaces_legacy :
  upsert sample_columns sample_priority sample_autodev_record sample_legacy_table
  = Ok (true, <[SText "1FAKE000000000001" := row_of sample_columns sample_autodev_record]>
                sample_legacy_table).
Proof.
  apply (upsert_replaces sample_columns sample_priority sample_autodev_record
           sample_legacy_table "1FAKE000000000001" "autodev" vin_sample_column
           eq_refl ltac:(discriminate) eq_refl ltac:(discriminate));
    [|exact autodev_sample_storable].
  right. exists (SText "legacy"). split; [exact legacy_row_selected|].
  vm_compute. discriminate.
Qed.

Lemma upsert_changes_only_its_row_witness :
  let db' := <[SText "1FAKE000000000001" := row_of sample_columns sample_autodev_record]>
               sample_legacy_table in
  (true = false -> db' = sample_legacy_table)
  /\ (true = true ->
      db' !! SText "1FAKE000000000001" = Some (row_of sample_columns sample_autodev_record))
  /\ (forall k, k <> SText "1FAKE000000000001" -> db' !! k = sample_legacy_table !! k)
  /\ (forall k, is_Some (sample_legacy_table !! k) -> is_Some (db' !! k)).
Proof.
  intros db'.
  exact (upsert_changes_only_its_row sample_columns sample_priority
           sample_autodev_record sample_legacy_table db' "1FAKE000000000001" true
           vin_sample_column eq_refl autodev_replaces_legacy).
Defined.

Section UpsertText.

Variable UNIFIED_COLUMNS : list string.
Variable PRIORITY : gmap string Z.
Hypothesis vin_column : "vin" ∈ UNIFIED_COLUMNS.
Hypothesis source_column : "source" ∈ UNIFIED_COLUMNS.

(** The source read back from the row of a record. *)
Lemma select_source_row_of (record : gmap string pyval)
    (db : gmap sqlval (gmap string sqlval)) (v : string) :
  select_source (SText v) (<[SText v := row_of UNIFIED_COLUMNS record]> db)
  = Some (sql_of (dict_get record "source")).
Proof.
  rewrite select_source_insert_eq by discriminate.
  by rewrite (lookup_row_of UNIFIED_COLUMNS record "source" source_column).
Qed.

Lemma truthy_text_inv (s : string) : truthy (PStr s) = true -> s <> "".
Proof. by destruct s. Qed.

(** The table after an upsert, for a record with a text identity and
    values that can be stored: the row is written unless a stored row
    outranks it. *)
Lemma table_after_upsert_text (record : gmap string pyval)
    (db : gmap sqlval (gmap string sqlval)) (v s : string) :
  dict_get record "vin" = PStr v -> v <> "" ->
  dict_get record "source" = PStr s -> s <> "" ->
  storable_record UNIFIED_COLUMNS record ->
  table_after_upsert UNIFIED_COLUMNS PRIORITY record db
  = match select_source (SText v) db with
    | Some stored =>
        if default 0 (PRIORITY !! s) <? stored_priority PRIORITY stored then db
        else <[SText v := row_of UNIFIED_COLUMNS record]> db
    | None => <[SText v := row_of UNIFIED_COLUMNS record]> db
    end.
Proof.
  intros Hvin Hv Hsrc Hs Hstore. unfold table_after_upsert.
  destruct (select_source (SText v) db) as [stored|] eqn:Hsel.
  - destruct (Z.ltb_spec (default 0 (PRIORITY !! s)) (stored_priority PRIORITY stored))
      as [Hlt|Hle].
    + by rewrite (upsert_keeps_higher_priority UNIFIED_COLUMNS PRIORITY record db v s
                    Hvin Hv Hsrc Hs stored Hsel Hlt).
    + rewrite (upsert_replaces UNIFIED_COLUMNS PRIORITY record db v s
                 vin_column Hvin Hv Hsrc Hs); [done| |done].
      right. by exists stored.
  - rewrite (upsert_replaces UNIFIED_COLUMNS PRIORITY record db v s
               vin_column Hvin Hv Hsrc Hs); [done| |done]. by left.
Qed.

End UpsertText.

(** X2: writing a record twice is writing it once.  When [upsert] has
    returned [True] for a record with a text VIN and a text source, the
    source read back for that VIN is the record's, and a second [upsert] of
    the same record returns [True] again and leaves the table as the first
    one left it. *)
Theorem upsert_twice_is_once
    (UNIFIED_COLUMNS : list string) (PRIORITY : gmap string Z)
    (record : gmap string pyval) (db db' : gmap sqlval (gmap string sqlval))
    (v s : string) :
  "vin" ∈ UNIFIED_COLUMNS -> "source" ∈ UNIFIED_COLUMNS ->
  dict_get record "vin" = PStr v ->
  dict_get record "source" = PStr s ->
  upsert UNIFIED_COLUMNS PRIORITY record db = Ok (true, db') ->
  select_source (SText v) db' = Some (SText s)
  /\ upsert UNIFIED_COLUMNS PRIORITY record db' = Ok (true, db').
Proof.
  intros Hcol Hcol' Hvin Hsrc H.
  destruct (upsert_inv UNIFIED_COLUMNS PRIORITY record db db' true Hcol H)
    as [[? _]|(_ & -> & Hstore & Hv & Hs & _)]; [discriminate|].
  rewrite Hvin in Hv |- *. rewrite Hsrc in Hs. cbn [sql_of].
  apply truthy_text_inv in Hv, Hs.
  assert (Hsel := select_source_row_of UNIFIED_COLUMNS Hcol' record db v).
  rewrite Hsrc in Hsel. cbn [sql_of] in Hsel.
  split; [exact Hsel|].
  rewrite (upsert_replaces UNIFIED_COLUMNS PRIORITY record _ v s
             Hcol Hvin Hv Hsrc Hs); [|right; exists (SText s); by split|done].
  by rewrite insert_insert_eq.
Qed.

Lemma source_sample_column : "source" ∈ sample_columns.
Proof. unfold sample_columns. repeat constructor. Qed.

Lemma upsert_twice_is_once_witness :
  let db' := <[SText "1FAKE000000000001" := row_of sample_columns sample_autodev_record]>
               sample_legacy_table in
  select_source (SText "1FAKE000000000001") db' = Some (SText "autodev")
  /\ upsert sample_columns sample_priority sample_autodev_record db' = Ok (true, db').
Proof.
  intros db'.
  exact (upsert_twice_is_once sample_columns sample_priority sample_autodev_record
           sample_legacy_table db' "1FAKE000000000001" "autodev"
           vin_sample_column source_sample_column eq_refl eq_refl
           autodev_replaces_legacy).
Defined.

(** X3: the precedence stored for a VIN never goes down.  Whatever a call
    of [upsert] with a text identity returns, every VIN that had a row
    still has one, and the priority of its stored source is at least what
    it was. *)
Theorem upsert_never_lowers_priority
    (UNIFIED_COLUMNS : list string) (PRIORITY : gmap string Z)
    (record : gmap string pyval) (db db' : gmap sqlval (gmap string sqlval))
    (v s : string) (b : bool) :
  "vin" ∈ UNIFIED_COLUMNS -> "source" ∈ UNIFIED_COLUMNS ->
  dict_get record "vin" = PStr v ->
  dict_get record "source" = PStr s ->
  upsert UNIFIED_COLUMNS PRIORITY record db = Ok (b, db') ->
  forall k stored,
    select_source k db = Some stored ->
    exists stored',
      select_source k db' = Some stored'
      /\ stored_priority PRIORITY stored <= stored_priority PRIORITY stored'.
Proof.
  intros Hcol Hcol' Hvin Hsrc H k stored Hk.
  destruct (upsert_inv UNIFIED_COLUMNS PRIORITY record db db' b Hcol H)
    as [[_ ->]|(_ & -> & _ & _ & _ & Hsel)].
  { exists stored. split; [exact Hk|lia]. }
  rewrite Hvin in Hsel |- *. cbn [sql_of] in Hsel |- *.
  destruct (decide (SText v = k)) as [<-|Hne].
  - exists (SText s). split.
    + rewrite (select_source_row_of UNIFIED_COLUMNS Hcol'). by rewrite Hsrc.
    + destruct Hsel as [Hnone|(stored0 & p & Hsome & Hp & Hle)]; [congruence|].
      rewrite Hsrc in Hp. cbn [priority_get] in Hp. injection Hp as <-.
      rewrite Hk in Hsome. injection Hsome as <-. exact Hle.
  - exists stored. split; [|lia]. by rewrite select_source_insert_ne.
Qed.

Lemma upsert_never_lowers_priority_witness :
  exists stored',
    select_source (SText "1FAKE000000000001")
      (<[SText "1FAKE000000000001" := row_of sample_columns sample_autodev_record]>
         sample_legacy_table)
    = Some stored'
    /\ stored_priority sample_priority (SText "legacy")
       <= stored_priority sample_priority stored'.
Proof.
  exact (upsert_never_lowers_priority sample_columns sample_priority
           sample_autodev_record sample_legacy_table _ "1FAKE000000000001" "autodev" true
           vin_sample_column source_sample_column eq_refl eq_refl
           autodev_replaces_legacy (SText "1FAKE000000000001") (SText "legacy")
           legacy_row_selected).
Defined.

Section UpsertPair.

Variable UNIFIED_COLUMNS : list string.
Variable PRIORITY : gmap string Z.
Hypothesis vin_column : "vin" ∈ UNIFIED_COLUMNS.
Hypothesis source_column : "source" ∈ UNIFIED_COLUMNS.

Variables r1 r2 : gmap string pyval.
Variable db : gmap sqlval (gmap string sqlval).
Variables v s1 s2 : string.
Hypothesis vin1 : dict_get r1 "vin" = PStr v.
Hypothesis vin2 : dict_get r2 "vin" = PStr v.
Hypothesis vin_not_empty : v <> "".
Hypothesis source1 : dict_get r1 "source" = PStr s1.
Hypothesis source1_not_empty : s1 <> "".
Hypothesis source2 : dict_get r2 "source" = PStr s2.
Hypothesis source2_not_empty : s2 <> "".
Hypothesis storable1 : storable_record UNIFIED_COLUMNS r1.
Hypothesis storable2 : storable_record UNIFIED_COLUMNS r2.

(** The first record, then the second. *)
Lemma table_after_two_upserts :
  table_after_upsert UNIFIED_COLUMNS PRIORITY r2
    (table_after_upsert UNIFIED_COLUMNS PRIORITY r1 db)
  = let p1 := default 0 (PRIORITY !! s1) in
    let p2 := default 0 (PRIORITY !! s2) in
    let outranked p :=
      match select_source (SText v) db with
      | Some stored => p <? stored_priority PRIORITY stored
      | None => false
      end in
    if outranked p1 then
      if outranked p2 then db else <[SText v := row_of UNIFIED_COLUMNS r2]> db
    else
      if p2 <? p1 then <[SText v := row_of UNIFIED_COLUMNS r1]> db
      else <[SText v := row_of UNIFIED_COLUMNS r2]> db.
Proof.
  cbv zeta.
  rewrite (table_after_upsert_text UNIFIED_COLUMNS PRIORITY vin_column r1 db v s1) by done.
  assert (Hwritten :
    table_after_upsert UNIFIED_COLUMNS PRIORITY r2
      (<[SText v := row_of UNIFIED_COLUMNS r1]> db)
    = if default 0 (PRIORITY !! s2) <? default 0 (PRIORITY !! s1)
      then <[SText v := row_of UNIFIED_COLUMNS r1]> db
      else <[SText v := row_of UNIFIED_COLUMNS r2]> db).
  { rewrite (table_after_upsert_text UNIFIED_COLUMNS PRIORITY vin_column r2 _ v s2) by done.
    rewrite (select_source_row_of UNIFIED_COLUMNS source_column), source1.
    cbn [sql_of stored_priority].
    destruct (_ <? _); [done|]. by rewrite insert_insert_eq. }
  destruct (select_source (SText v) db) as [stored|] eqn:Hsel; [|exact Hwritten].
  destruct (default 0 (PRIORITY !! s1) <? stored_priority PRIORITY stored);
    [|exact Hwritten].
  rewrite (table_after_upsert_text UNIFIED_COLUMNS PRIORITY vin_column r2 db v s2) by done.
  by rewrite Hsel.
Qed.

End UpsertPair.

(** X4: two records for one VIN from sources of different priority leave
    the same table in either order of arrival; and when no stored row
    outranks both, the row left for the VIN is the one of the
    higher-priority source. *)
Theorem upsert_order_independent
    (UNIFIED_COLUMNS : list string) (PRIORITY : gmap string Z)
    (r1 r2 : gmap string pyval) (db : gmap sqlval (gmap string sqlval))
    (v s1 s2 : string) :
  "vin" ∈ UNIFIED_COLUMNS -> "source" ∈ UNIFIED_COLUMNS ->
  dict_get r1 "vin" = PStr v -> dict_get r2 "vin" = PStr v -> v <> "" ->
  dict_get r1 "source" = PStr s1 -> s1 <> "" ->
  dict_get r2 "source" = PStr s2 -> s2 <> "" ->
  storable_record UNIFIED_COLUMNS r1 -> storable_record UNIFIED_COLUMNS r2 ->
  default 0 (PRIORITY !! s2) < default 0 (PRIORITY !! s1) ->
  table_after_upsert UNIFIED_COLUMNS PRIORITY r2
    (table_after_upsert UNIFIED_COLUMNS PRIORITY r1 db)
  = table_after_upsert UNIFIED_COLUMNS PRIORITY r1
      (table_after_upsert UNIFIED_COLUMNS PRIORITY r2 db)
  /\ ((forall stored, select_source (SText v) db = Some stored ->
         stored_priority PRIORITY stored <= default 0 (PRIORITY !! s1)) ->
      table_after_upsert UNIFIED_COLUMNS PRIORITY r2
        (table_after_upsert UNIFIED_COLUMNS PRIORITY r1 db)
      = <[SText v := row_of UNIFIED_COLUMNS r1]> db).
Proof.
  intros Hcol Hcol' Hv1 Hv2 Hv Hs1 Hn1 Hs2 Hn2 Hst1 Hst2 Hlt.
  rewrite (table_after_two_upserts UNIFIED_COLUMNS PRIORITY Hcol Hcol' r1 r2 db v s1 s2)
    by done.
  rewrite (table_after_two_upserts UNIFIED_COLUMNS PRIORITY Hcol Hcol' r2 r1 db v s2 s1)
    by done.
  cbv zeta. split.
  - destruct (select_source (SText v) db) as [stored|].
    + repeat match goal with |- context [?a <? ?b] => destruct (Z.ltb_spec a b) end;
        first [reflexivity | lia].
    + repeat match goal with |- context [?a <? ?b] => destruct (Z.ltb_spec a b) end;
        first [reflexivity | lia].
  - intros Hmax. destruct (select_source (SText v) db) as [stored|].
    + specialize (Hmax stored eq_refl).
      repeat match goal with |- context [?a <? ?b] => destruct (Z.ltb_spec a b) end;
        first [reflexivity | lia].
    + repeat match goal with |- context [?a <? ?b] => destruct (Z.ltb_spec a b) end;
        first [reflexivity | lia].
Qed.

Lemma marketcheck_sample_storable :
  storable_record sample_columns sample_marketcheck_record.
Proof. sample_storable. Qed.

(** The scenario of the specification, in both orders of arrival. *)
Lemma upsert_order_independent_witness :
  table_after_upsert sample_columns sample_priority sample_autodev_record
    (table_after_upsert sample_columns sample_priority sample_marketcheck_record ∅)
  = table_after_upsert sample_columns sample_priority sample_marketcheck_record
      (table_after_upsert sample_columns sample_priority sample_autodev_record ∅)
  /\ ((forall stored,
         select_source (SText "1FAKE000000000001") (∅ : gmap sqlval (gmap string sqlval))
         = Some stored ->
         stored_priority sample_priority stored <= default 0 (sample_priority !! "marketcheck")) ->
      table_after_upsert sample_columns sample_priority sample_autodev_record
        (table_after_upsert sample_columns sample_priority sample_marketcheck_record ∅)
      = <[SText "1FAKE000000000001" := row_of sample_columns sample_marketcheck_record]> ∅).
Proof.
  apply (upsert_order_independent sample_columns sample_priority
           sample_marketcheck_record sample_autodev_record ∅
           "1FAKE000000000001" "marketcheck" "autodev"
           vin_sample_column source_sample_column eq_refl eq_refl ltac:(discriminate)
           eq_refl ltac:(discriminate) eq_refl ltac:(discriminate)
           marketcheck_sample_storable autodev_sample_storable).
  vm_compute. reflexivity.
Defined.

(** X5: of two records for one VIN, the later one wins a tie.  When the
    second record's source has at least the priority of the first's, and
    of the stored row if there is one, the row left for the VIN is the
    second record's, whatever the first call did. *)
Theorem upsert_later_record_wins_tie
    (UNIFIED_COLUMNS : list string) (PRIORITY : gmap string Z)
    (r1 r2 : gmap string pyval) (db : gmap sqlval (gmap string sqlval))
    (v s1 s2 : string) :
  "vin" ∈ UNIFIED_COLUMNS -> "source" ∈ UNIFIED_COLUMNS ->
  dict_get r1 "vin" = PStr v -> dict_get r2 "vin" = PStr v -> v <> "" ->
  dict_get r1 "source" = PStr s1 -> s1 <> "" ->
  dict_get r2 "source" = PStr s2 -> s2 <> "" ->
  storable_record UNIFIED_COLUMNS r1 -> storable_record UNIFIED_COLUMNS r2 ->
  default 0 (PRIORITY !! s1) <= default 0 (PRIORITY !! s2) ->
  (forall stored, select_source (SText v) db = Some stored ->
     stored_priority PRIORITY stored <= default 0 (PRIORITY !! s2)) ->
  table_after_upsert UNIFIED_COLUMNS PRIORITY r2
    (table_after_upsert UNIFIED_COLUMNS PRIORITY r1 db)
  = <[SText v := row_of UNIFIED_COLUMNS r2]> db.
Proof.
  intros Hcol Hcol' Hv1 Hv2 Hv Hs1 Hn1 Hs2 Hn2 Hst1 Hst2 Hle Hmax.
  rewrite (table_after_two_upserts UNIFIED_COLUMNS PRIORITY Hcol Hcol' r1 r2 db v s1 s2)
    by done.
  cbv zeta. destruct (select_source (SText v) db) as [stored|].
  - specialize (Hmax stored eq_refl).
    repeat match goal with |- context [?a <? ?b] => destruct (Z.ltb_spec a b) end;
      first [reflexivity | lia].
  - repeat match goal with |- context [?a <? ?b] => destruct (Z.ltb_spec a b) end;
      first [reflexivity | lia].
Qed.

(** Two Auto.dev records for the VIN of the legacy row: the later price
    is the one kept. *)
Lemma upsert_later_record_wins_tie_witness :
  let later : gmap string pyval :=
    {[ "vin" := sample_vin; "source" := PStr "autodev"; "price" := PInt 13500 ]} in
  table_after_upsert sample_columns sample_priority later
    (table_after_upsert sample_columns sample_priority sample_autodev_record
       sample_legacy_table)
  = <[SText "1FAKE000000000001" := row_of sample_columns later]> sample_legacy_table.
Proof.
  intros later.
  apply (upsert_later_record_wins_tie sample_columns sample_priority
           sample_autodev_record later sample_legacy_table
           "1FAKE000000000001" "autodev" "autodev"
           vin_sample_column source_sample_column eq_refl eq_refl ltac:(discriminate)
           eq_refl ltac:(discriminate) eq_refl ltac:(discriminate)).
  - exact autodev_sample_storable.
  - sample_storable.
  - vm_compute. discriminate.
  - intros stored Hsel. rewrite legacy_row_selected in Hsel. injection Hsel as <-.
    vm_compute. discriminate.
Defined.

(** *** Values the INSERT cannot bind *)

(** Binding the values of a record stops at the first column whose value
    cannot be bound, with the error of that value. *)
Lemma bind_values_raise (record : gmap string pyval) (cols : list string) (e : exn) :
  mapM (fun column => bind_param (dict_get record column)) cols = Raise e ->
  exists column, column ∈ cols /\ bind_param (dict_get record column) = Raise e.
Proof.
  induction cols as [|c cols IH]; intros H; [discriminate H|].
  cbn [mapM] in H.
  destruct (bind_param (dict_get record c)) as [k|e'] eqn:Ek.
  - cbn [mbind res_bind] in H.
    destruct (mapM _ cols) as [ks|e'] eqn:Eks; [discriminate H|].
    injection H as ->. destruct (IH eq_refl) as (column & Hin & Hraise).
    exists column. split; [by right|exact Hraise].
  - injection H as ->. exists c. split; [by left|exact Ek].
Qed.

Lemma bind_values_unstorable (record : gmap string pyval) (cols : list string)
    (column : string) :
  column ∈ cols -> storable (dict_get record column) = false ->
  exists e, mapM (fun column => bind_param (dict_get record column)) cols = Raise e.
Proof.
  intros Hin Hbad.
  destruct (mapM _ cols) as [values|e] eqn:Em; [|by exists e].
  apply bind_values_inv in Em as [_ Hall]. by rewrite (Hall column Hin) in Hbad.
Qed.

(** X6: a record one of whose column values SQLite cannot bind (a list, a
    dict, an integer outside 64 bits), with a text identity.  When a stored
    row outranks it, [upsert] turns it away before its values are looked at:
    it returns [False], the table as it was, and raises nothing.  When no
    stored row outranks it, [upsert] raises, with the error of a column
    value that cannot be bound. *)
Theorem upsert_raises_on_unstorable_value
    (UNIFIED_COLUMNS : list string) (PRIORITY : gmap string Z)
    (record : gmap string pyval) (db : gmap sqlval (gmap string sqlval))
    (v s column : string) :
  dict_get record "vin" = PStr v -> v <> "" ->
  dict_get record "source" = PStr s -> s <> "" ->
  column ∈ UNIFIED_COLUMNS ->
  storable (dict_get record column) = false ->
  (forall stored,
      select_source (SText v) db = Some stored ->
      default 0 (PRIORITY !! s) < stored_priority PRIORITY stored ->
      upsert UNIFIED_COLUMNS PRIORITY record db = Ok (false, db))
  /\ ((forall stored,
         select_source (SText v) db = Some stored ->
         stored_priority PRIORITY stored <= default 0 (PRIORITY !! s)) ->
      exists e bad,
        upsert UNIFIED_COLUMNS PRIORITY record db = Raise e
        /\ bad ∈ UNIFIED_COLUMNS
        /\ bind_param (dict_get record bad) = Raise e).
Proof.
  intros Hvin Hv Hsrc Hs Hcol Hbad. split.
  - intros stored Hsel Hlt.
    exact (upsert_keeps_higher_priority UNIFIED_COLUMNS PRIORITY record db v s
             Hvin Hv Hsrc Hs stored Hsel Hlt).
  - intros Hmax.
    destruct (bind_values_unstorable record UNIFIED_COLUMNS column Hcol Hbad) as [e Em].
    destruct (bind_values_raise record UNIFIED_COLUMNS e Em) as (bad & Hin & Hraise).
    exists e, bad. split; [|by split]. unfold upsert.
    rewrite Hvin, Hsrc, !truthy_text by assumption.
    cbn [negb bind_param sql_of mbind res_bind priority_get mret res_ret].
    destruct (select_source (SText v) db) as [stored|];
      cbn [mbind res_bind mret res_ret];
      [rewrite Z.gtb_ltb, (proj2 (Z.ltb_ge _ _)) by exact (Hmax stored eq_refl)|].
    all: cbn [mbind res_bind mret res_ret].
    all: by rewrite Em.
Qed.

Lemma listing_id_sample_column : "listing_id" ∈ sample_columns.
Proof. unfold sample_columns. repeat constructor. Qed.

(** A record whose [listing_id] is a list: the Marketcheck row turns it
    away, and over the legacy row the INSERT cannot bind it. *)
Lemma upsert_raises_on_unstorable_value_witness :
  let record : gmap string pyval :=
    {[ "vin" := sample_vin; "source" := PStr "autodev"; "listing_id" := PList [PInt 1] ]} in
  upsert sample_columns sample_priority record sample_table = Ok (false, sample_table)
  /\ raises (upsert sample_columns sample_priority record sample_legacy_table) = true.
Proof.
  intros record.
  assert (Hv : "1FAKE000000000001" <> "") by discriminate.
  assert (Hs : "autodev" <> "") by discriminate.
  split.
  - pose proof (upsert_raises_on_unstorable_value sample_columns sample_priority record
                  sample_table "1FAKE000000000001" "autodev" "listing_id"
                  eq_refl Hv eq_refl Hs listing_id_sample_column eq_refl) as [Hkeep _].
    apply (Hkeep (SText "marketcheck")); vm_compute; reflexivity.
  - pose proof (upsert_raises_on_unstorable_value sample_columns sample_priority record
                  sample_legacy_table "1FAKE000000000001" "autodev" "listing_id"
                  eq_refl Hv eq_refl Hs listing_id_sample_column eq_refl) as [_ Hraise].
    destruct Hraise as (e & bad & -> & _); [|reflexivity].
    intros stored Hsel. rewrite legacy_row_selected in Hsel. injection Hsel as <-.
    vm_compute. discriminate.
Defined.

(** *** The identity of a produced record *)

Section Identity.

Variable UNIFIED_COLUMNS : list string.
Variable json_dumps : bool -> pyval -> string.
Variable listing : gmap string pyval.
Variable fetched_at : string.
Variable r : gmap string pyval.

Lemma autodev_identity (vehicle_d : gmap string pyval) :
  py_or (dict_get listing "vehicle") (PDict ∅) = PDict vehicle_d ->
  normalize_autodev_listing UNIFIED_COLUMNS json_dumps listing fetched_at = Ok (Some r) ->
  r !! "vin" = Some (dict_get vehicle_d "vin")
  /\ truthy (dict_get vehicle_d "vin") = true
  /\ r !! "source" = Some (PStr "autodev")
  /\ r !! "data_source" = Some (PStr "autodev")
  /\ r !! "data_fetched_at" = Some (PStr fetched_at)
  /\ r !! "raw_json" = Some (PStr (json_dumps false (PDict listing))).
Proof.
  intros Hvehicle H. unfold normalize_autodev_listing in H. rewrite Hvehicle in H.
  cbn [as_dict] in H. res_inv H. subst r.
  match goal with
  | E : negb (truthy _) = false |- _ => apply negb_false_iff in E; rename E into Hvin
  end.
  split; [apply autodev_backfill_keep; skip_media; lookup_fields; reflexivity|].
  split; [exact Hvin|].
  repeat split; apply autodev_backfill_keep; skip_media; lookup_fields; reflexivity.
Qed.

Lemma marketcheck_identity :
  normalize_marketcheck_listing UNIFIED_COLUMNS json_dumps listing fetched_at = Ok (Some r) ->
  r !! "vin" = Some (dict_get listing "vin")
  /\ truthy (dict_get listing "vin") = true
  /\ r !! "source" = Some (PStr "marketcheck")
  /\ r !! "data_source"
     = Some (py_or (dict_get listing "data_source") (PStr "marketcheck"))
  /\ r !! "data_fetched_at" = Some (PStr fetched_at)
  /\ r !! "raw_json" = Some (PStr (json_dumps false (PDict listing))).
Proof.
  intros H. unfold normalize_marketcheck_listing in H. res_inv H. subst r.
  match goal with
  | E : negb (truthy _) = false |- _ => apply negb_false_iff in E; rename E into Hvin
  end.
  split; [apply marketcheck_backfill_keep; do 2 lookup_fields; reflexivity|].
  split; [exact Hvin|].
  repeat split; apply marketcheck_backfill_keep; do 2 lookup_fields; reflexivity.
Qed.

End Identity.

(** X7: every record a normaliser produces carries a usable identity.  Its
    [vin] is the listing's, and truthy; its [source] is the normaliser's own
    name, whatever the payload holds; [data_fetched_at] and [raw_json] are
    the time stamp and the serialised listing.  [data_source] is "autodev"
    for Auto.dev, and for Marketcheck the listing's own [data_source] when
    it has one, "marketcheck" otherwise. *)
Theorem produced_record_identity
    (UNIFIED_COLUMNS : list string) (json_dumps : bool -> pyval -> string)
    (autodev marketcheck : gmap string pyval) (fetched_at : string)
    (vehicle_d ra rm : gmap string pyval) :
  py_or (dict_get autodev "vehicle") (PDict ∅) = PDict vehicle_d ->
  normalize_autodev_listing UNIFIED_COLUMNS json_dumps autodev fetched_at = Ok (Some ra) ->
  normalize_marketcheck_listing UNIFIED_COLUMNS json_dumps marketcheck fetched_at = Ok (Some rm) ->
  (ra !! "vin" = Some (dict_get vehicle_d "vin")
   /\ truthy (dict_get vehicle_d "vin") = true
   /\ ra !! "source" = Some (PStr "autodev")
   /\ ra !! "data_source" = Some (PStr "autodev")
   /\ ra !! "data_fetched_at" = Some (PStr fetched_at)
   /\ ra !! "raw_json" = Some (PStr (json_dumps false (PDict autodev))))
  /\ (rm !! "vin" = Some (dict_get marketcheck "vin")
      /\ truthy (dict_get marketcheck "vin") = true
      /\ rm !! "source" = Some (PStr "marketcheck")
      /\ rm !! "data_source"
         = Some (py_or (dict_get marketcheck "data_source") (PStr "marketcheck"))
      /\ rm !! "data_fetched_at" = Some (PStr fetched_at)
      /\ rm !! "raw_json" = Some (PStr (json_dumps false (PDict marketcheck)))).
Proof.
  intros Hvehicle Ha Hm. split.
  - exact (autodev_identity UNIFIED_COLUMNS json_dumps autodev fetched_at ra
             vehicle_d Hvehicle Ha).
  - exact (marketcheck_identity UNIFIED_COLUMNS json_dumps marketcheck fetched_at rm Hm).
Qed.

Lemma produced_record_identity_witness :
  let ra :=
    normalize_autodev_listing sample_columns sample_dumps
      sample_used_listing sample_fetched_at in
  let rm :=
    normalize_marketcheck_listing sample_columns sample_dumps
      sample_marketcheck_listing sample_fetched_at in
  (produced ra = true /\ produced rm = true)
  /\ (record_of ra !! "vin" = Some sample_vin
      /\ record_of ra !! "source" = Some (PStr "autodev"))
  /\ (record_of rm !! "vin" = Some sample_vin
      /\ record_of rm !! "source" = Some (PStr "marketcheck")
      /\ record_of rm !! "data_source" = Some (PStr "marketcheck")).
Proof.
  intros ra rm.
  assert (Hpa : produced ra = true) by (vm_compute; reflexivity).
  assert (Hpm : produced rm = true) by (vm_compute; reflexivity).
  split; [by split|].
  pose proof (produced_record_identity sample_columns sample_dumps
                sample_used_listing sample_marketcheck_listing sample_fetched_at
                {[ "vin" := sample_vin ]} (record_of ra) (record_of rm)
                eq_refl (produced_record _ Hpa) (produced_record _ Hpm))
    as [(Hvin & _ & Hsrc & _) (Hvin' & _ & Hsrc' & Hdata & _)].
  split; [by split|]. split; [exact Hvin'|]. split; [exact Hsrc'|exact Hdata].
Defined.

(** *** Listings of the expected shape *)

Lemma object_or_falsy_py_or (v : pyval) :
  object_or_falsy v = true -> exists d, py_or v (PDict ∅) = PDict d.
Proof.
  unfold py_or. destruct v; cbn [object_or_falsy]; intros H;
    try (apply negb_true_iff in H; rewrite H; by eexists).
  destruct (truthy _); by eexists.
Qed.

Lemma array_or_falsy_py_or (v : pyval) :
  array_or_falsy v = true -> exists l, py_or v (PList []) = PList l.
Proof.
  unfold py_or. destruct v; cbn [array_or_falsy]; intros H;
    try (apply negb_true_iff in H; rewrite H; by eexists).
  destruct (truthy _); by eexists.
Qed.

Lemma falsy_dict_empty (d : gmap string pyval) : truthy (PDict d) = false -> d = ∅.
Proof.
  cbn [truthy]. intros H%negb_false_iff%bool_decide_eq_true.
  by apply map_size_empty_iff.
Qed.

Lemma py_or_dict_inv (v : pyval) (d : gmap string pyval) :
  py_or v (PDict ∅) = PDict d -> v = PDict d \/ (truthy v = false /\ d = ∅).
Proof.
  unfold py_or. destruct (truthy v) eqn:Ht; intros H; [by left|].
  right. split; [reflexivity|congruence].
Qed.

Lemma py_or_lazy_get_dict (a : pyval) (d : gmap string pyval) k :
  py_or_lazy a (get (PDict d) k) = Ok (py_or a (dict_get d k)).
Proof. unfold py_or_lazy, py_or. by destruct (truthy a). Qed.

Lemma py_or_lazy_ok (a b : pyval) : py_or_lazy a (Ok b) = Ok (py_or a b).
Proof. unfold py_or_lazy, py_or. by destruct (truthy a). Qed.

(** The subscripts and lengths the normalisers take of an array. *)
Lemma second_item_or_get (l : list pyval) (d : gmap string pyval) k :
  (n ← py_len (PList l); if 1 <? n then py_item (PList l) 1 else get (PDict d) k)
  = Ok (default (dict_get d k) (l !! 1%nat)).
Proof.
  destruct l as [|x [|y l]]; [reflexivity..|].
  cbn [py_len length mbind res_bind].
  rewrite (proj2 (Z.ltb_lt 1 _)) by lia. reflexivity.
Qed.

Lemma first_item_or_get (l : list pyval) (d : gmap string pyval) k :
  (if truthy (PList l) then py_item (PList l) 0 else get (PDict d) k)
  = Ok (default (dict_get d k) (l !! 0%nat)).
Proof. by destruct l. Qed.

Lemma first_item_or_none (l : list pyval) :
  (if truthy (PList l) then py_item (PList l) 0 else mret PNone)
  = Ok (default PNone (l !! 0%nat)).
Proof. by destruct l. Qed.

Lemma length_or_none (l : list pyval) :
  (if truthy (PList l) then PInt <$> py_len (PList l) else mret PNone)
  = Ok (if truthy (PList l) then PInt (Z.of_nat (length l)) else PNone).
Proof. by destruct l. Qed.

Lemma length_or_else (l : list pyval) (v : pyval) :
  (if truthy (PList l) then PInt <$> py_len (PList l) else mret v)
  = Ok (if truthy (PList l) then PInt (Z.of_nat (length l)) else v).
Proof. by destruct l. Qed.

Section WellFormed.

Variable UNIFIED_COLUMNS : list string.
Variable json_dumps : bool -> pyval -> string.
Variable fetched_at : string.

Lemma autodev_well_formed_parts (listing : gmap string pyval) :
  autodev_well_formed listing = true ->
  exists vehicle_d retail_d details_d location photos,
    py_or (dict_get listing "vehicle") (PDict ∅) = PDict vehicle_d
    /\ py_or (dict_get listing "retailListing") (PDict ∅) = PDict retail_d
    /\ py_or (dict_get retail_d "dealerDetails") (PDict ∅) = PDict details_d
    /\ py_or (dict_get listing "location") (PList []) = PList location
    /\ py_or (dict_get retail_d "photos") (PList []) = PList photos
    /\ truthy (dict_get vehicle_d "vin") = truthy (autodev_vin listing).
Proof.
  unfold autodev_well_formed, autodev_vin.
  intros [[Hv Hl]%andb_prop Hr]%andb_prop.
  destruct (object_or_falsy_py_or _ Hv) as [vehicle_d Hvehicle].
  destruct (array_or_falsy_py_or _ Hl) as [location Hlocation].
  assert (Hvin : truthy (dict_get vehicle_d "vin")
                 = truthy match dict_get listing "vehicle" with
                          | PDict vehicle => dict_get vehicle "vin"
                          | _ => PNone
                          end).
  { destruct (py_or_dict_inv _ _ Hvehicle) as [->|[Hfalsy ->]]; [reflexivity|].
    rewrite dict_get_empty.
    destruct (dict_get listing "vehicle") as [| | | | | |d]; try reflexivity.
    by rewrite (falsy_dict_empty d Hfalsy), dict_get_empty. }
  destruct (dict_get listing "retailListing") as [| | | | | |retail] eqn:Hretail.
  7: { apply andb_prop in Hr as [Hd Hp].
       destruct (truthy (PDict retail)) eqn:Ht.
       - destruct (object_or_falsy_py_or _ Hd) as [details_d Hdetails].
         destruct (array_or_falsy_py_or _ Hp) as [photos Hphotos].
         exists vehicle_d, retail, details_d, location, photos.
         unfold py_or at 2. by rewrite Ht.
       - exists vehicle_d, ∅, ∅, location, [].
         unfold py_or at 2. rewrite Ht, !dict_get_empty. done. }
  all: apply negb_true_iff in Hr.
  all: exists vehicle_d, ∅, ∅, location, [].
  all: unfold py_or at 2; rewrite Hr, !dict_get_empty; done.
Qed.

Lemma autodev_well_formed_returns (listing : gmap string pyval) :
  autodev_well_formed listing = true ->
  raises (normalize_autodev_listing UNIFIED_COLUMNS json_dumps listing fetched_at) = false
  /\ produced (normalize_autodev_listing UNIFIED_COLUMNS json_dumps listing fetched_at)
     = truthy (autodev_vin listing).
Proof.
  intros (vehicle_d & retail_d & details_d & location & photos
          & Hv & Hr & Hd & Hl & Hp & Hvin)%autodev_well_formed_parts.
  rewrite <- Hvin. destruct (truthy (dict_get vehicle_d "vin")) eqn:Htruthy.
  2: { by rewrite (autodev_skips_falsy_vin UNIFIED_COLUMNS json_dumps listing fetched_at
                     vehicle_d retail_d Hv Hr Htruthy). }
  unfold normalize_autodev_listing. cbv zeta.
  rewrite Hv, Hr. cbn [as_dict]. rewrite !bind_ok. cbv beta.
  rewrite Hd, Hl, Hp, Htruthy. cbn [negb].
  rewrite !py_or_lazy_get_dict.
  rewrite second_item_or_get, first_item_or_get, first_item_or_none, length_or_none.
  rewrite !py_or_lazy_ok.
  repeat (rewrite bind_ok; cbv beta).
  split; reflexivity.
Qed.

Lemma marketcheck_well_formed_parts (listing : gmap string pyval) :
  marketcheck_well_formed listing = true ->
  exists build_d dealer_d media_d photo_links,
    py_or (dict_get listing "build") (PDict ∅) = PDict build_d
    /\ py_or (dict_get listing "dealer") (PDict ∅) = PDict dealer_d
    /\ py_or (dict_get listing "media") (PDict ∅) = PDict media_d
    /\ py_or (dict_get media_d "photo_links") (PList []) = PList photo_links.
Proof.
  unfold marketcheck_well_formed.
  intros [[Hb Hd]%andb_prop Hm]%andb_prop.
  destruct (object_or_falsy_py_or _ Hb) as [build_d Hbuild].
  destruct (object_or_falsy_py_or _ Hd) as [dealer_d Hdealer].
  exists build_d, dealer_d.
  destruct (dict_get listing "media") as [| | | | | |media] eqn:Hmedia.
  7: { destruct (truthy (PDict media)) eqn:Ht.
       - destruct (array_or_falsy_py_or _ Hm) as [photo_links Hphotos].
         exists media, photo_links. unfold py_or at 3. by rewrite Ht.
       - exists ∅, []. unfold py_or at 3. by rewrite Ht, !dict_get_empty. }
  all: apply negb_true_iff in Hm.
  all: exists ∅, [].
  all: unfold py_or at 3; rewrite Hm, !dict_get_empty; done.
Qed.

Lemma marketcheck_well_formed_returns (listing : gmap string pyval) :
  marketcheck_well_formed listing = true ->
  raises (normalize_marketcheck_listing UNIFIED_COLUMNS json_dumps listing fetched_at) = false
  /\ produced (normalize_marketcheck_listing UNIFIED_COLUMNS json_dumps listing fetched_at)
     = truthy (dict_get listing "vin").
Proof.
  intros (build_d & dealer_d & media_d & photo_links
          & Hb & Hd & Hm & Hp)%marketcheck_well_formed_parts.
  destruct (truthy (dict_get listing "vin")) eqn:Htruthy.
  2: { by rewrite (marketcheck_skips_falsy_vin UNIFIED_COLUMNS json_dumps listing
                     fetched_at Htruthy). }
  unfold normalize_marketcheck_listing. cbv zeta.
  rewrite Htruthy. cbn [negb].
  rewrite Hb, Hd, Hm. cbn [as_dict]. rewrite !bind_ok. cbv beta.
  rewrite Hp, first_item_or_none, length_or_else.
  repeat (rewrite bind_ok; cbv beta).
  split; reflexivity.
Qed.

End WellFormed.

(** X8: a listing of the expected shape never makes a normaliser raise.
    When the sub-objects the normaliser reads are JSON objects and the
    lists it reads are JSON arrays (each where it is present and not
    falsy), the call returns: a record when the listing has a truthy VIN,
    [None] when it has not. *)
Theorem well_formed_listing_never_raises
    (UNIFIED_COLUMNS : list string) (json_dumps : bool -> pyval -> string)
    (autodev marketcheck : gmap string pyval) (fetched_at : string) :
  autodev_well_formed autodev = true ->
  marketcheck_well_formed marketcheck = true ->
  (raises (normalize_autodev_listing UNIFIED_COLUMNS json_dumps autodev fetched_at) = false
   /\ produced (normalize_autodev_listing UNIFIED_COLUMNS json_dumps autodev fetched_at)
      = truthy (autodev_vin autodev))
  /\ (raises (normalize_marketcheck_listing UNIFIED_COLUMNS json_dumps marketcheck fetched_at)
      = false
      /\ produced (normalize_marketcheck_listing UNIFIED_COLUMNS json_dumps marketcheck fetched_at)
         = truthy (dict_get marketcheck "vin")).
Proof.
  intros Ha Hm. split.
  - by apply autodev_well_formed_returns.
  - by apply marketcheck_well_formed_returns.
Qed.

Lemma well_formed_listing_never_raises_witness :
  (raises (normalize_autodev_listing sample_columns sample_dumps
             sample_location_listing sample_fetched_at) = false
   /\ produced (normalize_autodev_listing sample_columns sample_dumps
                  sample_location_listing sample_fetched_at)
      = truthy (autodev_vin sample_location_listing))
  /\ (raises (normalize_marketcheck_listing sample_columns sample_dumps
                {[ "media" := PDict {[ "photo_links" := PList [PStr "a.jpg"] ]} ]}
                sample_fetched_at) = false
      /\ produced (normalize_marketcheck_listing sample_columns sample_dumps
                     {[ "media" := PDict {[ "photo_links" := PList [PStr "a.jpg"] ]} ]}
                     sample_fetched_at)
         = truthy (dict_get
                     ({[ "media" := PDict {[ "photo_links" := PList [PStr "a.jpg"] ]} ]}
                        : gmap string pyval) "vin")).
Proof.
  apply well_formed_listing_never_raises; reflexivity.
Defined.

(** *** Coordinates and photos *)

Section AutodevFields.

Variable UNIFIED_COLUMNS : list string.
Variable json_dumps : bool -> pyval -> string.
Variable listing : gmap string pyval.
Variable fetched_at : string.
Variables retail_d details_d r : gmap string pyval.
Hypothesis retail_object :
  py_or (dict_get listing "retailListing") (PDict ∅) = PDict retail_d.
Hypothesis details_object :
  py_or (dict_get retail_d "dealerDetails") (PDict ∅) = PDict details_d.
Hypothesis normalized :
  normalize_autodev_listing UNIFIED_COLUMNS json_dumps listing fetched_at = Ok (Some r).

(** The coordinates, for a [location] that is an array (or falsy): each
    element where there is one, the dealer's own coordinate otherwise. *)
Lemma autodev_coordinates (location : list pyval) :
  py_or (dict_get listing "location") (PList []) = PList location ->
  r !! "dealer_longitude"
  = Some (of_float (to_float (default (dict_get details_d "longitude") (location !! 0%nat))))
  /\ r !! "dealer_latitude"
     = Some (of_float (to_float (default (dict_get details_d "latitude") (location !! 1%nat)))).
Proof.
  intros Hl. pose proof normalized as H.
  unfold normalize_autodev_listing in H. cbv zeta in H.
  rewrite retail_object in H. cbn [as_dict] in H. rewrite bind_ok in H. cbv beta in H.
  rewrite details_object, Hl in H.
  rewrite second_item_or_get, first_item_or_get in H.
  res_inv H. subst r.
  repeat match goal with E : Ok _ = Ok _ |- _ => injection E as <- end.
  split; apply autodev_backfill_keep; skip_media; lookup_fields; reflexivity.
Qed.

(** The photo fields, for [photos] that are an array (or falsy). *)
Lemma autodev_photos (photos : list pyval) :
  py_or (dict_get retail_d "photos") (PList []) = PList photos ->
  r !! "primary_image_url"
  = Some (py_or (dict_get retail_d "primaryImage") (default PNone (photos !! 0%nat)))
  /\ r !! "photo_count"
     = Some (py_or (of_int (to_int (dict_get retail_d "photoCount")))
               (if truthy (PList photos) then PInt (Z.of_nat (length photos)) else PNone))
  /\ (truthy (PList photos) = true ->
      r !! "media_json"
      = Some (PStr (json_dumps false (PDict {[ "photos" := PList photos ]})))).
Proof.
  intros Hp. pose proof normalized as H.
  unfold normalize_autodev_listing in H. cbv zeta in H.
  rewrite retail_object in H. cbn [as_dict] in H. rewrite bind_ok in H. cbv beta in H.
  rewrite Hp in H.
  rewrite first_item_or_none, length_or_none, !py_or_lazy_ok in H.
  res_inv H. subst r.
  repeat match goal with E : Ok _ = Ok _ |- _ => injection E as <- end.
  split; [apply autodev_backfill_keep; skip_media; lookup_fields; reflexivity|].
  split; [apply autodev_backfill_keep; skip_media; lookup_fields; reflexivity|].
  intros Htruthy. apply autodev_backfill_keep. rewrite Htruthy.
  apply lookup_insert_eq.
Qed.

End AutodevFields.

(** X9: the coordinates of an Auto.dev record when [location] is short.
    With no [location] (or a falsy one) both coordinates are the dealer's
    own, from [dealerDetails]; with a [location] of one element that element
    is the longitude and the latitude is still the dealer's own. *)
Theorem autodev_short_location_falls_back
    (UNIFIED_COLUMNS : list string) (json_dumps : bool -> pyval -> string)
    (listing : gmap string pyval) (fetched_at : string)
    (retail_d details_d r : gmap string pyval) (x : pyval) :
  py_or (dict_get listing "retailListing") (PDict ∅) = PDict retail_d ->
  py_or (dict_get retail_d "dealerDetails") (PDict ∅) = PDict details_d ->
  normalize_autodev_listing UNIFIED_COLUMNS json_dumps listing fetched_at = Ok (Some r) ->
  (truthy (dict_get listing "location") = false ->
   r !! "dealer_longitude" = Some (of_float (to_float (dict_get details_d "longitude")))
   /\ r !! "dealer_latitude" = Some (of_float (to_float (dict_get details_d "latitude"))))
  /\ (dict_get listing "location" = PList [x] ->
      r !! "dealer_longitude" = Some (of_float (to_float x))
      /\ r !! "dealer_latitude" = Some (of_float (to_float (dict_get details_d "latitude")))).
Proof.
  intros Hr Hd H. split.
  - intros Hfalsy.
    apply (autodev_coordinates UNIFIED_COLUMNS json_dumps listing fetched_at
             retail_d details_d r Hr Hd H []).
    unfold py_or. by rewrite Hfalsy.
  - intros Hone.
    apply (autodev_coordinates UNIFIED_COLUMNS json_dumps listing fetched_at
             retail_d details_d r Hr Hd H [x]).
    by rewrite Hone.
Qed.

Lemma autodev_short_location_falls_back_witness :
  let listing : gmap string pyval :=
    {[ "vehicle" := PDict {[ "vin" := sample_vin ]};
       "location" := PList [PFloat sample_longitude];
       "retailListing" :=
         PDict {[ "dealerDetails" := PDict {[ "latitude" := PFloat sample_latitude ]} ]} ]} in
  let result :=
    normalize_autodev_listing sample_columns sample_dumps listing sample_fetched_at in
  produced result = true
  /\ record_of result !! "dealer_longitude" = Some (PFloat sample_longitude)
  /\ record_of result !! "dealer_latitude" = Some (PFloat sample_latitude).
Proof.
  intros listing result.
  assert (Hp : produced result = true) by (vm_compute; reflexivity).
  split; [exact Hp|].
  apply (autodev_short_location_falls_back sample_columns sample_dumps listing
           sample_fetched_at
           {[ "dealerDetails" := PDict {[ "latitude" := PFloat sample_latitude ]} ]}
           {[ "latitude" := PFloat sample_latitude ]} (record_of result)
           (PFloat sample_longitude) eq_refl eq_refl (produced_record _ Hp)).
  reflexivity.
Defined.

(** X10: the photo fields of an Auto.dev record whose [photos] are an
    array.  [primary_image_url] is the listing's [primaryImage], or the
    first photo when that is missing; [photo_count] is the listing's
    [photoCount], or the number of photos when that is missing, unparsable
    or zero; [media_json] holds the photos.  With no photos, a [photoCount]
    of zero leaves [photo_count] unset. *)
Theorem autodev_photo_fields
    (UNIFIED_COLUMNS : list string) (json_dumps : bool -> pyval -> string)
    (listing : gmap string pyval) (fetched_at : string)
    (retail_d r : gmap string pyval) :
  py_or (dict_get listing "retailListing") (PDict ∅) = PDict retail_d ->
  normalize_autodev_listing UNIFIED_COLUMNS json_dumps listing fetched_at = Ok (Some r) ->
  (forall x rest,
     dict_get retail_d "photos" = PList (x :: rest) ->
     r !! "primary_image_url" = Some (py_or (dict_get retail_d "primaryImage") x)
     /\ r !! "photo_count"
        = Some (py_or (of_int (to_int (dict_get retail_d "photoCount")))
                  (PInt (Z.of_nat (S (length rest)))))
     /\ r !! "media_json"
        = Some (PStr (json_dumps false (PDict {[ "photos" := PList (x :: rest) ]}))))
  /\ (truthy (dict_get retail_d "photos") = false ->
      r !! "primary_image_url" = Some (py_or (dict_get retail_d "primaryImage") PNone)
      /\ (dict_get retail_d "photoCount" = PInt 0 -> r !! "photo_count" = Some PNone)).
Proof.
  intros Hr H. split.
  - intros x rest Hphotos.
    destruct (autodev_photos UNIFIED_COLUMNS json_dumps listing fetched_at retail_d r Hr H
                (x :: rest)) as (Himage & Hcount & Hmedia); [by rewrite Hphotos|].
    split; [exact Himage|]. split; [exact Hcount|]. by apply Hmedia.
  - intros Hfalsy.
    destruct (autodev_photos UNIFIED_COLUMNS json_dumps listing fetched_at retail_d r Hr H [])
      as (Himage & Hcount & _); [unfold py_or; by rewrite Hfalsy|].
    split; [exact Himage|].
    intros Hzero. rewrite Hcount, Hzero. reflexivity.
Qed.

Lemma autodev_photo_fields_witness :
  let retail : gmap string pyval :=
    {[ "photos" := PList [PStr "a.jpg"; PStr "b.jpg"]; "photoCount" := PInt 0 ]} in
  let listing : gmap string pyval :=
    {[ "vehicle" := PDict {[ "vin" := sample_vin ]}; "retailListing" := PDict retail ]} in
  let result :=
    normalize_autodev_listing sample_columns sample_dumps listing sample_fetched_at in
  produced result = true
  /\ record_of result !! "primary_image_url" = Some (PStr "a.jpg")
  /\ record_of result !! "photo_count" = Some (PInt 2)
  /\ record_of result !! "media_json" = Some (PStr "{...}").
Proof.
  intros retail listing result.
  assert (Hp : produced result = true) by (vm_compute; reflexivity).
  split; [exact Hp|].
  destruct (autodev_photo_fields sample_columns sample_dumps listing sample_fetched_at
              retail (record_of result) eq_refl (produced_record _ Hp)) as [Hphotos _].
  exact (Hphotos (PStr "a.jpg") [PStr "b.jpg"] eq_refl).
Defined.

(** The photo fields of a Marketcheck record, for [photo_links] that are an
    array (or falsy). *)
Lemma marketcheck_photos
    (UNIFIED_COLUMNS : list string) (json_dumps : bool -> pyval -> string)
    (listing : gmap string pyval) (fetched_at : string)
    (media_d r : gmap string pyval) (photo_links : list pyval) :
  py_or (dict_get listing "media") (PDict ∅) = PDict media_d ->
  py_or (dict_get media_d "photo_links") (PList []) = PList photo_links ->
  normalize_marketcheck_listing UNIFIED_COLUMNS json_dumps listing fetched_at = Ok (Some r) ->
  r !! "primary_image_url" = Some (default PNone (photo_links !! 0%nat))
  /\ r !! "photo_count"
     = Some (if truthy (PList photo_links) then PInt (Z.of_nat (length photo_links))
             else of_int (to_int (dict_get listing "photo_count"))).
Proof.
  intros Hm Hp H. unfold normalize_marketcheck_listing in H. cbv zeta in H.
  rewrite Hm in H. cbn [as_dict] in H.
  destruct (negb (truthy (dict_get listing "vin"))); [discriminate H|].
  rewrite bind_ok in H. cbv beta in H.
  rewrite Hp, first_item_or_none, length_or_else in H.
  res_inv H. subst r.
  repeat match goal with E : Ok _ = Ok _ |- _ => injection E as <- end.
  split; apply marketcheck_backfill_keep; do 2 lookup_fields; reflexivity.
Qed.

(** X11: the photo fields of a Marketcheck record.  When the media hold
    photo links, [primary_image_url] is the first link and [photo_count]
    the number of links, whatever [photo_count] the listing states; with no
    links [primary_image_url] is unset and [photo_count] is the listing's
    own, through [to_int]. *)
Theorem marketcheck_photo_fields
    (UNIFIED_COLUMNS : list string) (json_dumps : bool -> pyval -> string)
    (listing : gmap string pyval) (fetched_at : string)
    (media_d r : gmap string pyval) :
  py_or (dict_get listing "media") (PDict ∅) = PDict media_d ->
  normalize_marketcheck_listing UNIFIED_COLUMNS json_dumps listing fetched_at = Ok (Some r) ->
  (forall x rest,
     dict_get media_d "photo_links" = PList (x :: rest) ->
     r !! "primary_image_url" = Some x
     /\ r !! "photo_count" = Some (PInt (Z.of_nat (S (length rest)))))
  /\ (truthy (dict_get media_d "photo_links") = false ->
      r !! "primary_image_url" = Some PNone
      /\ r !! "photo_count" = Some (of_int (to_int (dict_get listing "photo_count")))).
Proof.
  intros Hm H. split.
  - intros x rest Hlinks.
    apply (marketcheck_photos UNIFIED_COLUMNS json_dumps listing fetched_at media_d r
             (x :: rest) Hm); [by rewrite Hlinks|exact H].
  - intros Hfalsy.
    apply (marketcheck_photos UNIFIED_COLUMNS json_dumps listing fetched_at media_d r
             [] Hm); [unfold py_or; by rewrite Hfalsy|exact H].
Qed.

Lemma marketcheck_photo_fields_witness :
  let media : gmap string pyval :=
    {[ "photo_links" := PList [PStr "a.jpg"; PStr "b.jpg"] ]} in
  let listing : gmap string pyval :=
    {[ "vin" := sample_vin; "photo_count" := PInt 9; "media" := PDict media ]} in
  let result :=
    normalize_marketcheck_listing sample_columns sample_dumps listing sample_fetched_at in
  produced result = true
  /\ record_of result !! "primary_image_url" = Some (PStr "a.jpg")
  /\ record_of result !! "photo_count" = Some (PInt 2).
Proof.
  intros media listing result.
  assert (Hp : produced result = true) by (vm_compute; reflexivity).
  split; [exact Hp|].
  destruct (marketcheck_photo_fields sample_columns sample_dumps listing sample_fetched_at
              media (record_of result) eq_refl (produced_record _ Hp)) as [Hlinks _].
  exact (Hlinks (PStr "a.jpg") [PStr "b.jpg"] eq_refl).
Defined.

(** *** The backfill and the stored row *)

Section BackfillFacts.

Variable UNIFIED_COLUMNS : list string.

Lemma row_of_ext (r r' : gmap string pyval) :
  (forall c, c ∈ UNIFIED_COLUMNS -> r !! c = r' !! c) ->
  row_of UNIFIED_COLUMNS r = row_of UNIFIED_COLUMNS r'.
Proof.
  intros H. unfold row_of. f_equal. apply Forall_fmap_ext, Forall_forall.
  intros c Hc. unfold dict_get. by rewrite (H c Hc).
Qed.

Lemma autodev_backfill_columns (record : gmap string pyval) :
  (forall c, c ∈ UNIFIED_COLUMNS -> is_Some (record !! c)) ->
  (forall c, c ∈ UNIFIED_COLUMNS -> autodev_backfill record !! c = record !! c)
  /\ row_of UNIFIED_COLUMNS (autodev_backfill record) = row_of UNIFIED_COLUMNS record.
Proof.
  intros Hall.
  assert (Hsame : forall c, c ∈ UNIFIED_COLUMNS ->
                    autodev_backfill record !! c = record !! c).
  { intros c [x Hx]%Hall. rewrite Hx. by apply autodev_backfill_keep. }
  split; [exact Hsame|]. by apply row_of_ext.
Qed.

Lemma marketcheck_backfill_columns (record : gmap string pyval) :
  (forall c, c ∈ UNIFIED_COLUMNS -> is_Some (record !! c)) ->
  (forall c, c ∈ UNIFIED_COLUMNS -> marketcheck_backfill record !! c = record !! c)
  /\ row_of UNIFIED_COLUMNS (marketcheck_backfill record) = row_of UNIFIED_COLUMNS record.
Proof.
  intros Hall.
  assert (Hsame : forall c, c ∈ UNIFIED_COLUMNS ->
                    marketcheck_backfill record !! c = record !! c).
  { intros c [x Hx]%Hall. rewrite Hx. by apply marketcheck_backfill_keep. }
  split; [exact Hsame|]. by apply row_of_ext.
Qed.

Lemma bind_values_ext (r r' : gmap string pyval) (cols : list string) :
  (forall c, c ∈ cols -> r !! c = r' !! c) ->
  mapM (fun column => bind_param (dict_get r column)) cols
  = mapM (fun column => bind_param (dict_get r' column)) cols.
Proof.
  induction cols as [|c cols IH]; intros H; [reflexivity|].
  assert (Hc : dict_get r c = dict_get r' c)
    by (unfold dict_get; rewrite (H c); [reflexivity|by left]).
  cbn [mapM]. rewrite Hc, IH; [reflexivity|].
  intros c' Hc'. apply H. by right.
Qed.

(** [upsert] reads a record through its [vin], its [source] and the
    unified columns, and through nothing else. *)
Lemma upsert_ext (PRIORITY : gmap string Z) (r r' : gmap string pyval)
    (db : gmap sqlval (gmap string sqlval)) :
  dict_get r "vin" = dict_get r' "vin" ->
  dict_get r "source" = dict_get r' "source" ->
  (forall c, c ∈ UNIFIED_COLUMNS -> r !! c = r' !! c) ->
  upsert UNIFIED_COLUMNS PRIORITY r db = upsert UNIFIED_COLUMNS PRIORITY r' db.
Proof.
  intros Hvin Hsource Hcols. unfold upsert.
  by rewrite Hvin, Hsource, (bind_values_ext r r' UNIFIED_COLUMNS Hcols).
Qed.

(** A step that keeps every key a record holds cannot be seen by [upsert]
    when the record holds its identity and every unified column. *)
Lemma kept_record_upsert (PRIORITY : gmap string Z) (fill : gmap string pyval -> gmap string pyval)
    (r : gmap string pyval) (db : gmap sqlval (gmap string sqlval)) :
  (forall k x, r !! k = Some x -> fill r !! k = Some x) ->
  is_Some (r !! "vin") -> is_Some (r !! "source") ->
  (forall c, c ∈ UNIFIED_COLUMNS -> is_Some (r !! c)) ->
  (forall c, c ∈ UNIFIED_COLUMNS -> fill r !! c = r !! c)
  /\ row_of UNIFIED_COLUMNS (fill r) = row_of UNIFIED_COLUMNS r
  /\ upsert UNIFIED_COLUMNS PRIORITY (fill r) db = upsert UNIFIED_COLUMNS PRIORITY r db.
Proof.
  intros Hkeep [vin Hvin] [source Hsource] Hall.
  assert (Hsame : forall c, c ∈ UNIFIED_COLUMNS -> fill r !! c = r !! c).
  { intros c [x Hx]%Hall. rewrite Hx. by apply Hkeep. }
  split; [exact Hsame|]. split; [by apply row_of_ext|].
  apply upsert_ext; [| |exact Hsame]; unfold dict_get.
  - by rewrite Hvin, (Hkeep _ _ Hvin).
  - by rewrite Hsource, (Hkeep _ _ Hsource).
Qed.

End BackfillFacts.

(** The normalisers in two stages: the record, then its backfill. *)
Ltac stage_step :=
  match goal with
  | |- context [match ?m with Ok _ => _ | Raise _ => _ end] =>
      lazymatch m with
      | match _ with _ => _ end => fail
      | Ok _ => fail
      | Raise _ => fail
      | _ => destruct m; cbv beta iota
      end
  | |- context [match (if ?b then _ else _) with Ok _ => _ | Raise _ => _ end] =>
      destruct b; cbv beta iota
  end.

Lemma normalize_autodev_stages cols dumps listing fetched_at :
  normalize_autodev_listing cols dumps listing fetched_at
  = match autodev_record cols dumps listing fetched_at with
    | Ok r => Ok (autodev_backfill <$> r)
    | Raise e => Raise e
    end.
Proof.
  unfold normalize_autodev_listing, autodev_record.
  unfold mbind, res_bind, mret, res_ret. cbv zeta.
  repeat stage_step.
  all: reflexivity.
Qed.

Lemma normalize_marketcheck_stages cols dumps listing fetched_at :
  normalize_marketcheck_listing cols dumps listing fetched_at
  = match marketcheck_record cols dumps listing fetched_at with
    | Ok r => Ok (marketcheck_backfill <$> r)
    | Raise e => Raise e
    end.
Proof.
  unfold normalize_marketcheck_listing, marketcheck_record.
  unfold mbind, res_bind, mret, res_ret. cbv zeta.
  repeat stage_step.
  all: reflexivity.
Qed.

(** The record a normaliser has built when its backfill begins holds its
    identity and, thanks to [empty_record], every unified column. *)
Lemma autodev_record_columns cols dumps listing fetched_at r :
  autodev_record cols dumps listing fetched_at = Ok (Some r) ->
  is_Some (r !! "vin") /\ is_Some (r !! "source")
  /\ (forall c, c ∈ cols -> is_Some (r !! c)).
Proof.
  intros H. unfold autodev_record in H. res_inv H. subst r.
  assert (Hmedia : forall (b : bool) k (x : pyval) (d : gmap string pyval),
            is_Some (d !! k) -> is_Some ((if b then <["media_json" := x]> d else d) !! k)).
  { intros [] k x d Hd; [|exact Hd].
    destruct (decide ("media_json" = k)) as [<-|Hne].
    - rewrite lookup_insert_eq. by eexists.
    - by rewrite lookup_insert_ne. }
  split; [|split].
  - apply Hmedia. lookup_fields. by eexists.
  - apply Hmedia. lookup_fields. by eexists.
  - intros c Hc. by apply Hmedia, dict_update_present, empty_record_present.
Qed.

Lemma marketcheck_record_columns cols dumps listing fetched_at r :
  marketcheck_record cols dumps listing fetched_at = Ok (Some r) ->
  is_Some (r !! "vin") /\ is_Some (r !! "source")
  /\ (forall c, c ∈ cols -> is_Some (r !! c)).
Proof.
  intros H. unfold marketcheck_record in H. res_inv H. subst r.
  split; [|split].
  - do 2 lookup_fields. by eexists.
  - do 2 lookup_fields. by eexists.
  - intros c Hc. by apply dict_update_present, dict_update_present, empty_record_present.
Qed.

(** X12: the backfill never changes what is stored.  Take the record a
    normaliser has built when its [setdefault] calls begin (line 163 for
    Auto.dev, line 293 for Marketcheck).  The normaliser returns the
    backfill of that record; the record already holds every unified column,
    so the backfill changes none of them; and [upsert] does with the
    returned record exactly what it would do with the record before the
    backfill, whatever the priorities and the table. *)
Theorem backfill_never_changes_the_stored_row
    (UNIFIED_COLUMNS : list string) (json_dumps : bool -> pyval -> string)
    (PRIORITY : gmap string Z)
    (autodev marketcheck : gmap string pyval) (fetched_at : string)
    (ra rm : gmap string pyval) (db : gmap sqlval (gmap string sqlval)) :
  autodev_record UNIFIED_COLUMNS json_dumps autodev fetched_at = Ok (Some ra) ->
  marketcheck_record UNIFIED_COLUMNS json_dumps marketcheck fetched_at = Ok (Some rm) ->
  (normalize_autodev_listing UNIFIED_COLUMNS json_dumps autodev fetched_at
   = Ok (Some (autodev_backfill ra))
   /\ (forall c, c ∈ UNIFIED_COLUMNS ->
         is_Some (ra !! c) /\ autodev_backfill ra !! c = ra !! c)
   /\ row_of UNIFIED_COLUMNS (autodev_backfill ra) = row_of UNIFIED_COLUMNS ra
   /\ upsert UNIFIED_COLUMNS PRIORITY (autodev_backfill ra) db
      = upsert UNIFIED_COLUMNS PRIORITY ra db)
  /\ (normalize_marketcheck_listing UNIFIED_COLUMNS json_dumps marketcheck fetched_at
      = Ok (Some (marketcheck_backfill rm))
      /\ (forall c, c ∈ UNIFIED_COLUMNS ->
            is_Some (rm !! c) /\ marketcheck_backfill rm !! c = rm !! c)
      /\ row_of UNIFIED_COLUMNS (marketcheck_backfill rm) = row_of UNIFIED_COLUMNS rm
      /\ upsert UNIFIED_COLUMNS PRIORITY (marketcheck_backfill rm) db
         = upsert UNIFIED_COLUMNS PRIORITY rm db).
Proof.
  intros Ha Hm. split.
  - destruct (autodev_record_columns _ _ _ _ _ Ha) as (Hvin & Hsource & Hall).
    destruct (kept_record_upsert UNIFIED_COLUMNS PRIORITY autodev_backfill ra db
                (autodev_backfill_keep ra) Hvin Hsource Hall) as (Hsame & Hrow & Hupsert).
    split; [by rewrite normalize_autodev_stages, Ha|].
    split; [|by split].
    intros c Hc. split; [by apply Hall|by apply Hsame].
  - destruct (marketcheck_record_columns _ _ _ _ _ Hm) as (Hvin & Hsource & Hall).
    destruct (kept_record_upsert UNIFIED_COLUMNS PRIORITY marketcheck_backfill rm db
                (marketcheck_backfill_keep rm) Hvin Hsource Hall) as (Hsame & Hrow & Hupsert).
    split; [by rewrite normalize_marketcheck_stages, Hm|].
    split; [|by split].
    intros c Hc. split; [by apply Hall|by apply Hsame].
Qed.

(** A Marketcheck listing whose [build] has a year, and the Auto.dev
    listing with a year: the records before the backfill, over the legacy
    row. *)
Lemma backfill_never_changes_the_stored_row_witness :
  let listing : gmap string pyval :=
    {[ "vin" := sample_vin; "build" := PDict {[ "year" := PInt 2020 ]} ]} in
  let ra :=
    autodev_record sample_columns sample_dumps sample_year_listing sample_fetched_at in
  let rm :=
    marketcheck_record sample_columns sample_dumps listing sample_fetched_at in
  (produced ra = true /\ produced rm = true)
  /\ (normalize_autodev_listing sample_columns sample_dumps sample_year_listing
        sample_fetched_at
      = Ok (Some (autodev_backfill (record_of ra)))
      /\ (forall c, c ∈ sample_columns ->
            is_Some (record_of ra !! c)
            /\ autodev_backfill (record_of ra) !! c = record_of ra !! c)
      /\ row_of sample_columns (autodev_backfill (record_of ra))
         = row_of sample_columns (record_of ra)
      /\ upsert sample_columns sample_priority (autodev_backfill (record_of ra))
           sample_legacy_table
         = upsert sample_columns sample_priority (record_of ra) sample_legacy_table)
  /\ (normalize_marketcheck_listing sample_columns sample_dumps listing sample_fetched_at
      = Ok (Some (marketcheck_backfill (record_of rm)))
      /\ (forall c, c ∈ sample_columns ->
            is_Some (record_of rm !! c)
            /\ marketcheck_backfill (record_of rm) !! c = record_of rm !! c)
      /\ row_of sample_columns (marketcheck_backfill (record_of rm))
         = row_of sample_columns (record_of rm)
      /\ upsert sample_columns sample_priority (marketcheck_backfill (record_of rm))
           sample_legacy_table
         = upsert sample_columns sample_priority (record_of rm) sample_legacy_table).
Proof.
  intros listing ra rm.
  assert (Hpa : produced ra = true) by (vm_compute; reflexivity).
  assert (Hpm : produced rm = true) by (vm_compute; reflexivity).
  split; [by split|].
  exact (backfill_never_changes_the_stored_row sample_columns sample_dumps sample_priority
           sample_year_listing listing sample_fetched_at
           (record_of ra) (record_of rm) sample_legacy_table
           (produced_record _ Hpa) (produced_record _ Hpm)).
Defined.

(** A literal key is one of the listed columns. *)
Ltac listed_column H :=
  repeat (apply elem_of_cons in H as [->|H]; [|]); [..|by apply elem_of_nil in H].

(** X13: the columns a backfill is meant to fill stay unset.  In an
    Auto.dev record every [build_*] column of lines 165-177, and in a
    Marketcheck record every generic column of lines 295-304 ([year],
    [make], [model], ...), is unset whenever it is a unified column,
    whatever the listing holds for its counterpart. *)
Theorem backfilled_columns_stay_unset
    (UNIFIED_COLUMNS : list string) (json_dumps : bool -> pyval -> string)
    (autodev marketcheck : gmap string pyval) (fetched_at : string)
    (ra rm : gmap string pyval) :
  normalize_autodev_listing UNIFIED_COLUMNS json_dumps autodev fetched_at = Ok (Some ra) ->
  normalize_marketcheck_listing UNIFIED_COLUMNS json_dumps marketcheck fetched_at = Ok (Some rm) ->
  (forall c, c ∈ autodev_backfilled -> c ∈ UNIFIED_COLUMNS -> ra !! c = Some PNone)
  /\ (forall c, c ∈ marketcheck_backfilled -> c ∈ UNIFIED_COLUMNS -> rm !! c = Some PNone).
Proof.
  intros Ha Hm. split.
  - unfold normalize_autodev_listing in Ha. res_inv Ha. subst ra.
    intros c Hc Hcol. apply autodev_backfill_keep.
    unfold autodev_backfilled in Hc.
    listed_column Hc; skip_media; lookup_fields;
      rewrite lookup_empty_record; by rewrite decide_True.
  - unfold normalize_marketcheck_listing in Hm. res_inv Hm. subst rm.
    intros c Hc Hcol. apply marketcheck_backfill_keep.
    unfold marketcheck_backfilled in Hc.
    listed_column Hc; do 2 lookup_fields;
      rewrite lookup_empty_record; by rewrite decide_True.
Qed.

Lemma backfilled_columns_stay_unset_witness :
  let listing : gmap string pyval :=
    {[ "vin" := sample_vin; "build" := PDict {[ "year" := PInt 2020 ]} ]} in
  let ra :=
    normalize_autodev_listing sample_columns sample_dumps
      sample_year_listing sample_fetched_at in
  let rm :=
    normalize_marketcheck_listing sample_columns sample_dumps listing sample_fetched_at in
  (produced ra = true /\ produced rm = true)
  /\ record_of rm !! "build_year" = Some (PInt 2020)
  /\ record_of rm !! "year" = Some PNone
  /\ record_of ra !! "build_make" = Some PNone.
Proof.
  intros listing ra rm.
  assert (Hpa : produced ra = true) by (vm_compute; reflexivity).
  assert (Hpm : produced rm = true) by (vm_compute; reflexivity).
  split; [by split|].
  split; [vm_compute; reflexivity|].
  destruct (backfilled_columns_stay_unset sample_columns sample_dumps
              sample_year_listing listing sample_fetched_at
              (record_of ra) (record_of rm)
              (produced_record _ Hpa) (produced_record _ Hpm)) as [Hauto Hmarket].
  split.
  - apply Hmarket; [unfold marketcheck_backfilled|unfold sample_columns]; repeat constructor.
  - apply Hauto; [unfold autodev_backfilled|unfold sample_columns]; repeat constructor.
Defined.

(** *** A normalised record at the writer *)

Lemma dict_get_lookup (d : gmap string pyval) k (v : pyval) :
  d !! k = Some v -> dict_get d k = v.
Proof. unfold dict_get. by intros ->. Qed.

(** X14: the precedence of the two sources, end to end.  Where the
    priority table ranks Marketcheck above Auto.dev, the record
    [normalize_autodev_listing] produces for a VIN never displaces a stored
    Marketcheck row: [upsert] returns [False] and the table is unchanged.
    The record [normalize_marketcheck_listing] produces for a VIN replaces a
    stored Auto.dev row, provided its values can all be stored. *)
Theorem normalised_records_keep_precedence
    (UNIFIED_COLUMNS : list string) (PRIORITY : gmap string Z)
    (json_dumps : bool -> pyval -> string)
    (autodev marketcheck : gmap string pyval) (fetched_at : string)
    (vehicle_d ra rm : gmap string pyval)
    (db : gmap sqlval (gmap string sqlval)) (v : string) (pa pm : Z) :
  "vin" ∈ UNIFIED_COLUMNS ->
  PRIORITY !! "autodev" = Some pa -> PRIORITY !! "marketcheck" = Some pm -> pa < pm ->
  py_or (dict_get autodev "vehicle") (PDict ∅) = PDict vehicle_d ->
  dict_get vehicle_d "vin" = PStr v ->
  dict_get marketcheck "vin" = PStr v ->
  normalize_autodev_listing UNIFIED_COLUMNS json_dumps autodev fetched_at = Ok (Some ra) ->
  normalize_marketcheck_listing UNIFIED_COLUMNS json_dumps marketcheck fetched_at = Ok (Some rm) ->
  (select_source (SText v) db = Some (SText "marketcheck") ->
   upsert UNIFIED_COLUMNS PRIORITY ra db = Ok (false, db))
  /\ (select_source (SText v) db = Some (SText "autodev") ->
      storable_record UNIFIED_COLUMNS rm ->
      upsert UNIFIED_COLUMNS PRIORITY rm db
      = Ok (true, <[SText v := row_of UNIFIED_COLUMNS rm]> db)).
Proof.
  intros Hcol Hpa Hpm Hlt Hvehicle Hvin Hvin' Ha Hm.
  destruct (autodev_identity UNIFIED_COLUMNS json_dumps autodev fetched_at ra
              vehicle_d Hvehicle Ha) as (Hav & Hat & Has & _).
  destruct (marketcheck_identity UNIFIED_COLUMNS json_dumps marketcheck fetched_at rm Hm)
    as (Hmv & Hmt & Hms & _).
  rewrite Hvin in Hav, Hat. rewrite Hvin' in Hmv, Hmt.
  apply dict_get_lookup in Hav, Has, Hmv, Hms.
  split.
  - intros Hsel.
    apply (upsert_keeps_higher_priority UNIFIED_COLUMNS PRIORITY ra db v "autodev"
             Hav (truthy_text_inv v Hat) Has ltac:(discriminate) _ Hsel).
    cbn [stored_priority]. rewrite Hpa, Hpm. exact Hlt.
  - intros Hsel Hstore.
    apply (upsert_replaces UNIFIED_COLUMNS PRIORITY rm db v "marketcheck"
             Hcol Hmv (truthy_text_inv v Hmt) Hms ltac:(discriminate)); [|exact Hstore].
    right. exists (SText "autodev"). split; [exact Hsel|].
    cbn [stored_priority]. rewrite Hpa, Hpm. cbn. lia.
Qed.

Lemma normalised_records_keep_precedence_witness :
  let ra :=
    normalize_autodev_listing sample_columns sample_dumps
      sample_year_listing sample_fetched_at in
  produced ra = true
  /\ upsert sample_columns sample_priority (record_of ra) sample_table
     = Ok (false, sample_table).
Proof.
  intros ra.
  assert (Hpa : produced ra = true) by (vm_compute; reflexivity).
  assert (Hpm : produced (normalize_marketcheck_listing sample_columns sample_dumps
                            sample_marketcheck_listing sample_fetched_at) = true)
    by (vm_compute; reflexivity).
  split; [exact Hpa|].
  destruct (normalised_records_keep_precedence sample_columns sample_priority sample_dumps
              sample_year_listing sample_marketcheck_listing sample_fetched_at
              {[ "vin" := sample_vin; "year" := PInt 2020 ]} (record_of ra) _
              sample_table "1FAKE000000000001" 5 10
              vin_sample_column eq_refl eq_refl eq_refl eq_refl eq_refl eq_refl
              (produced_record _ Hpa) (produced_record _ Hpm)) as [Hkeep _].
  apply Hkeep. vm_compute. reflexivity.
Defined.

(** *** Requests and retries *)

Section RequestFacts.

Variable server : nat -> request -> reply.
Variable sleep : pyfloat -> res unit.
Variable f : fetcher.
Variable rq : request.

Lemma request_loop_returns (fuel : nat) (attempt : Z) (w : world) :
  (Z.to_nat (retries f - attempt) < fuel)%nat ->
  exists r w' n,
    request_loop server sleep fuel f rq attempt w = (Some r, w')
    /\ (1 <= n <= Z.to_nat (retries f - attempt) + 1)%nat
    /\ requested rq n w w'
    /\ (forall status_code json,
          r = Returns (status_code, json) ->
          is_error_status status_code = false
          /\ server (length (sent w') - 1)%nat rq = Response status_code json).
Proof.
  revert attempt w. induction fuel as [|fuel IH]; intros attempt w Hfuel; [lia|].
  cbn [request_loop].
  assert (Hone : requested rq 1 w (send rq w)) by (by repeat split).
  assert (Hlast : forall w0, requested rq 1 w w0 ->
                    server (length (sent w0) - 1) rq = server (length (sent w)) rq).
  { intros w0 (_ & _ & _ & ->). cbn [replicate app length]. f_equal. lia. }
  assert (Hmore : forall x w1 n,
            (1 <= n <= Z.to_nat (retries f - (attempt + 1)) + 1)%nat ->
            attempt + 1 <= retries f ->
            requested rq n (slept x (send rq w)) w1 ->
            (1 <= S n <= Z.to_nat (retries f - attempt) + 1)%nat
            /\ requested rq (S n) w w1).
  { intros x w1 n Hn Hle (Ht & Hc & Hk & Hs). split; [lia|].
    repeat split; [done..|]. rewrite Hs. cbn [slept send sent].
    change (rq :: sent w) with ([rq] ++ sent w)%list. rewrite app_assoc. f_equal.
    change [rq] with (replicate 1 rq). rewrite <- replicate_add. f_equal. lia. }
  destruct (server (length (sent w)) rq) as [http_error|status_code json] eqn:Hreply.
  - destruct (Z.gtb_spec (attempt + 1) (retries f)) as [Hgt|Hle].
    { eexists _, _, 1%nat. split; [reflexivity|]. split; [lia|]. split; [exact Hone|].
      intros ? ? [=]. }
    destruct (float_mul_int (delay f) (attempt + 1 + 1)) as [x|e].
    2: { eexists _, _, 1%nat. split; [reflexivity|]. split; [lia|]. split; [exact Hone|].
         intros ? ? [=]. }
    destruct (sleep (py_min (float_of_Z 60) x)) as [[]|e].
    2: { eexists _, _, 1%nat. split; [reflexivity|]. split; [lia|].
         split; [by repeat split|]. intros ? ? [=]. }
    destruct (IH (attempt + 1) (slept (py_min (float_of_Z 60) x) (send rq w)))
      as (r & w1 & n & Heq & Hn & Hreq & Hret); [lia|].
    destruct (Hmore _ w1 n Hn Hle Hreq) as [Hn' Hreq'].
    exists r, w1, (S n). split; [exact Heq|]. split; [exact Hn'|]. split; [exact Hreq'|].
    exact Hret.
  - destruct ((status_code =? 429) && (attempt <? retries f)) eqn:Hretry.
    + apply andb_prop in Hretry as [_ Hlt%Z.ltb_lt].
      destruct (x ← float_mul_int (delay f) (attempt + 1 + 1); float_mul_int x 2) as [x|e].
      2: { eexists _, _, 1%nat. split; [reflexivity|]. split; [lia|]. split; [exact Hone|].
           intros ? ? [=]. }
      destruct (sleep (py_min (float_of_Z 120) x)) as [[]|e].
      2: { eexists _, _, 1%nat. split; [reflexivity|]. split; [lia|].
           split; [by repeat split|]. intros ? ? [=]. }
      destruct (IH (attempt + 1) (slept (py_min (float_of_Z 120) x) (send rq w)))
        as (r & w1 & n & Heq & Hn & Hreq & Hret); [lia|].
      destruct (Hmore _ w1 n Hn ltac:(lia) Hreq) as [Hn' Hreq'].
      exists r, w1, (S n). split; [exact Heq|]. split; [exact Hn'|]. split; [exact Hreq'|].
      exact Hret.
    + destruct (is_error_status status_code) eqn:Herr.
      * eexists _, _, 1%nat. split; [reflexivity|]. split; [lia|]. split; [exact Hone|].
        intros ? ? [=].
      * eexists _, _, 1%nat. split; [reflexivity|]. split; [lia|]. split; [exact Hone|].
        intros ? ? [= <- <-]. split; [exact Herr|]. by rewrite (Hlast _ Hone).
Qed.

(** More turns than the loop takes change nothing. *)
Lemma request_loop_more_fuel (fuel fuel' : nat) (attempt : Z) (w w' : world) r :
  request_loop server sleep fuel f rq attempt w = (Some r, w') ->
  (fuel <= fuel')%nat ->
  request_loop server sleep fuel' f rq attempt w = (Some r, w').
Proof.
  revert fuel' attempt w. induction fuel as [|fuel IH]; intros fuel' attempt w H Hle.
  { discriminate H. }
  destruct fuel' as [|fuel']; [lia|].
  cbn [request_loop] in H |- *.
  destruct (server (length (sent w)) rq) as [http_error|status_code json].
  - destruct (attempt + 1 >? retries f); [exact H|].
    destruct (float_mul_int (delay f) (attempt + 1 + 1)) as [x|e]; [|exact H].
    destruct (sleep (py_min (float_of_Z 60) x)) as [[]|e]; [|exact H].
    apply IH; [exact H|lia].
  - destruct ((status_code =? 429) && (attempt <? retries f)); [|exact H].
    destruct (x ← float_mul_int (delay f) (attempt + 1 + 1); float_mul_int x 2) as [x|e];
      [|exact H].
    destruct (sleep (py_min (float_of_Z 120) x)) as [[]|e]; [|exact H].
    apply IH; [exact H|lia].
Qed.

End RequestFacts.

(** X15: [_request] always comes back, after [retries + 1] requests at
    most.  Whatever the network and [time.sleep] do, the loop ends with a
    response or an exception; between one and [retries + 1] requests were
    sent (one when [retries] is negative), all of them the request asked
    for; the tables and the clock are untouched; and a response that is
    returned is the reply to the last request and has no 4xx or 5xx status:
    a 429 is either retried or raised.  More turns than [retries + 1]
    change nothing: the loop has ended before. *)
Theorem request_ends_within_retries
    (server : nat -> request -> reply) (sleep : spec_float -> res unit)
    (f : fetcher) (rq : request) (w : world) :
  exists r w' n,
    _request server sleep f rq w = (Some r, w')
    /\ (1 <= n <= Z.to_nat (retries f) + 1)%nat
    /\ (table_of w' = table_of w
        /\ committed w' = committed w
        /\ clock_reads w' = clock_reads w
        /\ sent w' = (replicate n rq ++ sent w)%list)
    /\ (forall status_code json,
          r = Returns (status_code, json) ->
          is_error_status status_code = false
          /\ server (length (sent w') - 1)%nat rq = Response status_code json)
    /\ (forall fuel, (Z.to_nat (retries f) < fuel)%nat ->
          request_loop server sleep fuel f rq 0 w = (Some r, w')).
Proof.
  unfold _request.
  destruct (request_loop_returns server sleep f rq (S (Z.to_nat (retries f))) 0 w)
    as (r & w' & n & Heq & Hn & Hreq & Hret).
  { rewrite Z.sub_0_r. lia. }
  rewrite Z.sub_0_r in Hn. exists r, w', n.
  split; [exact Heq|]. split; [exact Hn|]. split; [exact Hreq|]. split; [exact Hret|].
  intros fuel Hfuel.
  apply (request_loop_more_fuel server sleep f rq (S (Z.to_nat (retries f)))); [exact Heq|lia].
Qed.

(** *** Batches *)

Section InsertManyFacts.

Variable UNIFIED_COLUMNS : list string.
Variable PRIORITY : gmap string Z.
Variable utcnow : nat -> string.
Variable normalizer : pyval -> string -> res (option (gmap string pyval)).

(** A call of [upsert] that returns has put one row into the table, or
    none. *)
Lemma upsert_inserts (record : gmap string pyval)
    (db db' : gmap sqlval (gmap string sqlval)) (b : bool) :
  upsert UNIFIED_COLUMNS PRIORITY record db = Ok (b, db') ->
  if b then exists key row, db' = <[key := row]> db else db' = db.
Proof.
  unfold upsert. intros H.
  destruct (negb (truthy (dict_get record "vin"))); [by injection H as <- <-|].
  destruct (negb (truthy (dict_get record "source"))); [by injection H as <- <-|].
  destruct (bind_param (dict_get record "vin")) as [key|e]; [|discriminate H].
  cbn [mbind res_bind] in H.
  destruct (match select_source key db with
            | Some existing_source =>
                p ← priority_get PRIORITY (dict_get record "source");
                mret (stored_priority PRIORITY existing_source >? p)
            | None => mret false
            end) as [[|]|e]; [by injection H as <- <-| |discriminate H].
  cbn [mbind res_bind] in H.
  destruct (mapM _ UNIFIED_COLUMNS) as [values|e]; [|discriminate H].
  injection H as <- <-. unfold insert_or_replace. by eexists _, _.
Qed.

Lemma batch_frame_refl (w : world) : batch_frame w w.
Proof. by repeat split. Qed.

Lemma batch_frame_trans (w1 w2 w3 : world) :
  batch_frame w1 w2 -> batch_frame w2 w3 -> batch_frame w1 w3.
Proof.
  intros (Hc & Hs & Hz & Hk & Hr) (Hc' & Hs' & Hz' & Hk' & Hr').
  repeat split; [congruence..|lia|auto].
Qed.

Lemma insert_many_loop_spec (listings : list pyval) (inserted : Z) (w w' : world) r :
  insert_many_loop UNIFIED_COLUMNS PRIORITY utcnow normalizer listings inserted w = (r, w') ->
  batch_frame w w'
  /\ forall n, r = Ok n ->
       inserted <= n <= inserted + Z.of_nat (length listings)
       /\ Z.of_nat (size (table_of w')) <= Z.of_nat (size (table_of w)) + (n - inserted)
       /\ clock_reads w' = (clock_reads w + length listings)%nat.
Proof.
  revert inserted w w' r.
  induction listings as [|listing listings IH]; intros inserted w w' r H.
  { injection H as <- <-. split; [apply batch_frame_refl|].
    intros n [= <-]. cbn [length]. split; [lia|]. split; [lia|]. lia. }
  cbn [insert_many_loop] in H.
  assert (Htick : batch_frame w (tick w)) by (repeat split; cbn; [lia|done]).
  assert (Hskip : forall r w',
    insert_many_loop UNIFIED_COLUMNS PRIORITY utcnow normalizer listings inserted (tick w)
    = (r, w') ->
    batch_frame w w'
    /\ forall n, r = Ok n ->
         inserted <= n <= inserted + Z.of_nat (length (listing :: listings))
         /\ Z.of_nat (size (table_of w')) <= Z.of_nat (size (table_of w)) + (n - inserted)
         /\ clock_reads w' = (clock_reads w + length (listing :: listings))%nat).
  { intros r0 w0 [Hframe Hn]%IH. split; [by eapply batch_frame_trans|].
    intros n Hr. destruct (Hn n Hr) as (? & ? & ?). cbn [length tick clock_reads table_of] in *.
    split; [lia|]. split; [lia|]. lia. }
  destruct (normalizer listing (utcnow (clock_reads w))) as [[record|]|e].
  - destruct (negb (truthy (PDict record))); [by apply Hskip|].
    destruct (upsert UNIFIED_COLUMNS PRIORITY record (table_of (tick w)))
      as [[b db]|e] eqn:Hupsert.
    2: { injection H as <- <-. split; [exact Htick|]. intros n [=]. }
    apply upsert_inserts in Hupsert.
    destruct b.
    + destruct Hupsert as (key & row & ->).
      apply IH in H as [Hframe Hn]. split.
      * eapply batch_frame_trans; [|exact Hframe].
        repeat split; cbn; [lia|]. intros k Hk.
        destruct (decide (key = k)) as [->|Hne];
          [rewrite lookup_insert_eq; by eexists|by rewrite lookup_insert_ne].
      * intros n Hr. destruct (Hn n Hr) as (? & Hsize & ?).
        cbn [length tick set_table clock_reads table_of] in *.
        pose proof (map_size_insert key row (table_of w)) as Hins.
        destruct (table_of w !! key); cbn in Hins; (split; [lia|]); (split; [lia|]); lia.
    + subst db. apply Hskip.
      by destruct w.
  - by apply Hskip.
  - injection H as <- <-. split; [exact Htick|]. intros n [=].
Qed.

(** The loop over two lists, one after the other. *)
Lemma insert_many_loop_app (l1 l2 : list pyval) (inserted : Z) (w : world) :
  insert_many_loop UNIFIED_COLUMNS PRIORITY utcnow normalizer (l1 ++ l2) inserted w
  = match insert_many_loop UNIFIED_COLUMNS PRIORITY utcnow normalizer l1 inserted w with
    | (Ok n, w1) => insert_many_loop UNIFIED_COLUMNS PRIORITY utcnow normalizer l2 n w1
    | (Raise e, w1) => (Raise e, w1)
    end.
Proof.
  revert inserted w. induction l1 as [|listing l1 IH]; intros inserted w; [reflexivity|].
  cbn [app insert_many_loop].
  destruct (normalizer listing (utcnow (clock_reads w))) as [[record|]|e]; [|done..].
  destruct (negb (truthy (PDict record))); [done|].
  by destruct (upsert _ _ _ _) as [[[] db]|e].
Qed.

(** The count does not depend on where it starts. *)
Lemma insert_many_loop_shift (listings : list pyval) (inserted : Z) (w : world) :
  insert_many_loop UNIFIED_COLUMNS PRIORITY utcnow normalizer listings inserted w
  = match insert_many_loop UNIFIED_COLUMNS PRIORITY utcnow normalizer listings 0 w with
    | (Ok n, w') => (Ok (inserted + n), w')
    | (Raise e, w') => (Raise e, w')
    end.
Proof.
  revert inserted w. induction listings as [|listing listings IH]; intros inserted w.
  { cbn. by rewrite Z.add_0_r. }
  cbn [insert_many_loop].
  destruct (normalizer listing (utcnow (clock_reads w))) as [[record|]|e]; [|done..].
  destruct (negb (truthy (PDict record))); [done|].
  destruct (upsert _ _ _ _) as [[[] db]|e]; [|done..].
  rewrite (IH (inserted + 1)), (IH (0 + 1)).
  destruct (insert_many_loop _ _ _ _ _ 0 _) as [[n|e] w']; [|done].
  f_equal. f_equal. lia.
Qed.

End InsertManyFacts.

Section InsertManyBatches.

Variable UNIFIED_COLUMNS : list string.
Variable PRIORITY : gmap string Z.
Variable utcnow : nat -> string.
Variable normalizer : pyval -> string -> res (option (gmap string pyval)).

(** The loop does not read the committed table. *)
Lemma insert_many_loop_committed (listings : list pyval) (inserted : Z) (w : world)
    (c : gmap sqlval (gmap string sqlval)) :
  insert_many_loop UNIFIED_COLUMNS PRIORITY utcnow normalizer listings inserted
    (World (table_of w) c (clock_reads w) (sent w) (sleeps w))
  = let '(r, w') :=
      insert_many_loop UNIFIED_COLUMNS PRIORITY utcnow normalizer listings inserted w in
    (r, World (table_of w') c (clock_reads w') (sent w') (sleeps w')).
Proof.
  revert inserted w. induction listings as [|listing listings IH]; intros inserted w.
  { reflexivity. }
  cbn [insert_many_loop clock_reads].
  destruct (normalizer listing (utcnow (clock_reads w))) as [[record|]|e];
    [|exact (IH inserted (tick w))|reflexivity].
  destruct (negb (truthy (PDict record))); [exact (IH inserted (tick w))|].
  cbn [tick table_of].
  destruct (upsert _ _ _ _) as [[[] db]|e]; [| |reflexivity].
  - exact (IH (inserted + 1) (set_table db (tick w))).
  - exact (IH inserted (set_table db (tick w))).
Qed.

Lemma insert_many_app (l1 l2 : list pyval) (w w1 w2 : world) (n1 n2 : Z) :
  insert_many UNIFIED_COLUMNS PRIORITY utcnow normalizer l1 w = (Ok n1, w1) ->
  insert_many UNIFIED_COLUMNS PRIORITY utcnow normalizer l2 w1 = (Ok n2, w2) ->
  insert_many UNIFIED_COLUMNS PRIORITY utcnow normalizer (l1 ++ l2) w = (Ok (n1 + n2), w2).
Proof.
  unfold insert_many. rewrite insert_many_loop_app.
  destruct (insert_many_loop _ _ _ _ l1 0 w) as [[m1|e] v1]; [|discriminate].
  intros [= -> <-]. unfold commit at 1.
  rewrite insert_many_loop_committed, (insert_many_loop_shift _ _ _ _ l2 n1).
  destruct (insert_many_loop _ _ _ _ l2 0 v1) as [[m2|e] v2]; [|discriminate].
  intros [= -> <-]. reflexivity.
Qed.

(** Where a batch fails: the listings before the failing one have been
    dealt with, and nothing is committed. *)
Lemma insert_many_loop_raises (listings : list pyval) (inserted : Z) (w w' : world) e :
  insert_many_loop UNIFIED_COLUMNS PRIORITY utcnow normalizer listings inserted w
  = (Raise e, w') ->
  exists l1 bad l2 n w1,
    listings = (l1 ++ bad :: l2)%list
    /\ insert_many_loop UNIFIED_COLUMNS PRIORITY utcnow normalizer l1 inserted w = (Ok n, w1)
    /\ w' = tick w1
    /\ (normalizer bad (utcnow (clock_reads w1)) = Raise e
        \/ exists record,
             normalizer bad (utcnow (clock_reads w1)) = Ok (Some record)
             /\ upsert UNIFIED_COLUMNS PRIORITY record (table_of w1) = Raise e).
Proof.
  revert inserted w. induction listings as [|listing listings IH]; intros inserted w H.
  { discriminate H. }
  cbn [insert_many_loop] in H.
  assert (Hnext : forall i w0,
    insert_many_loop UNIFIED_COLUMNS PRIORITY utcnow normalizer [listing] inserted w
    = (Ok i, w0) ->
    insert_many_loop UNIFIED_COLUMNS PRIORITY utcnow normalizer listings i w0
    = (Raise e, w') ->
    exists l1 bad l2 n w1,
      listing :: listings = (l1 ++ bad :: l2)%list
      /\ insert_many_loop UNIFIED_COLUMNS PRIORITY utcnow normalizer l1 inserted w = (Ok n, w1)
      /\ w' = tick w1
      /\ (normalizer bad (utcnow (clock_reads w1)) = Raise e
          \/ exists record,
               normalizer bad (utcnow (clock_reads w1)) = Ok (Some record)
               /\ upsert UNIFIED_COLUMNS PRIORITY record (table_of w1) = Raise e)).
  { intros i w0 Hone (l1 & bad & l2 & n & w1 & -> & Hl1 & -> & Hbad)%IH.
    exists (listing :: l1), bad, l2, n, w1. split; [reflexivity|].
    split; [|by split].
    change (listing :: l1) with ([listing] ++ l1)%list.
    by rewrite insert_many_loop_app, Hone. }
  cbn [insert_many_loop] in Hnext.
  destruct (normalizer listing (utcnow (clock_reads w))) as [[record|]|e0] eqn:Hnorm.
  - destruct (negb (truthy (PDict record))); [by eapply Hnext|].
    destruct (upsert UNIFIED_COLUMNS PRIORITY record (table_of (tick w)))
      as [[[] db]|e0] eqn:Hupsert; [by eapply Hnext..|].
    injection H as <- <-. exists [], listing, listings, inserted, w.
    split; [reflexivity|]. split; [reflexivity|]. split; [reflexivity|].
    right. by exists record.
  - by eapply Hnext.
  - injection H as <- <-. exists [], listing, listings, inserted, w.
    split; [reflexivity|]. split; [reflexivity|]. split; [reflexivity|]. by left.
Qed.

End InsertManyBatches.

(** A record whose column values pass the test one by one. *)
Lemma storable_record_forallb (cols : list string) (record : gmap string pyval) :
  forallb (fun c => storable (dict_get record c)) cols = true ->
  storable_record cols record.
Proof.
  intros H c Hc. rewrite forallb_forall in H. apply H.
  by apply list_elem_of_In.
Qed.

Lemma sample_marketcheck_produced :
  normalize_marketcheck_listing sample_columns sample_dumps
    sample_marketcheck_listing sample_fetched_at
  = Ok (Some sample_marketcheck_normalized).
Proof. apply produced_record. vm_compute. reflexivity. Qed.

Lemma sample_marketcheck_upserted :
  upsert sample_columns sample_priority sample_marketcheck_normalized ∅
  = Ok (true, <[SText "1FAKE000000000001"
                := row_of sample_columns sample_marketcheck_normalized]> ∅).
Proof.
  apply (upsert_replaces sample_columns sample_priority sample_marketcheck_normalized ∅
           "1FAKE000000000001" "marketcheck" vin_sample_column).
  - vm_compute. reflexivity.
  - discriminate.
  - vm_compute. reflexivity.
  - discriminate.
  - by left.
  - apply storable_record_forallb. vm_compute. reflexivity.
Qed.

(** The loop of [insert_many] on the Marketcheck listing of the examples:
    one row written, nothing committed yet. *)
Lemma sample_batch_loop :
  insert_many_loop sample_columns sample_priority sample_utcnow
    (call_normalizer (normalize_marketcheck_listing sample_columns sample_dumps))
    [PDict sample_marketcheck_listing] 0 sample_world
  = (Ok 1,
     World (<[SText "1FAKE000000000001"
              := row_of sample_columns sample_marketcheck_normalized]> ∅) ∅ 1 [] []).
Proof.
  cbn [insert_many_loop]. unfold call_normalizer, sample_utcnow.
  cbn [as_dict mbind res_bind].
  rewrite sample_marketcheck_produced.
  assert (Htruthy : truthy (PDict sample_marketcheck_normalized) = true)
    by (vm_compute; reflexivity).
  rewrite Htruthy. cbn [negb tick table_of sample_world].
  rewrite sample_marketcheck_upserted. reflexivity.
Qed.

(** X16: what [insert_many] returns and leaves behind.  When it returns,
    the count lies between 0 and the number of listings; the table has
    grown by at most that many rows and has lost none; everything written
    is committed; the clock was read once per listing; no request was sent
    and no sleep taken. *)
Theorem insert_many_counts_and_commits
    (UNIFIED_COLUMNS : list string) (PRIORITY : gmap string Z) (utcnow : nat -> string)
    (normalizer : pyval -> string -> res (option (gmap string pyval)))
    (listings : list pyval) (w w' : world) (n : Z) :
  insert_many UNIFIED_COLUMNS PRIORITY utcnow normalizer listings w = (Ok n, w') ->
  0 <= n <= Z.of_nat (length listings)
  /\ Z.of_nat (size (table_of w')) <= Z.of_nat (size (table_of w)) + n
  /\ (forall k, is_Some (table_of w !! k) -> is_Some (table_of w' !! k))
  /\ committed w' = table_of w'
  /\ clock_reads w' = (clock_reads w + length listings)%nat
  /\ sent w' = sent w
  /\ sleeps w' = sleeps w.
Proof.
  unfold insert_many.
  destruct (insert_many_loop _ _ _ _ listings 0 w) as [[m|e] v] eqn:Hloop; [|discriminate].
  intros [= -> <-].
  destruct (insert_many_loop_spec _ _ _ _ _ _ _ _ _ Hloop)
    as [(Hc & Hs & Hz & _ & Hrows) Hn].
  destruct (Hn n eq_refl) as (Hcount & Hsize & Hclock).
  cbn [commit table_of committed clock_reads sent sleeps].
  split; [lia|]. split; [lia|]. by repeat split.
Qed.

Lemma insert_many_counts_and_commits_witness :
  let w' :=
    World (<[SText "1FAKE000000000001"
             := row_of sample_columns sample_marketcheck_normalized]> ∅)
          (<[SText "1FAKE000000000001"
             := row_of sample_columns sample_marketcheck_normalized]> ∅) 1 [] [] in
  0 <= 1 <= Z.of_nat (length [PDict sample_marketcheck_listing])
  /\ Z.of_nat (size (table_of w')) <= Z.of_nat (size (table_of sample_world)) + 1
  /\ (forall k, is_Some (table_of sample_world !! k) -> is_Some (table_of w' !! k))
  /\ committed w' = table_of w'
  /\ clock_reads w' = (clock_reads sample_world + length [PDict sample_marketcheck_listing])%nat
  /\ sent w' = sent sample_world
  /\ sleeps w' = sleeps sample_world.
Proof.
  intros w'.
  apply (insert_many_counts_and_commits sample_columns sample_priority sample_utcnow
           (call_normalizer (normalize_marketcheck_listing sample_columns sample_dumps))).
  unfold insert_many. by rewrite sample_batch_loop.
Defined.

(** X17: two batches, one after the other, are one batch.  When
    [insert_many] returns for a list of listings and then for a second
    list, it returns for the two lists joined the sum of the two counts,
    and leaves the same world. *)
Theorem insert_many_of_joined_batches
    (UNIFIED_COLUMNS : list string) (PRIORITY : gmap string Z) (utcnow : nat -> string)
    (normalizer : pyval -> string -> res (option (gmap string pyval)))
    (l1 l2 : list pyval) (w w1 w2 : world) (n1 n2 : Z) :
  insert_many UNIFIED_COLUMNS PRIORITY utcnow normalizer l1 w = (Ok n1, w1) ->
  insert_many UNIFIED_COLUMNS PRIORITY utcnow normalizer l2 w1 = (Ok n2, w2) ->
  insert_many UNIFIED_COLUMNS PRIORITY utcnow normalizer (l1 ++ l2) w = (Ok (n1 + n2), w2).
Proof. apply insert_many_app. Qed.

(** A listing with a VIN, then a listing without one. *)
Lemma insert_many_of_joined_batches_witness :
  let normalizer :=
    call_normalizer (normalize_marketcheck_listing sample_columns sample_dumps) in
  let table : gmap sqlval (gmap string sqlval) :=
    <[SText "1FAKE000000000001" := row_of sample_columns sample_marketcheck_normalized]> ∅ in
  insert_many sample_columns sample_priority sample_utcnow normalizer
    ([PDict sample_marketcheck_listing] ++ [PDict ∅]) sample_world
  = (Ok (1 + 0), World table table 2 [] []).
Proof.
  intros normalizer table.
  apply (insert_many_of_joined_batches sample_columns sample_priority sample_utcnow
           normalizer _ _ sample_world (World table table 1 [] [])).
  - unfold insert_many, normalizer. by rewrite sample_batch_loop.
  - unfold insert_many, normalizer. cbn [insert_many_loop]. unfold call_normalizer.
    cbn [as_dict mbind res_bind].
    rewrite (marketcheck_skips_falsy_vin sample_columns sample_dumps ∅ sample_fetched_at);
      [reflexivity|by rewrite dict_get_empty].
Defined.

(** X18: a batch that fails is not committed, and is not undone either.
    When [insert_many] raises, the failing listing is the first whose
    normalisation or whose [upsert] raises; the listings before it have
    been dealt with as in a batch of their own, and their rows are in the
    table the connection sees; the committed table is the one before the
    call. *)
Theorem failed_batch_is_left_uncommitted
    (UNIFIED_COLUMNS : list string) (PRIORITY : gmap string Z) (utcnow : nat -> string)
    (normalizer : pyval -> string -> res (option (gmap string pyval)))
    (listings : list pyval) (w w' : world) (e : exn) :
  insert_many UNIFIED_COLUMNS PRIORITY utcnow normalizer listings w = (Raise e, w') ->
  committed w' = committed w
  /\ exists l1 bad l2 n w1,
       listings = (l1 ++ bad :: l2)%list
       /\ insert_many_loop UNIFIED_COLUMNS PRIORITY utcnow normalizer l1 0 w = (Ok n, w1)
       /\ table_of w' = table_of w1
       /\ clock_reads w' = (clock_reads w + length l1 + 1)%nat
       /\ (normalizer bad (utcnow (clock_reads w1)) = Raise e
           \/ exists record,
                normalizer bad (utcnow (clock_reads w1)) = Ok (Some record)
                /\ upsert UNIFIED_COLUMNS PRIORITY record (table_of w1) = Raise e).
Proof.
  unfold insert_many.
  destruct (insert_many_loop _ _ _ _ listings 0 w) as [[m|e0] v] eqn:Hloop; [discriminate|].
  intros [= -> ->].
  destruct (insert_many_loop_spec _ _ _ _ _ _ _ _ _ Hloop) as [(Hc & _) _].
  split; [exact Hc|].
  destruct (insert_many_loop_raises _ _ _ _ _ _ _ _ _ Hloop)
    as (l1 & bad & l2 & n & w1 & -> & Hl1 & -> & Hbad).
  exists l1, bad, l2, n, w1.
  destruct (insert_many_loop_spec _ _ _ _ _ _ _ _ _ Hl1) as [_ Hn].
  destruct (Hn n eq_refl) as (_ & _ & Hclock).
  split; [reflexivity|]. split; [exact Hl1|]. split; [reflexivity|].
  split; [cbn [tick clock_reads]; lia|exact Hbad].
Qed.

(** A batch of the Marketcheck listing of the examples and of a value that
    is no listing: the row of the first is written and not committed. *)
Lemma failed_batch_is_left_uncommitted_witness :
  let normalizer :=
    call_normalizer (normalize_marketcheck_listing sample_columns sample_dumps) in
  let w' :=
    World (<[SText "1FAKE000000000001"
             := row_of sample_columns sample_marketcheck_normalized]> ∅) ∅ 2 [] [] in
  insert_many sample_columns sample_priority sample_utcnow normalizer
    [PDict sample_marketcheck_listing; PStr "oops"] sample_world
  = (Raise AttributeError, w')
  /\ committed w' = committed sample_world
  /\ is_Some (table_of w' !! SText "1FAKE000000000001").
Proof.
  intros normalizer w'.
  assert (Hfails :
    insert_many sample_columns sample_priority sample_utcnow normalizer
      [PDict sample_marketcheck_listing; PStr "oops"] sample_world
    = (Raise AttributeError, w')).
  { unfold insert_many.
    change [PDict sample_marketcheck_listing; PStr "oops"]
      with ([PDict sample_marketcheck_listing] ++ [PStr "oops"])%list.
    rewrite insert_many_loop_app. unfold normalizer. by rewrite sample_batch_loop. }
  split; [exact Hfails|].
  destruct (failed_batch_is_left_uncommitted sample_columns sample_priority sample_utcnow
              normalizer _ sample_world w' AttributeError Hfails) as [Hcommitted _].
  split; [exact Hcommitted|].
  cbn [table_of w']. rewrite lookup_insert_eq. by eexists.
Defined.

(** *** Precedence over a batch *)

Section BatchPrecedence.

Variable UNIFIED_COLUMNS : list string.
Variable PRIORITY : gmap string Z.
Variable utcnow : nat -> string.
Variable normalizer : pyval -> string -> res (option (gmap string pyval)).
Variable name : string.
Hypothesis vin_column : "vin" ∈ UNIFIED_COLUMNS.
Hypothesis own_source :
  forall listing fetched_at record,
    normalizer listing fetched_at = Ok (Some record) ->
    dict_get record "source" = PStr name.

Lemma upsert_keeps_outranking_row (record : gmap string pyval)
    (db db' : gmap sqlval (gmap string sqlval)) (b : bool) (k : sqlval)
    (row : gmap string sqlval) :
  dict_get record "source" = PStr name ->
  upsert UNIFIED_COLUMNS PRIORITY record db = Ok (b, db') ->
  k <> SNull -> db !! k = Some row -> outranks PRIORITY name row ->
  db' !! k = Some row.
Proof.
  intros Hsrc H Hk Hrow (s & Hs & Hlt).
  destruct (upsert_inv UNIFIED_COLUMNS PRIORITY record db db' b vin_column H)
    as [[_ ->]|(_ & -> & _ & _ & _ & Hsel)]; [exact Hrow|].
  destruct (decide (sql_of (dict_get record "vin") = k)) as [Heq|Hne];
    [|by rewrite lookup_insert_ne].
  rewrite Heq in Hsel.
  assert (Hstored : select_source k db = Some (SText s)).
  { unfold select_source. destruct k; [done|..]; by rewrite Hrow; cbn; rewrite Hs. }
  destruct Hsel as [Hnone|(stored & p & Hsome & Hp & Hle)]; [congruence|].
  rewrite Hsrc in Hp. cbn [priority_get] in Hp. injection Hp as <-.
  rewrite Hstored in Hsome. injection Hsome as <-. cbn [stored_priority] in Hle. lia.
Qed.

Lemma insert_many_loop_keeps_outranking_rows (listings : list pyval) (inserted : Z)
    (w w' : world) r (k : sqlval) (row : gmap string sqlval) :
  insert_many_loop UNIFIED_COLUMNS PRIORITY utcnow normalizer listings inserted w = (r, w') ->
  k <> SNull -> table_of w !! k = Some row -> outranks PRIORITY name row ->
  table_of w' !! k = Some row.
Proof.
  intros H Hk Hrow Hout. revert inserted w H Hrow.
  induction listings as [|listing listings IH]; intros inserted w H Hrow.
  { by injection H as <- <-. }
  cbn [insert_many_loop] in H.
  destruct (normalizer listing (utcnow (clock_reads w))) as [[record|]|e] eqn:Hnorm.
  - destruct (negb (truthy (PDict record))); [by apply (IH _ _ H)|].
    destruct (upsert UNIFIED_COLUMNS PRIORITY record (table_of (tick w)))
      as [[b db]|e] eqn:Hupsert.
    2: { by injection H as <- <-. }
    assert (Hkept : db !! k = Some row).
    { exact (upsert_keeps_outranking_row record _ db b k row
               (own_source _ _ _ Hnorm) Hupsert Hk Hrow Hout). }
    destruct b; by apply (IH _ _ H).
  - by apply (IH _ _ H).
  - by injection H as <- <-.
Qed.

End BatchPrecedence.

Lemma call_autodev_source
    (UNIFIED_COLUMNS : list string) (json_dumps : bool -> pyval -> string)
    (listing : pyval) (fetched_at : string) (record : gmap string pyval) :
  call_normalizer (normalize_autodev_listing UNIFIED_COLUMNS json_dumps) listing fetched_at
  = Ok (Some record) ->
  dict_get record "source" = PStr "autodev".
Proof.
  unfold call_normalizer. destruct listing as [| | | | | |d]; try discriminate.
  cbn [as_dict mbind res_bind]. intros H.
  assert (Hvehicle : exists vehicle_d,
             py_or (dict_get d "vehicle") (PDict ∅) = PDict vehicle_d).
  { unfold normalize_autodev_listing in H.
    destruct (as_dict (py_or (dict_get d "retailListing") (PDict ∅))); [|discriminate H].
    cbn [mbind res_bind] in H.
    destruct (py_or (dict_get d "vehicle") (PDict ∅)); try discriminate H. by eexists. }
  destruct Hvehicle as [vehicle_d Hvehicle].
  destruct (autodev_identity UNIFIED_COLUMNS json_dumps d fetched_at record vehicle_d
              Hvehicle H) as (_ & _ & Hsource & _).
  by apply dict_get_lookup.
Qed.

Lemma call_marketcheck_source
    (UNIFIED_COLUMNS : list string) (json_dumps : bool -> pyval -> string)
    (listing : pyval) (fetched_at : string) (record : gmap string pyval) :
  call_normalizer (normalize_marketcheck_listing UNIFIED_COLUMNS json_dumps) listing fetched_at
  = Ok (Some record) ->
  dict_get record "source" = PStr "marketcheck".
Proof.
  unfold call_normalizer. destruct listing as [| | | | | |d]; try discriminate.
  cbn [as_dict mbind res_bind]. intros H.
  destruct (marketcheck_identity UNIFIED_COLUMNS json_dumps d fetched_at record H)
    as (_ & _ & Hsource & _).
  by apply dict_get_lookup.
Qed.

(** X19: a batch never touches a row of a source that outranks its own.
    However [insert_many] ends for the listings of one API, with a count or
    with an exception, every row with a VIN whose stored source has a
    priority above that of the API's own source name is left exactly as it
    was. *)
Theorem batch_keeps_outranking_rows
    (UNIFIED_COLUMNS : list string) (PRIORITY : gmap string Z)
    (json_dumps : bool -> pyval -> string) (utcnow : nat -> string)
    (listings : list pyval) (w : world) (k : sqlval) (row : gmap string sqlval)
    (s : string) :
  "vin" ∈ UNIFIED_COLUMNS ->
  k <> SNull ->
  table_of w !! k = Some row ->
  row !! "source" = Some (SText s) ->
  (default 0 (PRIORITY !! "autodev") < default 0 (PRIORITY !! s) ->
   table_of (insert_many UNIFIED_COLUMNS PRIORITY utcnow
               (call_normalizer (normalize_autodev_listing UNIFIED_COLUMNS json_dumps))
               listings w).2 !! k
   = Some row)
  /\ (default 0 (PRIORITY !! "marketcheck") < default 0 (PRIORITY !! s) ->
      table_of (insert_many UNIFIED_COLUMNS PRIORITY utcnow
                  (call_normalizer (normalize_marketcheck_listing UNIFIED_COLUMNS json_dumps))
                  listings w).2 !! k
      = Some row).
Proof.
  intros Hcol Hk Hrow Hs. split; intros Hlt; unfold insert_many.
  - destruct (insert_many_loop _ _ _ _ listings 0 w) as [[n|e] w'] eqn:Hloop;
      cbn [snd commit table_of];
      apply (insert_many_loop_keeps_outranking_rows UNIFIED_COLUMNS PRIORITY utcnow _
               "autodev" Hcol (call_autodev_source UNIFIED_COLUMNS json_dumps)
               _ _ _ _ _ k row Hloop Hk Hrow);
      by exists s.
  - destruct (insert_many_loop _ _ _ _ listings 0 w) as [[n|e] w'] eqn:Hloop;
      cbn [snd commit table_of];
      apply (insert_many_loop_keeps_outranking_rows UNIFIED_COLUMNS PRIORITY utcnow _
               "marketcheck" Hcol (call_marketcheck_source UNIFIED_COLUMNS json_dumps)
               _ _ _ _ _ k row Hloop Hk Hrow);
      by exists s.
Qed.

(** An Auto.dev batch meets the Marketcheck row of the specification's
    scenario. *)
Lemma batch_keeps_outranking_rows_witness :
  table_of (insert_many sample_columns sample_priority sample_utcnow
              (call_normalizer (normalize_autodev_listing sample_columns sample_dumps))
              [PDict sample_year_listing]
              (World sample_table sample_table 0 [] [])).2
    !! SText "1FAKE000000000001"
  = Some (row_of sample_columns sample_marketcheck_record).
Proof.
  assert (Hne : SText "1FAKE000000000001" <> SNull) by discriminate.
  destruct (batch_keeps_outranking_rows sample_columns sample_priority sample_dumps
              sample_utcnow [PDict sample_year_listing]
              (World sample_table sample_table 0 [] [])
              (SText "1FAKE000000000001")
              (row_of sample_columns sample_marketcheck_record) "marketcheck"
              vin_sample_column Hne (lookup_singleton_eq _ _)
              (lookup_row_of sample_columns sample_marketcheck_record "source"
                 source_sample_column)) as [Hautodev _].
  apply Hautodev. vm_compute. reflexivity.
Defined.

(** *** Pages *)

Section RunFacts.

Variable UNIFIED_COLUMNS : list string.
Variable PRIORITY : gmap string Z.
Variable json_dumps : bool -> pyval -> string.
Variable utcnow : nat -> string.
Variable server : nat -> request -> reply.
Variable sleep : pyfloat -> res unit.
Variable f : fetcher.

Lemma request_frame (rq : request) (w : world) :
  exists r w',
    _request server sleep f rq w = (Some r, w')
    /\ page_frame f w w' /\ page_rows w w' 0.
Proof.
  destruct (request_loop_returns server sleep f rq (S (Z.to_nat (retries f))) 0 w)
    as (r & w' & n & Heq & Hn & (Ht & Hc & _ & Hs) & _).
  { rewrite Z.sub_0_r. lia. }
  rewrite Z.sub_0_r in Hn.
  exists r, w'. split; [exact Heq|]. unfold page_frame, page_rows. split.
  - rewrite Ht. split; [done|].
    rewrite Hs, length_app, length_replicate. lia.
  - split; [lia|]. rewrite Ht, Hc. split; [lia|done].
Qed.

Lemma insert_many_frame normalizer (listings : list pyval) (w w' : world) r :
  insert_many UNIFIED_COLUMNS PRIORITY utcnow normalizer listings w = (r, w') ->
  (forall k, is_Some (table_of w !! k) -> is_Some (table_of w' !! k))
  /\ sent w' = sent w
  /\ forall n, r = Ok n ->
       0 <= n <= Z.of_nat (length listings)
       /\ Z.of_nat (size (table_of w')) <= Z.of_nat (size (table_of w)) + n
       /\ committed w' = table_of w'.
Proof.
  unfold insert_many.
  destruct (insert_many_loop _ _ _ _ listings 0 w) as [[m|e] v] eqn:Hloop;
    intros [= <- <-];
    destruct (insert_many_loop_spec _ _ _ _ _ _ _ _ _ Hloop)
      as [(_ & Hs & _ & _ & Hrows) Hn].
  - split; [exact Hrows|]. split; [exact Hs|]. intros n [= <-].
    destruct (Hn m eq_refl) as (? & ? & _). cbn [commit table_of committed].
    split; [lia|]. split; [lia|done].
  - split; [exact Hrows|]. split; [exact Hs|]. intros n [=].
Qed.

(** A request, then a batch. *)
Lemma page_frame_batch normalizer (listings : list pyval) (w w1 w2 : world) r :
  page_frame f w w1 -> page_rows w w1 0 ->
  insert_many UNIFIED_COLUMNS PRIORITY utcnow normalizer listings w1 = (r, w2) ->
  page_frame f w w2
  /\ forall n, r = Ok n -> n <= Z.of_nat (length listings) /\ page_rows w w2 n.
Proof.
  intros [Hrows Hsent] (_ & Hsize & _) (Hrows' & Hsent' & Hn)%insert_many_frame.
  split; [split; [auto|by rewrite Hsent']|].
  intros n Hr. destruct (Hn n Hr) as (Hcount & Hsize' & Hcommitted).
  split; [lia|]. split; [lia|]. split; [lia|done].
Qed.

Lemma page_frame_slept (w w' : world) (x : pyfloat) :
  page_frame f w w' -> page_frame f w (slept x w').
Proof. by intros [? ?]. Qed.

Lemma page_rows_slept (w w' : world) (d : Z) (x : pyfloat) :
  page_rows w w' d -> page_rows w (slept x w') d.
Proof. by intros (? & ? & ?). Qed.

(** One turn of the loop of [AutoDevFetcher.run]: it ends the loop, or it
    goes on to the next page, which it does only below the cap. *)
Lemma autodev_run_step (fuel : nat) (total_inserted page : Z) (w : world) :
  (exists r w',
      autodev_run_loop UNIFIED_COLUMNS PRIORITY json_dumps utcnow server sleep
        (S fuel) f total_inserted page w = (Some r, w')
      /\ page_frame f w w'
      /\ forall n, r = Returns n -> exists d, n = total_inserted + d /\ page_rows w w' d)
  \/ (exists w' d,
         autodev_run_loop UNIFIED_COLUMNS PRIORITY json_dumps utcnow server sleep
           (S fuel) f total_inserted page w
         = autodev_run_loop UNIFIED_COLUMNS PRIORITY json_dumps utcnow server sleep
             fuel f (total_inserted + d) (page + 1) w'
         /\ page_frame f w w'
         /\ page_rows w w' d
         /\ forall m, max_records f = Some m -> page * page_size f < m).
Proof.
  cbn [autodev_run_loop].
  destruct (request_frame
              (Request "GET" AUTODEV_URL (fetcher_headers f)
                 (dict_update [("limit", PInt (page_size f)); ("page", PInt page)]
                    (base_params f))) w)
    as (r & w1 & -> & Hframe & Hrows).
  assert (Hstop : forall r0,
    (forall n, r0 = Returns n -> n = total_inserted) ->
    exists (r' : result Z) (w' : world),
      (Some r0, w1) = (Some r', w')
      /\ page_frame f w w'
      /\ forall n, r' = Returns n -> exists d, n = total_inserted + d /\ page_rows w w' d).
  { intros r0 Hr0. exists r0, w1. split; [reflexivity|]. split; [exact Hframe|].
    intros n Hn. exists 0. split; [rewrite (Hr0 n Hn); lia|exact Hrows]. }
  destruct r as [[status_code [payload|]]|e].
  2: { left. apply Hstop. intros n [=]. }
  2: { left. destruct e; apply Hstop; intros n; by intros [=]. }
  destruct (get payload "data") as [data|e]; [|left; apply Hstop; intros n [=]].
  destruct (py_or data (PList [])) as [|b|i|x|s|[|listing rest]|d];
    try (left; apply Hstop; by intros n [=]).
  destruct (insert_many _ _ _ _ (listing :: rest) w1) as [[inserted|e] w2] eqn:Hbatch;
    destruct (page_frame_batch _ _ _ _ _ _ Hframe Hrows Hbatch) as [Hframe2 Hn].
  2: { left. exists (Raises (Builtin e)), w2. split; [reflexivity|].
       split; [exact Hframe2|]. intros n [=]. }
  destruct (Hn inserted eq_refl) as [_ Hrows2].
  destruct (reached (max_records f) (total_inserted + inserted)).
  { left. exists (Returns (total_inserted + inserted)), w2. split; [reflexivity|].
    split; [exact Hframe2|]. intros n [= <-]. by exists inserted. }
  destruct (Z.of_nat (length (listing :: rest)) <? page_size f).
  { left. exists (Returns (total_inserted + inserted)), w2. split; [reflexivity|].
    split; [exact Hframe2|]. intros n [= <-]. by exists inserted. }
  destruct (match max_records f with
            | Some m => (page + 1) * page_size f >=? m + page_size f
            | None => false
            end) eqn:Hcap.
  { left. exists (Returns (total_inserted + inserted)), w2. split; [reflexivity|].
    split; [exact Hframe2|]. intros n [= <-]. by exists inserted. }
  destruct (sleep (delay f)) as [[]|e].
  2: { left. exists (Raises (Builtin e)), (slept (delay f) w2). split; [reflexivity|].
       split; [by apply page_frame_slept|]. intros n [=]. }
  right. exists (slept (delay f) w2), inserted. split; [reflexivity|].
  split; [by apply page_frame_slept|]. split; [by apply page_rows_slept|].
  intros m Hm. rewrite Hm in Hcap. rewrite Z.geb_leb in Hcap.
  apply Z.leb_gt in Hcap. lia.
Qed.

(** One turn of the loop of [MarketcheckFetcher.run]: it ends the loop, or
    it goes on from a later offset, which it does only below the cap. *)
Lemma marketcheck_run_step (fuel : nat) (total_inserted start : Z) (w : world) :
  (exists r w',
      marketcheck_run_loop UNIFIED_COLUMNS PRIORITY json_dumps utcnow server sleep
        (S fuel) f total_inserted start w = (Some r, w')
      /\ page_frame f w w'
      /\ forall n, r = Returns n -> exists d, n = total_inserted + d /\ page_rows w w' d)
  \/ (exists w' d len,
         marketcheck_run_loop UNIFIED_COLUMNS PRIORITY json_dumps utcnow server sleep
           (S fuel) f total_inserted start w
         = marketcheck_run_loop UNIFIED_COLUMNS PRIORITY json_dumps utcnow server sleep
             fuel f (total_inserted + d) (start + len) w'
         /\ page_frame f w w'
         /\ page_rows w w' d
         /\ 1 <= len
         /\ forall m, max_records f = Some m -> start + len < m).
Proof.
  cbn [marketcheck_run_loop].
  destruct (request_frame
              (Request "GET" MARKETCHECK_URL (fetcher_headers f)
                 (dict_update [("api_key", PStr (api_key f)); ("start", PStr (pretty start))]
                    (dict_setdefault "rows" (PStr (pretty (page_size f))) (base_params f))))
              w)
    as (r & w1 & -> & Hframe & Hrows).
  assert (Hstop : forall r0,
    (forall n, r0 = Returns n -> n = total_inserted) ->
    exists (r' : result Z) (w' : world),
      (Some r0, w1) = (Some r', w')
      /\ page_frame f w w'
      /\ forall n, r' = Returns n -> exists d, n = total_inserted + d /\ page_rows w w' d).
  { intros r0 Hr0. exists r0, w1. split; [reflexivity|]. split; [exact Hframe|].
    intros n Hn. exists 0. split; [rewrite (Hr0 n Hn); lia|exact Hrows]. }
  destruct r as [[status_code [payload|]]|e].
  2: { left. apply Hstop. intros n [=]. }
  2: { left. destruct e; apply Hstop; intros n; by intros [=]. }
  destruct (get payload "listings") as [data|e]; [|left; apply Hstop; intros n [=]].
  destruct (py_or data (PList [])) as [|b|i|x|s|[|listing rest]|d];
    try (left; apply Hstop; by intros n [=]).
  destruct (insert_many _ _ _ _ (listing :: rest) w1) as [[inserted|e] w2] eqn:Hbatch;
    destruct (page_frame_batch _ _ _ _ _ _ Hframe Hrows Hbatch) as [Hframe2 Hn].
  2: { left. exists (Raises (Builtin e)), w2. split; [reflexivity|].
       split; [exact Hframe2|]. intros n [=]. }
  destruct (Hn inserted eq_refl) as [_ Hrows2].
  destruct (reached (max_records f) (total_inserted + inserted)).
  { left. exists (Returns (total_inserted + inserted)), w2. split; [reflexivity|].
    split; [exact Hframe2|]. intros n [= <-]. by exists inserted. }
  destruct (py_int _) as [rows|e].
  2: { left. exists (Raises (Builtin e)), w2. split; [reflexivity|].
       split; [exact Hframe2|]. intros n [=]. }
  destruct (Z.of_nat (length (listing :: rest)) <? rows).
  { left. exists (Returns (total_inserted + inserted)), w2. split; [reflexivity|].
    split; [exact Hframe2|]. intros n [= <-]. by exists inserted. }
  destruct (reached (max_records f) (start + Z.of_nat (length (listing :: rest)))) eqn:Hcap.
  { left. exists (Returns (total_inserted + inserted)), w2. split; [reflexivity|].
    split; [exact Hframe2|]. intros n [= <-]. by exists inserted. }
  destruct (sleep (delay f)) as [[]|e].
  2: { left. exists (Raises (Builtin e)), (slept (delay f) w2). split; [reflexivity|].
       split; [by apply page_frame_slept|]. intros n [=]. }
  right. exists (slept (delay f) w2), inserted, (Z.of_nat (length (listing :: rest))).
  split; [reflexivity|].
  split; [by apply page_frame_slept|]. split; [by apply page_rows_slept|].
  split; [cbn [length]; lia|].
  intros m Hm. rewrite Hm in Hcap. cbn [reached] in Hcap. rewrite Z.geb_leb in Hcap.
  apply Z.leb_gt in Hcap. lia.
Qed.

Lemma run_frame_one (w w' : world) : page_frame f w w' -> run_frame f 1 w w'.
Proof. intros [? ?]. split; [done|lia]. Qed.

Lemma run_frame_next (pages pages' : nat) (w w1 w2 : world) :
  page_frame f w w1 -> run_frame f pages w1 w2 -> (S pages <= pages')%nat ->
  run_frame f pages' w w2.
Proof. intros [? ?] [? ?] ?. split; [auto|nia]. Qed.

Lemma page_rows_next (w w1 w2 : world) (d d' : Z) :
  page_rows w w1 d -> page_rows w1 w2 d' -> page_rows w w2 (d + d').
Proof. intros (? & ? & ?) (? & ? & ?). split; [lia|]. split; [lia|auto]. Qed.

Lemma autodev_run_loop_ends (fuel : nat) (total_inserted page m : Z) (w : world) :
  max_records f = Some m -> 1 <= page_size f -> 1 <= page ->
  (autodev_pages_left f m page <= fuel)%nat ->
  exists r w',
    autodev_run_loop UNIFIED_COLUMNS PRIORITY json_dumps utcnow server sleep
      fuel f total_inserted page w = (Some r, w')
    /\ run_frame f (autodev_pages_left f m page) w w'.
Proof.
  intros Hm Hsize. revert total_inserted page w.
  induction fuel as [|fuel IH]; intros total_inserted page w Hpage Hfuel;
    [unfold autodev_pages_left in Hfuel; lia|].
  destruct (autodev_run_step fuel total_inserted page w)
    as [(r & w' & Heq & Hframe & _)|(w1 & d & Heq & Hframe & _ & Hcap)].
  - exists r, w'. split; [exact Heq|].
    eapply (run_frame_next 0); [exact Hframe| |unfold autodev_pages_left; lia].
    split; [done|lia].
  - specialize (Hcap m Hm).
    assert (Hnext : page + 1 <= (m + page_size f - 1) / page_size f).
    { apply Z.div_le_lower_bound; nia. }
    destruct (IH (total_inserted + d) (page + 1) w1) as (r & w' & Heq' & Hframe');
      [lia|unfold autodev_pages_left in *; lia|].
    exists r, w'. split; [by rewrite Heq|].
    eapply run_frame_next; [exact Hframe|exact Hframe'|].
    unfold autodev_pages_left. lia.
Qed.

Lemma marketcheck_run_loop_ends (fuel : nat) (total_inserted start m : Z) (w : world) :
  max_records f = Some m ->
  (marketcheck_pages_left m start <= fuel)%nat ->
  exists r w',
    marketcheck_run_loop UNIFIED_COLUMNS PRIORITY json_dumps utcnow server sleep
      fuel f total_inserted start w = (Some r, w')
    /\ run_frame f (marketcheck_pages_left m start) w w'.
Proof.
  intros Hm. revert total_inserted start w.
  induction fuel as [|fuel IH]; intros total_inserted start w Hfuel;
    [unfold marketcheck_pages_left in Hfuel; lia|].
  destruct (marketcheck_run_step fuel total_inserted start w)
    as [(r & w' & Heq & Hframe & _)|(w1 & d & len & Heq & Hframe & _ & Hlen & Hcap)].
  - exists r, w'. split; [exact Heq|].
    eapply (run_frame_next 0); [exact Hframe| |unfold marketcheck_pages_left; lia].
    split; [done|lia].
  - specialize (Hcap m Hm).
    destruct (IH (total_inserted + d) (start + len) w1) as (r & w' & Heq' & Hframe');
      [unfold marketcheck_pages_left in *; lia|].
    exists r, w'. split; [by rewrite Heq|].
    eapply run_frame_next; [exact Hframe|exact Hframe'|].
    unfold marketcheck_pages_left. lia.
Qed.

Lemma run_accounts_next (total_inserted d : Z) (w w1 w2 : world) (r : result Z) :
  page_frame f w w1 -> page_rows w w1 d ->
  run_accounts (total_inserted + d) w1 w2 r ->
  run_accounts total_inserted w w2 r.
Proof.
  intros [Hrows _] Hd [Hrows' Hn]. split; [auto|].
  intros n Hr. destruct (Hn n Hr) as (d' & -> & Hd').
  exists (d + d'). split; [lia|]. by eapply page_rows_next.
Qed.

Lemma autodev_run_loop_accounts (fuel : nat) (total_inserted page : Z) (w w' : world) r :
  autodev_run_loop UNIFIED_COLUMNS PRIORITY json_dumps utcnow server sleep
    fuel f total_inserted page w = (Some r, w') ->
  run_accounts total_inserted w w' r.
Proof.
  revert total_inserted page w. induction fuel as [|fuel IH]; intros total_inserted page w H.
  { discriminate H. }
  destruct (autodev_run_step fuel total_inserted page w)
    as [(r0 & w0 & Heq & [Hrows _] & Hn)|(w1 & d & Heq & Hframe & Hd & _)];
    rewrite Heq in H.
  - injection H as <- <-. by split.
  - eapply run_accounts_next; [exact Hframe|exact Hd|]. by eapply IH.
Qed.

Lemma marketcheck_run_loop_accounts (fuel : nat) (total_inserted start : Z)
    (w w' : world) r :
  marketcheck_run_loop UNIFIED_COLUMNS PRIORITY json_dumps utcnow server sleep
    fuel f total_inserted start w = (Some r, w') ->
  run_accounts total_inserted w w' r.
Proof.
  revert total_inserted start w. induction fuel as [|fuel IH]; intros total_inserted start w H.
  { discriminate H. }
  destruct (marketcheck_run_step fuel total_inserted start w)
    as [(r0 & w0 & Heq & [Hrows _] & Hn)|(w1 & d & len & Heq & Hframe & Hd & _)];
    rewrite Heq in H.
  - injection H as <- <-. by split.
  - eapply run_accounts_next; [exact Hframe|exact Hd|]. by eapply IH.
Qed.

End RunFacts.

(** X20: under a cap, [AutoDevFetcher.run] ends.  With [max_records] set
    to [m] and a page size of at least one, the loop asks for at most
    [ceil(m / page_size)] pages (one page when [m] is not positive): given
    that many turns it ends, with a count or an exception, whatever the
    network answers; it has then sent at most [retries + 1] requests per
    page, and no row of the table is lost. *)
Theorem autodev_run_ends_under_cap
    (UNIFIED_COLUMNS : list string) (PRIORITY : gmap string Z)
    (json_dumps : bool -> pyval -> string) (utcnow : nat -> string)
    (server : nat -> request -> reply) (sleep : spec_float -> res unit)
    (f : fetcher) (w : world) (m : Z) (fuel : nat) :
  max_records f = Some m ->
  1 <= page_size f ->
  let pages := Z.to_nat (Z.max 1 ((m + page_size f - 1) / page_size f)) in
  (pages <= fuel)%nat ->
  exists r w',
    autodev_run UNIFIED_COLUMNS PRIORITY json_dumps utcnow server sleep fuel f w
    = (Some r, w')
    /\ (length (sent w) <= length (sent w')
        <= length (sent w) + pages * S (Z.to_nat (retries f)))%nat
    /\ (forall k, is_Some (table_of w !! k) -> is_Some (table_of w' !! k)).
Proof.
  intros Hm Hsize pages Hfuel. unfold autodev_run.
  assert (Hpages : autodev_pages_left f m 1 = pages)
    by (unfold autodev_pages_left, pages; lia).
  destruct (autodev_run_loop_ends UNIFIED_COLUMNS PRIORITY json_dumps utcnow server sleep
              f fuel 0 1 m w Hm Hsize ltac:(lia)) as (r & w' & Heq & Hrows & Hsent);
    [by rewrite Hpages|].
  rewrite Hpages in Hsent. by exists r, w'.
Qed.

Lemma autodev_run_ends_under_cap_witness :
  exists r w',
    autodev_run sample_columns sample_priority sample_dumps sample_utcnow
      sample_server sample_sleep 3 sample_fetcher sample_world
    = (Some r, w')
    /\ (length (sent sample_world) <= length (sent w')
        <= length (sent sample_world) + 3 * S (Z.to_nat (retries sample_fetcher)))%nat
    /\ (forall k, is_Some (table_of sample_world !! k) -> is_Some (table_of w' !! k)).
Proof.
  apply (autodev_run_ends_under_cap sample_columns sample_priority sample_dumps
           sample_utcnow sample_server sample_sleep sample_fetcher sample_world 120 3
           eq_refl).
  - vm_compute. discriminate.
  - vm_compute. lia.
Defined.

(** X21: under a cap, [MarketcheckFetcher.run] ends.  With [max_records]
    set to [m] the loop asks for at most [m] pages (one page when [m] is
    not positive), for every page that lets it go on moves the offset by at
    least one listing: given that many turns it ends, with a count or an
    exception, whatever the network answers and whatever the page size; it
    has then sent at most [retries + 1] requests per page, and no row of
    the table is lost. *)
Theorem marketcheck_run_ends_under_cap
    (UNIFIED_COLUMNS : list string) (PRIORITY : gmap string Z)
    (json_dumps : bool -> pyval -> string) (utcnow : nat -> string)
    (server : nat -> request -> reply) (sleep : spec_float -> res unit)
    (f : fetcher) (w : world) (m : Z) (fuel : nat) :
  max_records f = Some m ->
  let pages := Z.to_nat (Z.max 1 m) in
  (pages <= fuel)%nat ->
  exists r w',
    marketcheck_run UNIFIED_COLUMNS PRIORITY json_dumps utcnow server sleep fuel f w
    = (Some r, w')
    /\ (length (sent w) <= length (sent w')
        <= length (sent w) + pages * S (Z.to_nat (retries f)))%nat
    /\ (forall k, is_Some (table_of w !! k) -> is_Some (table_of w' !! k)).
Proof.
  intros Hm pages Hfuel. unfold marketcheck_run.
  assert (Hpages : marketcheck_pages_left m 0 = pages)
    by (unfold marketcheck_pages_left, pages; lia).
  destruct (marketcheck_run_loop_ends UNIFIED_COLUMNS PRIORITY json_dumps utcnow server
              sleep f fuel 0 0 m w Hm) as (r & w' & Heq & Hrows & Hsent);
    [by rewrite Hpages|].
  rewrite Hpages in Hsent. by exists r, w'.
Qed.

Lemma marketcheck_run_ends_under_cap_witness :
  exists r w',
    marketcheck_run sample_columns sample_priority sample_dumps sample_utcnow
      sample_server sample_sleep 120 sample_fetcher sample_world
    = (Some r, w')
    /\ (length (sent sample_world) <= length (sent w')
        <= length (sent sample_world) + 120 * S (Z.to_nat (retries sample_fetcher)))%nat
    /\ (forall k, is_Some (table_of sample_world !! k) -> is_Some (table_of w' !! k)).
Proof.
  apply (marketcheck_run_ends_under_cap sample_columns sample_priority sample_dumps
           sample_utcnow sample_server sample_sleep sample_fetcher sample_world 120 120
           eq_refl).
  vm_compute. lia.
Defined.

Lemma run_accounts_of_run
    (UNIFIED_COLUMNS : list string) (PRIORITY : gmap string Z)
    (json_dumps : bool -> pyval -> string) (utcnow : nat -> string)
    (server : nat -> request -> reply) (sleep : spec_float -> res unit)
    (fuel : nat) (cf : fetcher_class * fetcher) (w w' : world) (r : result Z) :
  run UNIFIED_COLUMNS PRIORITY json_dumps utcnow server sleep fuel cf w = (Some r, w') ->
  (forall k, is_Some (table_of w !! k) -> is_Some (table_of w' !! k))
  /\ forall n, r = Returns n ->
       0 <= n
       /\ Z.of_nat (size (table_of w')) <= Z.of_nat (size (table_of w)) + n
       /\ (committed w = table_of w -> committed w' = table_of w').
Proof.
  unfold run, autodev_run, marketcheck_run. intros H.
  assert (Haccounts : run_accounts 0 w w' r).
  { destruct cf as [[] f]; cbn [fst snd] in H.
    - by eapply autodev_run_loop_accounts.
    - by eapply marketcheck_run_loop_accounts. }
  destruct Haccounts as [Hrows Hn]. split; [exact Hrows|].
  intros n Hr. destruct (Hn n Hr) as (d & -> & Hd & Hsize & Hcommitted).
  split; [lia|]. split; [lia|exact Hcommitted].
Qed.

(** X22: the count [run] returns accounts for the rows it wrote.  When a
    run of either fetcher ends, no row of the table is lost; when it
    returns a count, the count is not negative, the table has grown by at
    most that many rows, and nothing is left uncommitted if nothing was
    before. *)
Theorem run_accounts_for_its_rows
    (UNIFIED_COLUMNS : list string) (PRIORITY : gmap string Z)
    (json_dumps : bool -> pyval -> string) (utcnow : nat -> string)
    (server : nat -> request -> reply) (sleep : spec_float -> res unit)
    (fuel : nat) (cf : fetcher_class * fetcher) (w w' : world) (r : result Z) :
  run UNIFIED_COLUMNS PRIORITY json_dumps utcnow server sleep fuel cf w = (Some r, w') ->
  (forall k, is_Some (table_of w !! k) -> is_Some (table_of w' !! k))
  /\ forall n, r = Returns n ->
       0 <= n
       /\ Z.of_nat (size (table_of w')) <= Z.of_nat (size (table_of w)) + n
       /\ (committed w = table_of w -> committed w' = table_of w').
Proof. apply run_accounts_of_run. Qed.


(** The fetch of the one page of the sample server. *)
Lemma run_accounts_for_its_rows_witness :
  let outcome :=
    run sample_columns sample_priority sample_dumps sample_utcnow sample_server
      sample_sleep 1 (MarketcheckFetcher, sample_fetcher) sample_world in
  outcome.1 = Some (Returns 1)
  /\ (forall k, is_Some (table_of sample_world !! k) -> is_Some (table_of outcome.2 !! k))
  /\ Z.of_nat (size (table_of outcome.2)) <= Z.of_nat (size (table_of sample_world)) + 1
  /\ (committed sample_world = table_of sample_world ->
      committed outcome.2 = table_of outcome.2).
Proof.
  intros outcome.
  assert (Hfst : outcome.1 = Some (Returns 1)) by (vm_compute; reflexivity).
  split; [exact Hfst|].
  pose proof (surjective_pairing outcome) as Hrun. rewrite Hfst in Hrun.
  pose proof (run_accounts_for_its_rows sample_columns sample_priority sample_dumps
                sample_utcnow sample_server sample_sleep 1
                (MarketcheckFetcher, sample_fetcher) sample_world outcome.2 (Returns 1)) as H.
  specialize (H Hrun). destruct H as [Hrows Hn].
  split; [exact Hrows|]. destruct (Hn 1 eq_refl) as (_ & Hsize & Hcommitted).
  split; [exact Hsize|exact Hcommitted].
Defined.
(** X23: [main] closes the writer however the fetch ends.  After the fetch
    and the [finally] of [main], everything the connection sees is
    committed, rows written by a batch that failed half-way included; when
    the fetch ended, no row of the table is lost; and when the API key of
    the chosen API is not set, or is empty, the fetch raises [ValueError]
    before any request is sent and the table is as it was. *)
Theorem main_fetch_commits_whatever_happens
    (UNIFIED_COLUMNS : list string) (PRIORITY : gmap string Z)
    (json_dumps : bool -> pyval -> string) (utcnow : nat -> string)
    (server : nat -> request -> reply) (sleep : spec_float -> res unit)
    (env : gmap string string)
    (fuel : nat) (args : Namespace) (base_params : gmap string pyval)
    (w w' : world) (r : option (result Z)) :
  main_fetch UNIFIED_COLUMNS PRIORITY json_dumps utcnow server sleep env
    fuel args base_params w = (r, w') ->
  committed w' = table_of w'
  /\ (is_Some r -> forall k, is_Some (table_of w !! k) -> is_Some (table_of w' !! k))
  /\ (let variable :=
        if String.eqb (api args) "autodev" then "AUTODEV_API_KEY"
        else "MARKETCHECK_API_KEY" in
      env !! variable = None \/ env !! variable = Some "" ->
      r = Some (Raises (Builtin ValueError))
      /\ table_of w' = table_of w /\ sent w' = sent w).
Proof.
  unfold main_fetch, build_fetcher, new_fetcher. intros H.
  split; [|split].
  - destruct (match _ with Raise e => _ | Ok cf => _ end) as [r0 w0].
    by injection H as <- <-.
  - intros [r1 ->].
    destruct (String.eqb (api args) "autodev");
      match type of H with
      | context [env !! ?v] => destruct (env !! v) as [[|c key]|]
      end; cbn [mbind res_bind mret res_ret] in H;
      try (by injection H as _ <-).
    + destruct (run _ _ _ _ _ _ _ _ _) as [r0 w0] eqn:Hrun. injection H as -> <-.
      by destruct (run_accounts_of_run _ _ _ _ _ _ _ _ _ _ _ Hrun).
    + destruct (run _ _ _ _ _ _ _ _ _) as [r0 w0] eqn:Hrun. injection H as -> <-.
      by destruct (run_accounts_of_run _ _ _ _ _ _ _ _ _ _ _ Hrun).
  - cbv zeta. intros Hkey.
    destruct (String.eqb (api args) "autodev"); destruct Hkey as [Hkey|Hkey];
      rewrite Hkey in H; cbn [mbind res_bind] in H; by injection H as <- <-.
Qed.


Lemma main_fetch_commits_whatever_happens_witness :
  let outcome :=
    main_fetch sample_columns sample_priority sample_dumps sample_utcnow sample_server
      sample_sleep sample_env 1 (parse_args sample_args) ∅ sample_world in
  committed outcome.2 = table_of outcome.2
  /\ (is_Some outcome.1 ->
      forall k, is_Some (table_of sample_world !! k) -> is_Some (table_of outcome.2 !! k)).
Proof.
  intros outcome.
  pose proof (main_fetch_commits_whatever_happens sample_columns sample_priority
                sample_dumps sample_utcnow sample_server sample_sleep sample_env
                1 (parse_args sample_args) ∅ sample_world outcome.2 outcome.1) as H.
  pose proof (surjective_pairing outcome) as Hpair.
  specialize (H Hpair). destruct H as (Hcommitted & Hrows & _).
  split; [exact Hcommitted|exact Hrows].
Defined.

(** *** The command line *)

(** X24: [parse_args] only ever cuts the page size down.  The page size it
    returns is the smaller of the one given and the limit of the chosen
    API, 50 for Marketcheck and 500 for Auto.dev; there is no lower limit,
    so a page size of zero or below passes as it is.  Every other option
    is returned as given, and parsing again changes nothing.  The fetcher
    [build_fetcher] then makes has that page size, and is an
    [AutoDevFetcher] exactly when the API is "autodev". *)
Theorem parse_args_caps_the_page_size (parsed : Namespace) :
  let args := parse_args parsed in
  args_page_size args
  = (if String.eqb (api parsed) "marketcheck" then Z.min (args_page_size parsed) 50
     else if String.eqb (api parsed) "autodev" then Z.min (args_page_size parsed) 500
     else args_page_size parsed)
  /\ set_page_size (args_page_size parsed) args = parsed
  /\ parse_args args = args
  /\ forall env base_params class f,
       build_fetcher args env base_params = Ok (class, f) ->
       page_size f = args_page_size args
       /\ (class = AutoDevFetcher <-> api parsed = "autodev")
       /\ (api parsed = "autodev" -> page_size f <= 500)
       /\ (api parsed = "marketcheck" -> page_size f <= 50)
       /\ api_key f <> "".
Proof.
  assert (Hfetcher : forall (args : Namespace) env base_params class f,
    build_fetcher args env base_params = Ok (class, f) ->
    page_size f = args_page_size args
    /\ (class = AutoDevFetcher <-> api args = "autodev")
    /\ api_key f <> "").
  { intros args env base_params class f. unfold build_fetcher, new_fetcher.
    destruct (String.eqb_spec (api args) "autodev") as [Heq|Hne].
    - destruct (env !! "AUTODEV_API_KEY") as [[|c key]|]; try discriminate.
      intros [= <- <-]. by repeat split.
    - destruct (env !! "MARKETCHECK_API_KEY") as [[|c key]|]; try discriminate.
      intros [= <- <-]. by repeat split. }
  assert (Hsize : args_page_size (parse_args parsed)
                  = (if String.eqb (api parsed) "marketcheck"
                     then Z.min (args_page_size parsed) 50
                     else if String.eqb (api parsed) "autodev"
                     then Z.min (args_page_size parsed) 500
                     else args_page_size parsed)
                  /\ api (parse_args parsed) = api parsed
                  /\ set_page_size (args_page_size parsed) (parse_args parsed) = parsed).
  { destruct parsed as [a o b p m d t r v l]. unfold parse_args, set_page_size. cbn.
    destruct (String.eqb_spec a "marketcheck") as [->|Hm]; cbn.
    - destruct (Z.gtb_spec p 50); cbn; (split; [lia|done]).
    - destruct (String.eqb_spec a "autodev") as [->|Ha]; cbn; [|done].
      destruct (Z.gtb_spec p 500); cbn; (split; [lia|done]). }
  destruct Hsize as (Hsize & Hapi & Hrest). cbv zeta.
  split; [exact Hsize|]. split; [exact Hrest|]. split.
  - destruct (parse_args parsed) as [a o b p m d t r v l] eqn:Hargs.
    cbn in Hsize, Hapi. subst a. unfold parse_args. cbn.
    destruct (String.eqb_spec (api parsed) "marketcheck") as [Hm|Hm]; cbn.
    + destruct (Z.gtb_spec p 50); [lia|]. cbn.
      rewrite Hm. reflexivity.
    + destruct (String.eqb_spec (api parsed) "autodev") as [Ha|Ha]; cbn; [|done].
      destruct (Z.gtb_spec p 500); [lia|done].
  - intros env base_params class f (Hp & Hclass & Hkey)%Hfetcher.
    rewrite Hapi in Hclass. rewrite Hp, Hsize.
    split; [reflexivity|]. split; [exact Hclass|].
    split; [|split; [|exact Hkey]].
    + intros ->. cbn. lia.
    + intros ->. cbn. lia.
Qed.
